(** * ACME client (acme_client.py): shallow embedding and verification

    The development follows [src/project/acme_client.py].  Python [str] values
    are lists of Unicode code points, [bytes] values are lists of [byte];
    JSON-like Python objects are a small inductive type whose dictionaries keep
    insertion order; methods of [ACMEClient] are computations in a state and
    exception monad over the client's fields and the world it talks to (the two
    [requests] sessions, the signer, the DNS and HTTP challenge servers).

    What the embedding leaves out: [print] calls; transport failures of
    [requests] (every call gets a response); floats in JSON; and
    [str.format] of lists and dictionaries, which ends in [Unsupported].
    The libraries the client calls are modelled from their documented
    behaviour: [base64], [json.dumps] (with its ASCII escapes), SHA-256
    (executable, checked on a test vector), [Integer.to_bytes()].  The
    ECDSA signer is a parameter of the world: it is randomised and no
    statement depends on its output.

    The second part follows the rest of [acme_client.py] and
    [src/project/main.py]: the methods that read the directory, register the
    account, place the order, answer the challenges, download and revoke, and
    [obtain_certificate] that runs them.  There, dates are not modelled (the
    two date texts of an order are given), the DNS and HTTP servers of
    [main.py] are recorded by the calls made to them, and the RSA key, the
    signing request and the parsing of the certificate are parameters. *)

From Stdlib Require Import ZArith NArith List String Ascii Bool Lia.
From Stdlib Require Import Strings.Byte.
From Stdlib Require Import DecimalString.
Import ListNotations.

Local Open Scope N_scope.

(* ===================================================================== *)
(** ** Python strings and bytes *)
(* ===================================================================== *)

(** A Python [str]: a sequence of code points. *)
Definition pystr := list N.

(** A Python [bytes] object. *)
Definition bytes := list byte.

(** String literals of the source. *)
Definition str (s : string) : pystr :=
  map N_of_ascii (list_ascii_of_string s).

Definition pystr_eqb (a b : pystr) : bool :=
  if list_eq_dec N.eq_dec a b then true else false.

Definition byte_of_N (n : N) : byte :=
  match Byte.of_N (n mod 256) with
  | Some b => b
  | None => x00
  end.

(** [s.rstrip(chars)]: drop the trailing characters that belong to [chars]. *)
Fixpoint rstrip (chars : pystr) (s : pystr) : pystr :=
  match s with
  | [] => []
  | c :: r =>
      match rstrip chars r with
      | [] => if existsb (N.eqb c) chars then [] else [c]
      | r' => c :: r'
      end
  end.

(** [s.encode('utf-8')]; [None] stands for [UnicodeEncodeError] (a lone
    surrogate cannot be encoded). *)
Definition utf8_encode_char (c : N) : option bytes :=
  if c <? 0x80 then Some [byte_of_N c]
  else if c <? 0x800 then
    Some [byte_of_N (N.lor 0xC0 (N.shiftr c 6));
          byte_of_N (N.lor 0x80 (N.land c 0x3F))]
  else if c <? 0x10000 then
    if (0xD800 <=? c) && (c <=? 0xDFFF) then None
    else
      Some [byte_of_N (N.lor 0xE0 (N.shiftr c 12));
            byte_of_N (N.lor 0x80 (N.land (N.shiftr c 6) 0x3F));
            byte_of_N (N.lor 0x80 (N.land c 0x3F))]
  else if c <? 0x110000 then
    Some [byte_of_N (N.lor 0xF0 (N.shiftr c 18));
          byte_of_N (N.lor 0x80 (N.land (N.shiftr c 12) 0x3F));
          byte_of_N (N.lor 0x80 (N.land (N.shiftr c 6) 0x3F));
          byte_of_N (N.lor 0x80 (N.land c 0x3F))]
  else None.

Fixpoint utf8_encode (s : pystr) : option bytes :=
  match s with
  | [] => Some []
  | c :: r =>
      match utf8_encode_char c, utf8_encode r with
      | Some b, Some br => Some (b ++ br)
      | _, _ => None
      end
  end.

(** [str.encode(s, encoding="ascii")]; [None] stands for
    [UnicodeEncodeError]. *)
Fixpoint ascii_encode (s : pystr) : option bytes :=
  match s with
  | [] => Some []
  | c :: r =>
      if c <? 0x80 then
        match ascii_encode r with
        | Some br => Some (byte_of_N c :: br)
        | None => None
        end
      else None
  end.

(* ===================================================================== *)
(** ** base64 (module [base64] of the Python library) *)
(* ===================================================================== *)

(** The URL-safe alphabet: the standard one with [+] and [/] translated to
    [-] and [_]. *)
Definition b64_alphabet : pystr :=
  str "ABCDEFGHIJKLMNOPQRSTUVWXYZabcdefghijklmnopqrstuvwxyz0123456789-_".

Definition b64_char (sextet : N) : N := nth (N.to_nat sextet) b64_alphabet 0.

Definition pad_char : N := 61.   (* "=" *)

(** [base64.urlsafe_b64encode(data).decode('utf-8')]: three bytes give four
    characters; a last group of one or two bytes is padded with "=". *)
Fixpoint urlsafe_b64encode (data : bytes) : pystr :=
  match data with
  | [] => []
  | [a] =>
      let n := Byte.to_N a * 65536 in
      [b64_char (n / 262144); b64_char ((n / 4096) mod 64); pad_char; pad_char]
  | [a; b] =>
      let n := Byte.to_N a * 65536 + Byte.to_N b * 256 in
      [b64_char (n / 262144); b64_char ((n / 4096) mod 64);
       b64_char ((n / 64) mod 64); pad_char]
  | a :: b :: c :: rest =>
      let n := Byte.to_N a * 65536 + Byte.to_N b * 256 + Byte.to_N c in
      b64_char (n / 262144) :: b64_char ((n / 4096) mod 64)
        :: b64_char ((n / 64) mod 64) :: b64_char (n mod 64)
        :: urlsafe_b64encode rest
  end.

(** The argument of [encode_b64]: the source dispatches on
    [isinstance(data, str)]. *)
Inductive b64_arg :=
| ArgStr (s : pystr)
| ArgBytes (b : bytes).

(** [base64.urlsafe_b64encode(data).decode('utf-8').rstrip("=")] on bytes. *)
Definition b64url (data : bytes) : pystr :=
  rstrip (str "=") (urlsafe_b64encode data).

(** [ACMEClient.encode_b64]; [None] stands for the [UnicodeEncodeError] of
    [data.encode('utf-8')]. *)
Definition encode_b64 (data : b64_arg) : option pystr :=
  match data with
  | ArgStr s =>
      match utf8_encode s with
      | Some b => Some (b64url b)
      | None => None
      end
  | ArgBytes b => Some (b64url b)
  end.

(** The inverse direction, as a reader of the envelope performs it: restore
    the padding that [encode_b64] stripped, then decode. *)
Definition b64_index (c : N) : option N :=
  if (65 <=? c) && (c <=? 90) then Some (c - 65)
  else if (97 <=? c) && (c <=? 122) then Some (c - 71)
  else if (48 <=? c) && (c <=? 57) then Some (c + 4)
  else if c =? 45 then Some 62
  else if c =? 95 then Some 63
  else None.

Definition restore_padding (s : pystr) : pystr :=
  s ++ repeat pad_char ((4 - List.length s mod 4) mod 4)%nat.

Definition decode_quad (a b c d : N) : option bytes :=
  match b64_index a, b64_index b with
  | Some x, Some y =>
      if (c =? pad_char) && (d =? pad_char) then
        Some [byte_of_N ((x * 262144 + y * 4096) / 65536)]
      else
        match b64_index c with
        | Some z =>
            if d =? pad_char then
              let n := x * 262144 + y * 4096 + z * 64 in
              Some [byte_of_N (n / 65536); byte_of_N ((n / 256) mod 256)]
            else
              match b64_index d with
              | Some w =>
                  let n := x * 262144 + y * 4096 + z * 64 + w in
                  Some [byte_of_N (n / 65536); byte_of_N ((n / 256) mod 256);
                        byte_of_N (n mod 256)]
              | None => None
              end
        | None => None
        end
  | _, _ => None
  end.

Fixpoint urlsafe_b64decode (s : pystr) : option bytes :=
  match s with
  | [] => Some []
  | a :: b :: c :: d :: rest =>
      match decode_quad a b c d with
      | Some bs =>
          if (d =? pad_char) then
            match rest with [] => Some bs | _ => None end
          else
            match urlsafe_b64decode rest with
            | Some br => Some (bs ++ br)
            | None => None
            end
      | None => None
      end
  | _ => None
  end.

Definition decode_b64 (s : pystr) : option bytes :=
  urlsafe_b64decode (restore_padding s).

(* ===================================================================== *)
(** ** SHA-256 (FIPS 180-4), as computed by [Crypto.Hash.SHA256] *)
(* ===================================================================== *)

Module SHA256.
Local Open Scope Z_scope.

Definition mask32 : Z := 4294967295.
Definition add32 (x y : Z) : Z := Z.land (x + y) mask32.
Definition rotr (n x : Z) : Z :=
  Z.lor (Z.shiftr x n) (Z.land (Z.shiftl x (32 - n)) mask32).
Definition Ch (x y z : Z) : Z :=
  Z.lxor (Z.land x y) (Z.land (Z.lxor x mask32) z).
Definition Maj (x y z : Z) : Z :=
  Z.lxor (Z.lxor (Z.land x y) (Z.land x z)) (Z.land y z).
Definition Sigma0 (x : Z) : Z := Z.lxor (Z.lxor (rotr 2 x) (rotr 13 x)) (rotr 22 x).
Definition Sigma1 (x : Z) : Z := Z.lxor (Z.lxor (rotr 6 x) (rotr 11 x)) (rotr 25 x).
Definition sigma0 (x : Z) : Z := Z.lxor (Z.lxor (rotr 7 x) (rotr 18 x)) (Z.shiftr x 3).
Definition sigma1 (x : Z) : Z := Z.lxor (Z.lxor (rotr 17 x) (rotr 19 x)) (Z.shiftr x 10).

(** The round constants are the first 32 bits of the fractional parts of the
    cube roots of the first 64 primes, the initial hash value those of the
    square roots of the first 8; both are computed here from the primes. *)
Definition primes : list Z :=
  [2; 3; 5; 7; 11; 13; 17; 19; 23; 29; 31; 37; 41; 43; 47; 53; 59; 61; 67; 71;
   73; 79; 83; 89; 97; 101; 103; 107; 109; 113; 127; 131; 137; 139; 149; 151;
   157; 163; 167; 173; 179; 181; 191; 193; 197; 199; 211; 223; 227; 229; 233;
   239; 241; 251; 257; 263; 269; 271; 277; 281; 283; 293; 307; 311].

Fixpoint icbrt (bits : nat) (n r : Z) : Z :=
  match bits with
  | O => r
  | S b =>
      let c := r + 2 ^ Z.of_nat b in
      if c * c * c <=? n then icbrt b n c else icbrt b n r
  end.

Definition K : list Z :=
  Eval vm_compute in
    map (fun p => Z.land (icbrt 40 (p * 2 ^ 96) 0) mask32) primes.

Definition H0 : list Z :=
  Eval vm_compute in
    map (fun p => Z.land (Z.sqrt (p * 2 ^ 64)) mask32) (firstn 8 primes).

(** Padding: a 1 bit, zero bits up to 56 mod 64 bytes, the bit length on 8
    bytes. *)
Fixpoint be_bytes (count : nat) (n : Z) : list Z :=
  match count with
  | O => []
  | S c => be_bytes c (n / 256) ++ [n mod 256]
  end.

Definition pad (msg : list Z) : list Z :=
  let len := Z.of_nat (List.length msg) in
  msg ++ [128] ++ repeat 0 (Z.to_nat ((55 - len) mod 64)) ++ be_bytes 8 (8 * len).

Fixpoint words (bs : list Z) : list Z :=
  match bs with
  | a :: b :: c :: d :: r => (((a * 256 + b) * 256 + c) * 256 + d) :: words r
  | _ => []
  end.

(** Message schedule: [extend n W] appends [n] words to the 16 of a block. *)
Fixpoint extend (n : nat) (W : list Z) : list Z :=
  match n with
  | O => W
  | S n' =>
      let t := List.length W in
      let w i := nth (t - i) W 0 in
      extend n' (W ++ [add32 (add32 (add32 (sigma1 (w 2%nat)) (w 7%nat))
                                     (sigma0 (w 15%nat))) (w 16%nat)])
  end.

Definition round (st : list Z) (kw : Z * Z) : list Z :=
  match st with
  | [a; b; c; d; e; f; g; h] =>
      let t1 := add32 (add32 (add32 (add32 h (Sigma1 e)) (Ch e f g)) (fst kw)) (snd kw) in
      let t2 := add32 (Sigma0 a) (Maj a b c) in
      [add32 t1 t2; a; b; c; add32 d t1; e; f; g]
  | _ => st
  end.

Definition compress (H : list Z) (block : list Z) : list Z :=
  map (fun p => add32 (fst p) (snd p))
      (combine H (fold_left round (combine K (extend 48 block)) H)).

Fixpoint blocks (n : nat) (ws : list Z) (H : list Z) : list Z :=
  match n with
  | O => H
  | S n' => blocks n' (skipn 16 ws) (compress H (firstn 16 ws))
  end.

Definition sha256 (msg : bytes) : bytes :=
  let ws := words (pad (map (fun b => Z.of_N (Byte.to_N b)) msg)) in
  map (fun z => byte_of_N (Z.to_N z))
      (flat_map (be_bytes 4) (blocks (List.length ws / 16) ws H0)).

(** A hash object: [SHA256.new(data)] keeps what was fed to it, [digest()]
    hashes it. *)
Record SHA256Hash := { hashed : bytes }.

Definition new (data : bytes) : SHA256Hash := {| hashed := data |}.
Definition digest (h : SHA256Hash) : bytes := sha256 (hashed h).

End SHA256.

(* ===================================================================== *)
(** ** Python objects and [json.dumps] *)
(* ===================================================================== *)

(** The objects the client builds and receives: what [json.dumps] accepts and
    [Response.json()] returns (floats apart, which the client never builds).
    A [dict] keeps insertion order, which [json.dumps] follows. *)
#[warnings="-register-all"] Inductive value :=
| VNone
| VBool (b : bool)
| VInt (z : Z)
| VStr (s : pystr)
| VList (l : list value)
| VDict (d : list (pystr * value)).

Definition quote : N := 34.
Definition backslash : N := 92.

Definition hex_digit (d : N) : N := nth (N.to_nat d) (str "0123456789abcdef") 0.

(** ['{0:04x}'.format(n)] for [n < 0x10000]. *)
Definition hex4 (n : N) : pystr :=
  [hex_digit ((n / 4096) mod 16); hex_digit ((n / 256) mod 16);
   hex_digit ((n / 16) mod 16); hex_digit (n mod 16)].

Definition u_escape (n : N) : pystr := backslash :: 117 :: hex4 n.

(** [json.encoder.py_encode_basestring_ascii]: every character outside
    [' '..'~'], the quote and the backslash are escaped. *)
Definition escape_char (c : N) : pystr :=
  if c =? backslash then [backslash; backslash]
  else if c =? quote then [backslash; quote]
  else if (32 <=? c) && (c <=? 126) then [c]
  else if c =? 8 then [backslash; 98]
  else if c =? 12 then [backslash; 102]
  else if c =? 10 then [backslash; 110]
  else if c =? 13 then [backslash; 114]
  else if c =? 9 then [backslash; 116]
  else if c <? 0x10000 then u_escape c
  else
    let n := c - 0x10000 in
    u_escape (N.lor 0xd800 (N.land (N.shiftr n 10) 0x3ff))
      ++ u_escape (N.lor 0xdc00 (N.land n 0x3ff)).

Definition encode_basestring_ascii (s : pystr) : pystr :=
  quote :: flat_map escape_char s ++ [quote].

Definition decimal (z : Z) : pystr := str (NilZero.string_of_int (Z.to_int z)).

(** [json.dumps(obj, separators=(item_sep, key_sep))]. *)
Fixpoint json_dumps_sep (item_sep key_sep : pystr) (v : value) {struct v} : pystr :=
  match v with
  | VNone => str "null"
  | VBool true => str "true"
  | VBool false => str "false"
  | VInt z => decimal z
  | VStr s => encode_basestring_ascii s
  | VList l =>
      str "[" ++
      (fix items (l : list value) : pystr :=
         match l with
         | [] => []
         | x :: r =>
             json_dumps_sep item_sep key_sep x ++
             match r with [] => [] | _ => item_sep ++ items r end
         end) l ++ str "]"
  | VDict d =>
      str "{" ++
      (fix members (d : list (pystr * value)) : pystr :=
         match d with
         | [] => []
         | (k, x) :: r =>
             encode_basestring_ascii k ++ key_sep ++
             json_dumps_sep item_sep key_sep x ++
             match r with [] => [] | _ => item_sep ++ members r end
         end) d ++ str "}"
  end.

(** [json.dumps(obj)]: the default separators are [", "] and [": "]. *)
Definition json_dumps (v : value) : pystr := json_dumps_sep (str ", ") (str ": ") v.

Definition opt_str (o : option pystr) : value :=
  match o with
  | Some s => VStr s
  | None => VNone
  end.

(** [d[k]] on a dictionary; [None] stands for [KeyError]. *)
Fixpoint dict_get (d : list (pystr * value)) (k : pystr) : option value :=
  match d with
  | [] => None
  | (k', v) :: r => if pystr_eqb k' k then Some v else dict_get r k
  end.

Definition dict_keys (d : list (pystr * value)) : list pystr := map fst d.

(** Truth value of an object ([not x] is its negation). *)
Definition truthy (v : value) : bool :=
  match v with
  | VNone => false
  | VBool b => b
  | VInt z => negb (Z.eqb z 0)
  | VStr s => match s with [] => false | _ => true end
  | VList l => match l with [] => false | _ => true end
  | VDict d => match d with [] => false | _ => true end
  end.

(** [x in states] for a list of strings: only an equal string is a member. *)
Definition value_in (x : value) (states : list pystr) : bool :=
  match x with
  | VStr s => existsb (pystr_eqb s) states
  | _ => false
  end.

(* ===================================================================== *)
(** ** The client, the world around it, and the monad of its methods *)
(* ===================================================================== *)

(** Exceptions the modelled code can raise.  [Unsupported] marks what the
    embedding does not follow: [str.format] of a list or a dict (and, in the
    second part, a directory whose newNonce is neither a string nor null). *)
Inductive exn :=
| KeyError (k : pystr)
| TypeError
| JSONDecodeError
| UnicodeEncodeError
| Unsupported.

(** A [requests.Response]: [json] is what [.json()] returns, [None] when the
    body does not parse (the call raises). *)
Record Response := {
  status_code : Z;
  headers : list (pystr * pystr);
  json : option value;
  content : bytes
}.

Inductive Request :=
| GET (url : pystr)
| POST (url : pystr) (data : option value) (body : value).

(** The public point of the P-256 account key. *)
Record EccKey := { Qx : N; Qy : N }.

(** The fields of [self]. *)
Record ACMEClient := {
  newNonce_url : option pystr;
  account_kid : option pystr;
  nextNonce : option pystr;
  key : EccKey;
  starting_success_states : list pystr;
  starting_failure_states : list pystr;
  final_success_states : list pystr;
  final_failure_states : list pystr
}.

(** What the client talks to.  Each [requests] session answers its k-th call
    with the k-th response of its sequence; the signer is randomised, so its
    k-th signature depends on k; the DNS server and the HTTP challenge server
    record what they are given. *)
Record World := {
  client_session : nat -> Response;
  client_calls : nat;
  jose_session : nat -> Response;
  jose_calls : nat;
  sent : list Request;
  signer : nat -> bytes -> bytes;
  signed : list SHA256.SHA256Hash;
  zone_TXT : list (pystr * pystr);
  http_challenges : list (value * pystr);
  slept : nat
}.

Record State := { self : ACMEClient; world : World }.

(** How a call ends: it returns, it raises, or it is still looping when the
    fuel of the model runs out. *)
Inductive outcome (A : Type) :=
| Ret (a : A)
| Raise (e : exn)
| Running.
Arguments Ret {A} a.
Arguments Raise {A} e.
Arguments Running {A}.

Definition M (A : Type) : Type := State -> outcome A * State.

Definition ret {A} (a : A) : M A := fun s => (Ret a, s).
Definition raise {A} (e : exn) : M A := fun s => (Raise e, s).
Definition bind {A B} (m : M A) (f : A -> M B) : M B :=
  fun s =>
    match m s with
    | (Ret a, s') => f a s'
    | (Raise e, s') => (Raise e, s')
    | (Running, s') => (Running, s')
    end.

Declare Scope py_scope.
Delimit Scope py_scope with py.
Notation "x <- m ;; k" := (bind m (fun x => k))
  (at level 61, m at next level, right associativity) : py_scope.
Notation "m ;; k" := (bind m (fun _ => k))
  (at level 61, right associativity) : py_scope.
Local Open Scope py_scope.

Definition or_raise {A} (e : exn) (o : option A) : M A :=
  match o with
  | Some a => ret a
  | None => raise e
  end.

Definition get_self : M ACMEClient := fun s => (Ret (self s), s).

Definition set_nextNonce (n : pystr) : M unit :=
  fun s =>
    let c := self s in
    (Ret tt,
     {| self := {| newNonce_url := newNonce_url c;
                   account_kid := account_kid c;
                   nextNonce := Some n;
                   key := key c;
                   starting_success_states := starting_success_states c;
                   starting_failure_states := starting_failure_states c;
                   final_success_states := final_success_states c;
                   final_failure_states := final_failure_states c |};
        world := world s |}).

(** [self.client_session.get(url)]. *)
Definition client_session_get (url : pystr) : M Response :=
  fun s =>
    let w := world s in
    (Ret (client_session w (client_calls w)),
     {| self := self s;
        world := {| client_session := client_session w;
                    client_calls := S (client_calls w);
                    jose_session := jose_session w;
                    jose_calls := jose_calls w;
                    sent := sent w ++ [GET url];
                    signer := signer w;
                    signed := signed w;
                    zone_TXT := zone_TXT w;
                    http_challenges := http_challenges w;
                    slept := slept w |} |}).

(** [self.jose_session.post(url, data, json=body)]. *)
Definition jose_session_post (url : pystr) (data : option value) (body : value)
  : M Response :=
  fun s =>
    let w := world s in
    (Ret (jose_session w (jose_calls w)),
     {| self := self s;
        world := {| client_session := client_session w;
                    client_calls := client_calls w;
                    jose_session := jose_session w;
                    jose_calls := S (jose_calls w);
                    sent := sent w ++ [POST url data body];
                    signer := signer w;
                    signed := signed w;
                    zone_TXT := zone_TXT w;
                    http_challenges := http_challenges w;
                    slept := slept w |} |}).

(** [self.signing_alg.sign(hash_val)]: signs the digest of the hash object. *)
Definition signing_alg_sign (h : SHA256.SHA256Hash) : M bytes :=
  fun s =>
    let w := world s in
    (Ret (signer w (List.length (signed w)) (SHA256.digest h)),
     {| self := self s;
        world := {| client_session := client_session w;
                    client_calls := client_calls w;
                    jose_session := jose_session w;
                    jose_calls := jose_calls w;
                    sent := sent w;
                    signer := signer w;
                    signed := signed w ++ [h];
                    zone_TXT := zone_TXT w;
                    http_challenges := http_challenges w;
                    slept := slept w |} |}).

(** [self.dns_server.zone_add_TXT(name, value)]. *)
Definition zone_add_TXT (name txt : pystr) : M unit :=
  fun s =>
    let w := world s in
    (Ret tt,
     {| self := self s;
        world := {| client_session := client_session w;
                    client_calls := client_calls w;
                    jose_session := jose_session w;
                    jose_calls := jose_calls w;
                    sent := sent w;
                    signer := signer w;
                    signed := signed w;
                    zone_TXT := zone_TXT w ++ [(name, txt)];
                    http_challenges := http_challenges w;
                    slept := slept w |} |}).

(** [register_http_challenge(token, key_auth)]. *)
Definition register_http_challenge (token : value) (key_auth : pystr) : M unit :=
  fun s =>
    let w := world s in
    (Ret tt,
     {| self := self s;
        world := {| client_session := client_session w;
                    client_calls := client_calls w;
                    jose_session := jose_session w;
                    jose_calls := jose_calls w;
                    sent := sent w;
                    signer := signer w;
                    signed := signed w;
                    zone_TXT := zone_TXT w;
                    http_challenges := http_challenges w ++ [(token, key_auth)];
                    slept := slept w |} |}).

(** [time.sleep(n)]. *)
Definition sleep (n : nat) : M unit :=
  fun s =>
    let w := world s in
    (Ret tt,
     {| self := self s;
        world := {| client_session := client_session w;
                    client_calls := client_calls w;
                    jose_session := jose_session w;
                    jose_calls := jose_calls w;
                    sent := sent w;
                    signer := signer w;
                    signed := signed w;
                    zone_TXT := zone_TXT w;
                    http_challenges := http_challenges w;
                    slept := (slept w + n)%nat |} |}).

(** [response.headers[name]]: the headers of [requests] compare names without
    regard to case. *)
Definition lower (c : N) : N := if (65 <=? c) && (c <=? 90) then c + 32 else c.

Fixpoint header_get (hs : list (pystr * pystr)) (name : pystr) : option pystr :=
  match hs with
  | [] => None
  | (n, v) :: r =>
      if pystr_eqb (map lower n) (map lower name) then Some v else header_get r name
  end.

(** [obj[k]] for a string [k]: a missing key raises [KeyError], an object that
    is no dictionary raises [TypeError]. *)
Definition getitem (obj : value) (k : pystr) : M value :=
  match obj with
  | VDict d => or_raise (KeyError k) (dict_get d k)
  | _ => raise TypeError
  end.

(** [for x in obj]: the elements of a list, the keys of a dictionary, the
    characters of a string; anything else raises [TypeError]. *)
Definition iterate (obj : value) : M (list value) :=
  match obj with
  | VList l => ret l
  | VDict d => ret (map (fun kv => VStr (fst kv)) d)
  | VStr s => ret (map (fun c => VStr [c]) s)
  | _ => raise TypeError
  end.

(** ["{}".format(x)]; lists and dictionaries are not followed. *)
Definition format_str (x : value) : option pystr :=
  match x with
  | VStr s => Some s
  | VNone => Some (str "None")
  | VBool true => Some (str "True")
  | VBool false => Some (str "False")
  | VInt z => Some (decimal z)
  | _ => None
  end.

Definition format_arg (x : value) : M pystr := or_raise Unsupported (format_str x).

Definition is_str (x : value) (s : pystr) : bool :=
  match x with
  | VStr t => pystr_eqb t s
  | _ => false
  end.

(** [Integer.to_bytes()] of the key library with its default block size:
    big-endian, as many bytes as the number needs (one for zero). *)
Definition to_bytes (n : N) : bytes :=
  map (fun i => byte_of_N (N.shiftr n (8 * N.of_nat i)))
      (rev (seq 0 (N.to_nat (N.log2 n / 8 + 1)))).

(* ===================================================================== *)
(** ** The methods of [ACMEClient] *)
(* ===================================================================== *)

(** [__init__]: the fields before [get_directory] and [create_account]; the
    key pair is the one [generate_keypair] drew. *)
Definition init (k : EccKey) : ACMEClient :=
  {| newNonce_url := None;
     account_kid := None;
     nextNonce := None;
     key := k;
     starting_success_states := [str "ready"; str "processing"; str "valid"];
     starting_failure_states := [str "invalid"];
     final_success_states := [str "valid"];
     final_failure_states := [str "ready"; str "invalid"; str "pending"] |}.

Definition b64 (data : b64_arg) : M pystr :=
  or_raise UnicodeEncodeError (encode_b64 data).

Definition create_jwk_object : M value :=
  c <- get_self ;;
  x <- b64 (ArgBytes (to_bytes (Qx (key c)))) ;;
  y <- b64 (ArgBytes (to_bytes (Qy (key c)))) ;;
  ret (VDict [(str "crv", VStr (str "P-256"));
              (str "kid", VStr (str "1"));
              (str "kty", VStr (str "EC"));
              (str "x", VStr x);
              (str "y", VStr y)]).

Definition get_nonce : M (option pystr) :=
  c <- get_self ;;
  match newNonce_url c with
  | None => ret None
  | Some url =>
      request <- client_session_get url ;;
      if (status_code request =? 200)%Z || (status_code request =? 204)%Z then
        n <- or_raise (KeyError (str "Replay-Nonce"))
                      (header_get (headers request) (str "Replay-Nonce")) ;;
        set_nextNonce n ;;
        ret (Some n)
      else ret None
  end.

Definition create_key_authorization (token : value) : M pystr :=
  c <- get_self ;;
  x <- b64 (ArgBytes (to_bytes (Qx (key c)))) ;;
  y <- b64 (ArgBytes (to_bytes (Qy (key c)))) ;;
  let key := VDict [(str "crv", VStr (str "P-256"));
                    (str "kty", VStr (str "EC"));
                    (str "x", VStr x);
                    (str "y", VStr y)] in
  data <- or_raise UnicodeEncodeError
            (utf8_encode (json_dumps_sep (str ",") (str ":") key)) ;;
  hash_val <- b64 (ArgBytes (SHA256.digest (SHA256.new data))) ;;
  t <- format_arg token ;;
  ret (t ++ str "." ++ hash_val).

(** The [protected] dictionaries of the two envelope builders. *)
Definition jwk_protected (jwk : value) (nonce : option pystr) (url : value) : value :=
  VDict [(str "alg", VStr (str "ES256"));
         (str "jwk", jwk);
         (str "nonce", opt_str nonce);
         (str "url", url)].

Definition kid_protected (kid nonce : option pystr) (url : value) : value :=
  VDict [(str "alg", VStr (str "ES256"));
         (str "kid", opt_str kid);
         (str "nonce", opt_str nonce);
         (str "url", url)].

Definition create_jose_jwk (url payload : value) : M value :=
  jwk <- create_jwk_object ;;
  nonce <- get_nonce ;;
  let protected := jwk_protected jwk nonce url in
  encoded_header <- b64 (ArgStr (json_dumps protected)) ;;
  encoded_payload <- b64 (ArgStr (json_dumps payload)) ;;
  data <- or_raise UnicodeEncodeError
            (ascii_encode (encoded_header ++ str "." ++ encoded_payload)) ;;
  signature <- signing_alg_sign (SHA256.new data) ;;
  sig <- b64 (ArgBytes signature) ;;
  ret (VDict [(str "protected", VStr encoded_header);
              (str "payload", VStr encoded_payload);
              (str "signature", VStr sig)]).

Definition create_jose_kid (url payload : value) : M value :=
  c <- get_self ;;
  nonce <- get_nonce ;;
  let protected := kid_protected (account_kid c) nonce url in
  encoded_header <- b64 (ArgStr (json_dumps protected)) ;;
  ph <- (if is_str payload []
         then
           data <- or_raise UnicodeEncodeError
                     (ascii_encode (encoded_header ++ str ".")) ;;
           ret ([], SHA256.new data)
         else
           encoded_payload <- b64 (ArgStr (json_dumps payload)) ;;
           data <- or_raise UnicodeEncodeError
                     (ascii_encode (encoded_header ++ str "." ++ encoded_payload)) ;;
           ret (encoded_payload, SHA256.new data)) ;;
  signature <- signing_alg_sign (snd ph) ;;
  sig <- b64 (ArgBytes signature) ;;
  ret (VDict [(str "protected", VStr encoded_header);
              (str "payload", VStr (fst ph));
              (str "signature", VStr sig)]).

(** The body of the [for challenge in ...] loop of [authorize_certificate]. *)
Fixpoint authorize_challenges (jose_request_object : value) (auth_scheme : pystr)
    (challenges : list value) : M value :=
  match challenges with
  | [] => ret VNone
  | challenge :: rest =>
      token <- getitem challenge (str "token") ;;
      key_auth <- create_key_authorization token ;;
      dns <- (if pystr_eqb auth_scheme (str "dns01")
              then ty <- getitem challenge (str "type") ;;
                   ret (is_str ty (str "dns-01"))
              else ret false) ;;
      if dns : bool then
        data <- or_raise UnicodeEncodeError (ascii_encode key_auth) ;;
        key_auth <- b64 (ArgBytes (SHA256.digest (SHA256.new data))) ;;
        ident <- getitem jose_request_object (str "identifier") ;;
        domain <- getitem ident (str "value") ;;
        d <- format_arg domain ;;
        zone_add_TXT (str "_acme-challenge." ++ d) key_auth ;;
        ret challenge
      else
        http <- (if pystr_eqb auth_scheme (str "http01")
                 then ty <- getitem challenge (str "type") ;;
                      ret (is_str ty (str "http-01"))
                 else ret false) ;;
        if http : bool then
          token <- getitem challenge (str "token") ;;
          register_http_challenge token key_auth ;;
          ret challenge
        else authorize_challenges jose_request_object auth_scheme rest
  end.

Definition authorize_certificate (auth_url auth_scheme : pystr) : M value :=
  let payload := VStr [] in
  jose_payload <- create_jose_kid (VStr auth_url) payload ;;
  request <- jose_session_post auth_url None jose_payload ;;
  if (status_code request =? 200)%Z then
    jose_request_object <- or_raise JSONDecodeError (json request) ;;
    cs <- getitem jose_request_object (str "challenges") ;;
    challenges <- iterate cs ;;
    authorize_challenges jose_request_object auth_scheme challenges
  else ret VNone.

(** What one round of the polling loop decides once the response is there:
    [Some] is the value returned, [None] falls through to [time.sleep(1)]. *)
Definition poll_decide (request : Response) (jose_request_object : value)
    (success_states failure_states : list pystr) : M (option value) :=
  if (status_code request =? 200)%Z then
    st <- getitem jose_request_object (str "status") ;;
    if value_in st success_states then ret (Some jose_request_object)
    else
      st <- getitem jose_request_object (str "status") ;;
      if value_in st failure_states then ret (Some (VBool false))
      else ret None
  else ret None.

(** [poll_resource_status]: [while True] is unrolled [fuel] times; [Running]
    says the loop has not returned within them. *)
Fixpoint poll_resource_status (fuel : nat) (order_url : pystr)
    (success_states failure_states : list pystr) : M value :=
  match fuel with
  | O => fun s => (Running, s)
  | S fuel' =>
      let payload := VStr [] in
      jose_payload <- create_jose_kid (VStr order_url) payload ;;
      jose_request <- jose_session_post order_url (Some payload) jose_payload ;;
      jose_request_object <- or_raise JSONDecodeError (json jose_request) ;;
      d <- poll_decide jose_request jose_request_object success_states failure_states ;;
      match d with
      | Some r => ret r
      | None =>
          sleep 1 ;;
          poll_resource_status fuel' order_url success_states failure_states
      end
  end.

Definition finalize_certificate (fuel : nat) (order_url finalize_url : pystr)
    (der : bytes) : M value :=
  c <- get_self ;;
  jose_request_object <- poll_resource_status fuel order_url
      (starting_success_states c) (starting_failure_states c) ;;
  if negb (truthy jose_request_object) then ret (VBool false)
  else
    csr <- b64 (ArgBytes der) ;;
    let payload := VDict [(str "csr", VStr csr)] in
    jose_payload <- create_jose_kid (VStr finalize_url) payload ;;
    response <- jose_session_post finalize_url None jose_payload ;;
    if (status_code response =? 200)%Z then
      c <- get_self ;;
      jose_request_object <- poll_resource_status fuel order_url
          (final_success_states c) (final_failure_states c) ;;
      if truthy jose_request_object
      then getitem jose_request_object (str "certificate")
      else ret (VBool false)
    else ret VNone.

(* ===================================================================== *)
(** ** Vocabulary of the statements *)
(* ===================================================================== *)

(** Characters [' '..'~']. *)
Definition printable (c : N) : Prop := 32 <= c /\ c <= 126.


(** The value of a big-endian byte string. *)
Definition be_value (b : bytes) : N :=
  fold_left (fun acc x => acc * 256 + Byte.to_N x) b 0.

(** The member [k] of an envelope (or of any dictionary object). *)
Definition member (obj : value) (k : string) : option value :=
  match obj with
  | VDict d => dict_get d (str k)
  | _ => None
  end.

(** The response the next call of each session will receive. *)
Definition next_client_response (s : State) : Response :=
  client_session (world s) (client_calls (world s)).

Definition next_jose_response (s : State) : Response :=
  jose_session (world s) (jose_calls (world s)).

(** The [status] member of a polled resource. *)
Definition resource_status (r : Response) : option value :=
  match json r with
  | Some (VDict d) => dict_get d (str "status")
  | _ => None
  end.

(** The canonical JSON of the account key, written out: the four members in
    lexicographic order, no whitespace. *)
Definition quoted (s : pystr) : pystr := quote :: s ++ [quote].

Definition spec_canonical_jwk (k : EccKey) : pystr :=
  str "{" ++ quoted (str "crv") ++ str ":" ++ quoted (str "P-256") ++ str ","
    ++ quoted (str "kty") ++ str ":" ++ quoted (str "EC") ++ str ","
    ++ quoted (str "x") ++ str ":" ++ quoted (b64url (to_bytes (Qx k))) ++ str ","
    ++ quoted (str "y") ++ str ":" ++ quoted (b64url (to_bytes (Qy k))) ++ str "}".

(** [token + "." + base64url(SHA-256(canonical-JSON(JWK)))]. *)
Definition spec_key_authorization (token : pystr) (k : EccKey) : pystr :=
  token ++ str "." ++ b64url (SHA256.sha256 (map byte_of_N (spec_canonical_jwk k))).

(** [base64url(SHA-256(keyAuthorization))], the dns-01 TXT value. *)
Definition spec_dns_txt (key_authorization : pystr) : pystr :=
  b64url (SHA256.sha256 (map byte_of_N key_authorization)).

(** How the polling loop reads one response. *)
Definition succeeds (success : list pystr) (r : Response) (obj : value) : Prop :=
  status_code r = 200%Z /\ json r = Some obj /\
  exists st, resource_status r = Some st /\ value_in st success = true.

Definition fails (success failure : list pystr) (r : Response) : Prop :=
  status_code r = 200%Z /\
  exists st, resource_status r = Some st /\
             value_in st success = false /\ value_in st failure = true.

Definition retries (success failure : list pystr) (r : Response) : Prop :=
  (exists obj, json r = Some obj) /\
  (status_code r <> 200%Z \/
   exists st, resource_status r = Some st /\
              value_in st success = false /\ value_in st failure = false).

(** The requests of the polling loop: nonce fetches, and POST-as-GET to the
    polled URL with the empty string as [data]. *)
Definition poll_traffic (url : pystr) (reqs : list Request) : Prop :=
  Forall (fun q => match q with
                   | GET _ => True
                   | POST u d _ => u = url /\ d = Some (VStr [])
                   end) reqs.

(** The nonce endpoint is well behaved when every answer with status 200 or
    204 carries the [Replay-Nonce] header. *)
Definition nonce_header_present (r : Response) : Prop :=
  status_code r = 200%Z \/ status_code r = 204%Z ->
  header_get (headers r) (str "Replay-Nonce") <> None.

(** What does not change while the client runs: its configuration and the
    behaviour of the servers and the signer. *)
Definition setting (s : State) :=
  (newNonce_url (self s), account_kid (self s), key (self s),
   (starting_success_states (self s), starting_failure_states (self s),
    final_success_states (self s), final_failure_states (self s)),
   (client_session (world s), jose_session (world s), signer (world s))).

(** Building an envelope leaves everything but the nonce, the signature log
    and the GET traffic as it was. *)
Definition untouched (s s' : State) : Prop :=
  setting s' = setting s /\
  zone_TXT (world s') = zone_TXT (world s) /\
  http_challenges (world s') = http_challenges (world s) /\
  jose_calls (world s') = jose_calls (world s) /\
  slept (world s') = slept (world s).

Definition only_gets (reqs : list Request) : Prop :=
  Forall (fun q => match q with GET _ => True | POST _ _ _ => False end) reqs.

Definition fetched (s s' : State) : Prop :=
  exists g, sent (world s') = sent (world s) ++ g /\ only_gets g.

Definition nonce_ok (s : State) : Prop :=
  forall k, nonce_header_present (client_session (world s) k).

(** [s'] is [s] after [rounds] rounds of polling [url] and [sleeps] seconds of
    sleep: that many more responses consumed, only polling traffic sent,
    nothing published. *)
Definition polled (url : pystr) (rounds sleeps : nat) (s s' : State) : Prop :=
  setting s' = setting s /\
  zone_TXT (world s') = zone_TXT (world s) /\
  http_challenges (world s') = http_challenges (world s) /\
  jose_calls (world s') = (jose_calls (world s) + rounds)%nat /\
  slept (world s') = (slept (world s) + sleeps)%nat /\
  exists g, sent (world s') = sent (world s) ++ g /\ poll_traffic url g.

(** The [i]-th response the polling loop started in [s] will receive. *)
Definition polled_response (s : State) (i : nat) : Response :=
  jose_session (world s) (jose_calls (world s) + i).

(** The state sets are those [__init__] wrote (no method assigns them). *)
Definition configured (c : ACMEClient) : Prop :=
  starting_success_states c = [str "ready"; str "processing"; str "valid"] /\
  starting_failure_states c = [str "invalid"] /\
  final_success_states c = [str "valid"] /\
  final_failure_states c = [str "ready"; str "invalid"; str "pending"].


(** A state to run the examples in: directory resolved, account registered;
    the nonce endpoint answers 204 with a nonce, the signer echoes the
    digest. *)
Definition demo_response (code : Z) (hs : list (pystr * pystr)) (j : option value)
  : Response :=
  {| status_code := code; headers := hs; json := j; content := [] |}.

Definition demo_client : ACMEClient :=
  let c := init {| Qx := 0x1234567890abcdef1234567890abcdef; Qy := 255 |} in
  {| newNonce_url := Some (str "https://ca/nonce");
     account_kid := Some (str "https://ca/acct/7");
     nextNonce := None;
     key := key c;
     starting_success_states := starting_success_states c;
     starting_failure_states := starting_failure_states c;
     final_success_states := final_success_states c;
     final_failure_states := final_failure_states c |}.

Definition demo_state (polled : nat -> Response) : State :=
  {| self := demo_client;
     world := {| client_session :=
                   fun _ => demo_response 204 [(str "replay-nonce", str "n0nce")] None;
                 client_calls := 0;
                 jose_session := polled;
                 jose_calls := 0;
                 sent := [];
                 signer := fun _ d => d;
                 signed := [];
                 zone_TXT := [];
                 http_challenges := [];
                 slept := 0 |} |}.

Definition resource (status : string) : value :=
  VDict [(str "status", VStr (str status));
         (str "certificate", VStr (str "https://ca/cert/1"))].

(* ===================================================================== *)
(** ** The directory, the account, the order: the rest of [ACMEClient] *)
(* ===================================================================== *)

(** The fields of [self] that the envelope builders do not read.  The three
    URLs are [None] after [__init__] and whatever the directory object holds
    after [get_directory]. *)
Record Endpoints := {
  directory : pystr;
  revokeCert_url : value;
  newAccount_url : value;
  newOrder_url : value
}.

(** Besides the exceptions of the builders: [requests] raises before it sends
    anything when the URL is not a string with a scheme ([MissingSchema],
    [InvalidURL] or [InvalidSchema], each a [RequestException]); as above,
    every URL that is a string is answered. *)
Inductive exception :=
| Py (e : exn)
| RequestException
| ValueError.

(** What runs around the client in [main.py].  The DNS server and the
    challenge and HTTPS servers are not part of these sources: the calls to
    them are recorded in order.  The files written are recorded likewise.
    The key pair that [generate_keypair] draws, the RSA key (as its PEM text)
    and the DER of the signing request that [generate_csr_key] makes for the
    domains (or the exception of the library when it refuses them), and the
    DER of a certificate given as PEM ([None]: the text holds no certificate,
    loading it raises [ValueError]) are parameters: they come from the
    cryptography libraries. *)
Inductive File := key_path | cert_path.

Inductive Call :=
| newDNSServer
| start_http_challenge_server
| zone_add_A (domain : value) (record : pystr)
| server_start
| pkill_dns_server
| start_https_server (key cert : File).

Record Host := {
  calls : list Call;
  written : list (File * bytes);
  generate_keypair : EccKey;
  generate_csr_key : value -> bytes * bytes + exception;
  load_pem_x509_certificate : bytes -> option bytes
}.

Record Program := { endpoints : Endpoints; state : State; host : Host }.

Inductive result (A : Type) :=
| Returns (a : A)
| Raises (e : exception)
| Unfinished.
Arguments Returns {A} a.
Arguments Raises {A} e.
Arguments Unfinished {A}.

Definition Method (A : Type) : Type := Program -> result A * Program.

Definition returns {A} (a : A) : Method A := fun p => (Returns a, p).
Definition throw {A} (e : exception) : Method A := fun p => (Raises e, p).
Definition and_then {A B} (m : Method A) (f : A -> Method B) : Method B :=
  fun p =>
    match m p with
    | (Returns a, p') => f a p'
    | (Raises e, p') => (Raises e, p')
    | (Unfinished, p') => (Unfinished, p')
    end.

Notation "x <~ m ;; k" := (and_then m (fun x => k))
  (at level 61, m at next level, right associativity) : py_scope.
Notation "m ;;; k" := (and_then m (fun _ => k))
  (at level 61, right associativity) : py_scope.

Definition with_state (p : Program) (s : State) : Program :=
  {| endpoints := endpoints p; state := s; host := host p |}.

(** A method of the first part, run on the client and the world of the
    program. *)
Definition lift {A} (m : M A) : Method A :=
  fun p =>
    match m (state p) with
    | (Ret a, s) => (Returns a, with_state p s)
    | (Raise e, s) => (Raises (Py e), with_state p s)
    | (Running, s) => (Unfinished, with_state p s)
    end.

Definition get_endpoints : Method Endpoints := fun p => (Returns (endpoints p), p).

Definition set_endpoints (e : Endpoints) : Method unit :=
  fun p => (Returns tt, {| endpoints := e; state := state p; host := host p |}).

Definition set_revokeCert_url (v : value) : Method unit :=
  e <~ get_endpoints ;;
  set_endpoints {| directory := directory e; revokeCert_url := v;
                   newAccount_url := newAccount_url e; newOrder_url := newOrder_url e |}.

Definition set_newAccount_url (v : value) : Method unit :=
  e <~ get_endpoints ;;
  set_endpoints {| directory := directory e; revokeCert_url := revokeCert_url e;
                   newAccount_url := v; newOrder_url := newOrder_url e |}.

Definition set_newOrder_url (v : value) : Method unit :=
  e <~ get_endpoints ;;
  set_endpoints {| directory := directory e; revokeCert_url := revokeCert_url e;
                   newAccount_url := newAccount_url e; newOrder_url := v |}.

Definition assign_newNonce_url (u : option pystr) : M unit :=
  fun s =>
    let c := self s in
    (Ret tt,
     {| self := {| newNonce_url := u;
                   account_kid := account_kid c;
                   nextNonce := nextNonce c;
                   key := key c;
                   starting_success_states := starting_success_states c;
                   starting_failure_states := starting_failure_states c;
                   final_success_states := final_success_states c;
                   final_failure_states := final_failure_states c |};
        world := world s |}).

(** [self.newNonce_url = v]: the field holds a string or [None]; a directory
    whose [newNonce] is neither is not followed. *)
Definition set_newNonce_url (v : value) : Method unit :=
  match v with
  | VStr u => lift (assign_newNonce_url (Some u))
  | VNone => lift (assign_newNonce_url None)
  | _ => throw (Py Unsupported)
  end.

Definition set_account_kid (kid : pystr) : M unit :=
  fun s =>
    let c := self s in
    (Ret tt,
     {| self := {| newNonce_url := newNonce_url c;
                   account_kid := Some kid;
                   nextNonce := nextNonce c;
                   key := key c;
                   starting_success_states := starting_success_states c;
                   starting_failure_states := starting_failure_states c;
                   final_success_states := final_success_states c;
                   final_failure_states := final_failure_states c |};
        world := world s |}).

(** [self.jose_session.post(url, json=body)] for a [url] taken from a field
    or from a JSON object. *)
Definition post (url body : value) : Method Response :=
  match url with
  | VStr u => lift (jose_session_post u None body)
  | _ => throw RequestException
  end.

(** [response.headers[name]]: the [KeyError] of a missing header carries the
    name in lower case. *)
Definition header (response : Response) (name : pystr) : Method pystr :=
  lift (or_raise (KeyError (map lower name)) (header_get (headers response) name)).

(** [response.json()]. *)
Definition json_of (response : Response) : Method value :=
  lift (or_raise JSONDecodeError (json response)).

Definition get_directory : Method value :=
  e <~ get_endpoints ;;
  directory_request <~ lift (client_session_get (directory e)) ;;
  if (status_code directory_request =? 200)%Z then
    jose_request_object <~ json_of directory_request ;;
    v <~ lift (getitem jose_request_object (str "revokeCert")) ;;
    set_revokeCert_url v ;;;
    v <~ lift (getitem jose_request_object (str "newNonce")) ;;
    set_newNonce_url v ;;;
    v <~ lift (getitem jose_request_object (str "newAccount")) ;;
    set_newAccount_url v ;;;
    v <~ lift (getitem jose_request_object (str "newOrder")) ;;
    set_newOrder_url v ;;;
    returns jose_request_object
  else returns VNone.

Definition create_account : Method value :=
  let payload := VDict [(str "termsOfServiceAgreed", VBool true)] in
  e <~ get_endpoints ;;
  jose_payload <~ lift (create_jose_jwk (newAccount_url e) payload) ;;
  e <~ get_endpoints ;;
  jose_request <~ post (newAccount_url e) jose_payload ;;
  if (status_code jose_request =? 201)%Z then
    jose_request_object <~ json_of jose_request ;;
    kid <~ header jose_request (str "Location") ;;
    lift (set_account_kid kid) ;;;
    returns jose_request_object
  else returns VNone.

(** [issue_certificate]: [notBefore] and [notAfter] are the texts
    [begin.isoformat()] and [(begin + duration).isoformat()]; dates are not
    modelled.  The result is the pair of the order and its URL, or [None]. *)
Definition issue_certificate (domains : value) (notBefore notAfter : pystr)
  : Method (option (value * pystr)) :=
  ds <~ lift (iterate domains) ;;
  let payload :=
    VDict [(str "identifiers",
            VList (map (fun domain => VDict [(str "type", VStr (str "dns"));
                                             (str "value", domain)]) ds));
           (str "notBefore", VStr notBefore);
           (str "notAfter", VStr notAfter)] in
  e <~ get_endpoints ;;
  jose_payload <~ lift (create_jose_kid (newOrder_url e) payload) ;;
  e <~ get_endpoints ;;
  response <~ post (newOrder_url e) jose_payload ;;
  if (status_code response =? 201)%Z then
    jose_request_object <~ json_of response ;;
    location <~ header response (str "Location") ;;
    returns (Some (jose_request_object, location))
  else returns None.

Definition validate_certificate (validate_url : value) : Method value :=
  let payload := VDict [] in
  jose_payload <~ lift (create_jose_kid validate_url payload) ;;
  response <~ post validate_url jose_payload ;;
  if (status_code response =? 200)%Z then
    jose_request_object <~ json_of response ;;
    returns jose_request_object
  else returns VNone.

Definition download_certificate (certificate_url : value) : Method (option bytes) :=
  let payload := VStr [] in
  jose_payload <~ lift (create_jose_kid certificate_url payload) ;;
  response <~ post certificate_url jose_payload ;;
  if (status_code response =? 200)%Z then returns (Some (content response))
  else returns None.

Definition revoke_certificate (certificate : bytes) : Method (option bytes) :=
  encoded <~ lift (b64 (ArgBytes certificate)) ;;
  let payload := VDict [(str "certificate", VStr encoded)] in
  e <~ get_endpoints ;;
  jose_payload <~ lift (create_jose_kid (revokeCert_url e) payload) ;;
  e <~ get_endpoints ;;
  response <~ post (revokeCert_url e) jose_payload ;;
  if (status_code response =? 200)%Z then returns (Some (content response))
  else returns None.

(* ===================================================================== *)
(** ** [main.py]: obtaining the certificate *)
(* ===================================================================== *)

(** The parsed command line. [domain] is the list of the [--domain] values,
    or [None] when there is none. *)
Record Args := {
  challenge : pystr;
  dir : pystr;
  record : pystr;
  domain : value;
  revoke : bool
}.

Definition call (c : Call) : Method unit :=
  fun p =>
    let h := host p in
    (Returns tt,
     {| endpoints := endpoints p;
        state := state p;
        host := {| calls := calls h ++ [c];
                   written := written h;
                   generate_keypair := generate_keypair h;
                   generate_csr_key := generate_csr_key h;
                   load_pem_x509_certificate := load_pem_x509_certificate h |} |}).

(** [with open(path, "wb") as f: f.write(data)]. *)
Definition write_file (path : File) (data : bytes) : Method unit :=
  fun p =>
    let h := host p in
    (Returns tt,
     {| endpoints := endpoints p;
        state := state p;
        host := {| calls := calls h;
                   written := written h ++ [(path, data)];
                   generate_keypair := generate_keypair h;
                   generate_csr_key := generate_csr_key h;
                   load_pem_x509_certificate := load_pem_x509_certificate h |} |}).

Definition get_host : Method Host := fun p => (Returns (host p), p).

Definition write_certificates (key certificate : bytes) : Method unit :=
  write_file key_path key ;;;
  write_file cert_path certificate.

(** [ACMEClient(directory, dns_server)]: [__init__] with the key pair of
    [generate_keypair]. *)
Definition new_ACMEClient (directory : pystr) : Method unit :=
  fun p =>
    (Returns tt,
     {| endpoints := {| directory := directory; revokeCert_url := VNone;
                        newAccount_url := VNone; newOrder_url := VNone |};
        state := {| self := init (generate_keypair (host p));
                    world := world (state p) |};
        host := host p |}).

(** [for domain in args.domain: dns_server.zone_add_A(domain, args.record)]. *)
Fixpoint add_A_records (domains : list value) (record : pystr) : Method unit :=
  match domains with
  | [] => returns tt
  | domain :: rest => call (zone_add_A domain record) ;;; add_A_records rest record
  end.

(** [acme_client.authorize_certificate(auth, scheme)] for an [auth] taken from
    the order object: with a URL that is no string the envelope is built and
    [requests] raises. *)
Definition authorize (auth : value) (auth_scheme : pystr) : Method value :=
  match auth with
  | VStr auth_url => lift (authorize_certificate auth_url auth_scheme)
  | _ => lift (create_jose_kid auth (VStr [])) ;;; throw RequestException
  end.

(** The loop over the authorizations: [None] stands for the [return False]
    inside it, [Some] holds [validate_urls] when it is through. *)
Fixpoint authorize_all (auths : list value) (auth_scheme : pystr)
    (validate_urls : list value) : Method (option (list value)) :=
  match auths with
  | [] => returns (Some validate_urls)
  | auth :: rest =>
      certificate_authorization <~ authorize auth auth_scheme ;;
      if negb (truthy certificate_authorization) then returns None
      else
        url <~ lift (getitem certificate_authorization (str "url")) ;;
        authorize_all rest auth_scheme (validate_urls ++ [url])
  end.

(** The loop over [validate_urls]: [false] stands for the [return False]
    inside it. *)
Fixpoint validate_all (validate_urls : list value) : Method bool :=
  match validate_urls with
  | [] => returns true
  | url :: rest =>
      certificate_valid <~ validate_certificate url ;;
      if negb (truthy certificate_valid) then returns false
      else validate_all rest
  end.

(** [acme_client.finalize_certificate(order_url, finalize_url, der)] for a
    [finalize_url] taken from the order object. *)
Definition finalize (fuel : nat) (order_url : pystr) (finalize_url : value)
    (der : bytes) : Method value :=
  match finalize_url with
  | VStr u => lift (finalize_certificate fuel order_url u der)
  | _ =>
      jose_request_object <~ lift (c <- get_self ;;
                                   poll_resource_status fuel order_url
                                     (starting_success_states c)
                                     (starting_failure_states c)) ;;
      if negb (truthy jose_request_object) then returns (VBool false)
      else
        csr <~ lift (b64 (ArgBytes der)) ;;
        lift (create_jose_kid finalize_url (VDict [(str "csr", VStr csr)])) ;;;
        throw RequestException
  end.

(** What [obtain_certificate] returns: [False], or the pair of the key and
    the certificate. *)
Inductive obtained :=
| Failed
| Obtained (key : bytes) (downloaded_certificate : bytes).

(** The body of [obtain_certificate] from [acme_client.get_directory()]
    on. *)
Definition obtain_steps (fuel : nat) (notBefore notAfter : pystr) (args : Args)
  : Method obtained :=
  directory <~ get_directory ;;
  if negb (truthy directory) then returns Failed
  else
    account <~ create_account ;;
    if negb (truthy account) then returns Failed
    else
      order <~ issue_certificate (domain args) notBefore notAfter ;;
      match order with
      | None => throw (Py TypeError)
      | Some (certificate_order, order_url) =>
          if negb (truthy certificate_order) then returns Failed
          else
            finalize_url <~ lift (getitem certificate_order (str "finalize")) ;;
            auths <~ lift (getitem certificate_order (str "authorizations")) ;;
            auths <~ lift (iterate auths) ;;
            validate_urls <~ authorize_all auths (challenge args) [] ;;
            match validate_urls with
            | None => returns Failed
            | Some validate_urls =>
                valid <~ validate_all validate_urls ;;
                if negb valid then returns Failed
                else
                  h <~ get_host ;;
                  kd <~ (match generate_csr_key h (domain args) with
                         | inl kd => returns kd
                         | inr e => throw e
                         end) ;;
                  let (key, der) := kd : bytes * bytes in
                  certificate_url <~ finalize fuel order_url finalize_url der ;;
                  if negb (truthy certificate_url) then returns Failed
                  else
                    downloaded <~ download_certificate certificate_url ;;
                    match downloaded with
                    | None | Some [] => returns Failed
                    | Some downloaded_certificate =>
                        write_certificates key downloaded_certificate ;;;
                        h <~ get_host ;;
                        match load_pem_x509_certificate h downloaded_certificate with
                        | None => throw ValueError
                        | Some crypto_der =>
                            (if revoke args
                             then revoke_certificate crypto_der ;;; returns tt
                             else returns tt) ;;;
                            returns (Obtained key downloaded_certificate)
                        end
                    end
            end
      end.

(** [obtain_certificate]: the servers are set up and the client is made,
    then the steps above.  ([if not acme_client] never holds: the object has
    no length and no truth value of its own.) *)
Definition obtain_certificate (fuel : nat) (notBefore notAfter : pystr) (args : Args)
  : Method obtained :=
  call newDNSServer ;;;
  call start_http_challenge_server ;;;
  domains <~ lift (iterate (domain args)) ;;
  add_A_records domains (record args) ;;;
  call server_start ;;;
  new_ACMEClient (dir args) ;;;
  obtain_steps fuel notBefore notAfter args.

(** [start_server_to_use_certificate]: [key, cert = obtain_certificate(args)]
    cannot unpack [False]. *)
Definition start_server_to_use_certificate (fuel : nat) (notBefore notAfter : pystr)
    (args : Args) : Method unit :=
  r <~ obtain_certificate fuel notBefore notAfter args ;;
  match r with
  | Failed => throw (Py TypeError)
  | Obtained key cert =>
      call pkill_dns_server ;;;
      call (start_https_server key_path cert_path)
  end.

(* ===================================================================== *)
(** ** Vocabulary of the further statements *)
(* ===================================================================== *)

(** A certificate authority to run the examples against: the directory, then
    nonces; the account, the order, one authorization with a dns-01
    challenge, the answer to the challenge, the order ready, the finalize
    request accepted, the order valid, the certificate, the revocation. *)
Definition demo_directory : value :=
  VDict [(str "newNonce", VStr (str "https://ca/nonce"));
         (str "newAccount", VStr (str "https://ca/acct"));
         (str "newOrder", VStr (str "https://ca/order"));
         (str "revokeCert", VStr (str "https://ca/revoke"))].

Definition demo_order : value :=
  VDict [(str "status", VStr (str "pending"));
         (str "authorizations", VList [VStr (str "https://ca/authz/1")]);
         (str "finalize", VStr (str "https://ca/finalize/1"))].

Definition demo_authorization : value :=
  VDict [(str "identifier", VDict [(str "type", VStr (str "dns"));
                                   (str "value", VStr (str "example.org"))]);
         (str "challenges",
          VList [VDict [(str "type", VStr (str "dns-01"));
                        (str "url", VStr (str "https://ca/chall/1"));
                        (str "token", VStr (str "Qg6b"))]])].

Definition demo_ca_client (i : nat) : Response :=
  match i with
  | O => demo_response 200 [] (Some demo_directory)
  | _ => demo_response 204 [(str "Replay-Nonce", str "n0nce")] None
  end.

Definition demo_ca (i : nat) : Response :=
  match i with
  | 0%nat => demo_response 201 [(str "Location", str "https://ca/acct/7")]
               (Some (VDict [(str "status", VStr (str "valid"))]))
  | 1%nat => demo_response 201 [(str "Location", str "https://ca/order/1")]
               (Some demo_order)
  | 2%nat => demo_response 200 [] (Some demo_authorization)
  | 3%nat => demo_response 200 [] (Some (VDict [(str "status", VStr (str "pending"))]))
  | 4%nat => demo_response 200 [] (Some (resource "ready"))
  | 5%nat => demo_response 200 [] (Some (resource "processing"))
  | 6%nat => demo_response 200 [] (Some (resource "valid"))
  | 7%nat => {| status_code := 200; headers := []; json := None;
                content := [x2d; x2d; x2d; x2d; x2d] |}
  | _ => demo_response 200 [] None
  end.

Definition demo_host : Host :=
  {| calls := [];
     written := [];
     generate_keypair := key demo_client;
     generate_csr_key := fun _ => inl ([x6b; x65; x79], [x01; x02]);
     load_pem_x509_certificate := fun pem => Some (x30 :: pem) |}.

Definition demo_args : Args :=
  {| challenge := str "dns01";
     dir := str "https://ca/dir";
     record := str "1.2.3.4";
     domain := VList [VStr (str "example.org")];
     revoke := true |}.

(** The program before anything has run, given the answers of the servers. *)
Definition demo_program (client jose : nat -> Response) : Program :=
  {| endpoints := {| directory := str "https://ca/dir"; revokeCert_url := VNone;
                     newAccount_url := VNone; newOrder_url := VNone |};
     state := {| self := init (key demo_client);
                 world := {| client_session := client;
                             client_calls := 0;
                             jose_session := jose;
                             jose_calls := 0;
                             sent := [];
                             signer := fun _ d => d;
                             signed := [];
                             zone_TXT := [];
                             http_challenges := [];
                             slept := 0 |} |};
     host := demo_host |}.

(** The program when the directory is read and the account exists. *)
Definition demo_registered (jose : nat -> Response) : Program :=
  {| endpoints := {| directory := str "https://ca/dir";
                     revokeCert_url := VStr (str "https://ca/revoke");
                     newAccount_url := VStr (str "https://ca/acct");
                     newOrder_url := VStr (str "https://ca/order") |};
     state := demo_state jose;
     host := demo_host |}.

(** Either envelope builder, and the [protected] dictionary it encodes. *)
Definition create_jose (jwk_mode : bool) (url payload : value) : M value :=
  if jwk_mode then create_jose_jwk url payload else create_jose_kid url payload.

Definition protected_of (jwk_mode : bool) (s : State) (nonce : option pystr)
    (url : value) : value :=
  if jwk_mode
  then jwk_protected
         (VDict [(str "crv", VStr (str "P-256"));
                 (str "kid", VStr (str "1"));
                 (str "kty", VStr (str "EC"));
                 (str "x", VStr (b64url (to_bytes (Qx (key (self s))))));
                 (str "y", VStr (b64url (to_bytes (Qy (key (self s))))))])
         nonce url
  else kid_protected (account_kid (self s)) nonce url.

(** The text a member of an envelope decodes to. *)
Definition decoded (env : value) (k : string) : option bytes :=
  match member env k with
  | Some (VStr e) => decode_b64 e
  | _ => None
  end.

(** The bytes of the JSON text of an object. *)
Definition json_bytes (v : value) : bytes := map byte_of_N (json_dumps v).

(** The nonce a response of the nonce endpoint gives. *)
Definition nonce_of (r : Response) : option pystr :=
  if ((status_code r =? 200) || (status_code r =? 204))%Z
  then header_get (headers r) (str "Replay-Nonce")
  else None.

(** The requests of [finalize_certificate]: polling traffic, and POSTs to the
    finalize URL. *)
Definition finalize_traffic (order_url finalize_url : pystr) (reqs : list Request) : Prop :=
  Forall (fun q => match q with
                   | GET _ => True
                   | POST u d _ => (u = order_url /\ d = Some (VStr [])) \/
                                   (u = finalize_url /\ d = None)
                   end) reqs.

(** How many signing requests a list of requests holds: the POSTs that are
    no polls. *)
Definition is_submission (q : Request) : bool :=
  match q with
  | POST _ None _ => true
  | _ => false
  end.

(** The challenge type a scheme asks for. *)
Definition challenge_type (auth_scheme : pystr) : option pystr :=
  if pystr_eqb auth_scheme (str "dns01") then Some (str "dns-01")
  else if pystr_eqb auth_scheme (str "http01") then Some (str "http-01")
  else None.

(** A challenge the loop passes over: it has a token that formats and, when
    the scheme is one of the two, a type that is not the one asked for. *)
Definition passed_over (auth_scheme : pystr) (c : value) : Prop :=
  (exists tv, member c "token" = Some tv /\ format_str tv <> None) /\
  match challenge_type auth_scheme with
  | Some k => exists ty, member c "type" = Some ty /\ ty <> VStr k
  | None => True
  end.

(** The program after [get_directory] has read a directory object. *)
Definition resolved (p : Program) (revokeCert : value) (newNonce : pystr)
    (newAccount newOrder : value) : Program :=
  {| endpoints := {| directory := directory (endpoints p);
                     revokeCert_url := revokeCert;
                     newAccount_url := newAccount;
                     newOrder_url := newOrder |};
     state := snd (assign_newNonce_url (Some newNonce)
                     (snd (client_session_get (directory (endpoints p)) (state p))));
     host := host p |}.

(** The payload member of the envelope for a payload: the kid mode leaves the
    empty string as it is. *)
Definition encoded_payload (jwk_mode : bool) (payload : value) : pystr :=
  if negb jwk_mode && is_str payload [] then [] else b64url (json_bytes payload).

(** The nonce the next envelope will carry. *)
Definition next_nonce (s : State) : option pystr :=
  match newNonce_url (self s) with
  | Some _ => nonce_of (next_client_response s)
  | None => None
  end.




(** The servers the client talks to: the answers of the two sessions. *)
Definition servers (s : State) : (nat -> Response) * (nat -> Response) :=
  (client_session (world s), jose_session (world s)).

(** A method of the first part that leaves the servers as they are, however
    it ends; it may consume answers. *)
Definition keeps {A} (m : M A) : Prop :=
  forall s, servers (snd (m s)) = servers s /\
            (client_calls (world s) <= client_calls (world (snd (m s))))%nat /\
            (jose_calls (world s) <= jose_calls (world (snd (m s))))%nat.

(** The same for a method of the second part, which also leaves alone what
    runs around the client. *)
Definition preserves {A} (m : Method A) : Prop :=
  forall p, servers (state (snd (m p))) = servers (state p) /\
            (client_calls (world (state p))
             <= client_calls (world (state (snd (m p)))))%nat /\
            (jose_calls (world (state p)) <= jose_calls (world (state (snd (m p)))))%nat /\
            host (snd (m p)) = host p.

(** The program when [obtain_certificate] has set up the servers and made
    the client. *)
Definition set_up (args : Args) (domains : list value) (p : Program) : Program :=
  {| endpoints := {| directory := dir args; revokeCert_url := VNone;
                     newAccount_url := VNone; newOrder_url := VNone |};
     state := {| self := init (generate_keypair (host p)); world := world (state p) |};
     host := {| calls := calls (host p)
                  ++ [newDNSServer; start_http_challenge_server]
                  ++ map (fun d => zone_add_A d (record args)) domains
                  ++ [server_start];
                written := written (host p);
                generate_keypair := generate_keypair (host p);
                generate_csr_key := generate_csr_key (host p);
                load_pem_x509_certificate := load_pem_x509_certificate (host p) |} |}.

(** The nonce endpoint answers well from the [k]-th answer on. *)
Definition nonce_ok_from (k : nat) (s : State) : Prop :=
  forall i, (k <= i)%nat -> nonce_header_present (client_session (world s) i).

(** [p'] is the program [p] some requests later: the same servers, the same
    things around the client. *)
Definition later (p p' : Program) : Prop :=
  client_session (world (state p')) = client_session (world (state p)) /\
  jose_session (world (state p')) = jose_session (world (state p)) /\
  (client_calls (world (state p)) <= client_calls (world (state p')))%nat /\
  (jose_calls (world (state p)) <= jose_calls (world (state p')))%nat /\
  host p' = host p.

(* ===================================================================== *)
(** ** Theorems *)
(* ===================================================================== *)

Example encode_b64_foobar :
  encode_b64 (ArgStr (str "foobar")) = Some (str "Zm9vYmFy")
  /\ encode_b64 (ArgStr (str "fo")) = Some (str "Zm8")
  /\ encode_b64 (ArgStr (str "f")) = Some (str "Zg")
  /\ encode_b64 (ArgBytes [xfb; xff]) = Some (str "-_8")
  /\ decode_b64 (str "-_8") = Some [xfb; xff]
  /\ decode_b64 (str "Zg") = Some [x66].
Proof. repeat split; vm_compute; reflexivity. Qed.

Example sha256_abc :
  SHA256.sha256 [x61; x62; x63] =
  [xba; x78; x16; xbf; x8f; x01; xcf; xea; x41; x41; x40; xde; x5d; xae; x22; x23;
   xb0; x03; x61; xa3; x96; x17; x7a; x9c; xb4; x10; xff; x61; xf2; x00; x15; xad].
Proof. vm_compute. reflexivity. Qed.

Example json_dumps_examples :
  json_dumps (VDict [(str "a", VInt (-12)); (str "b", VList [VNone; VBool true]);
                     (str "c", VStr [233; 10; 128512; 34])])
  = str "{" ++ [34] ++ str "a" ++ [34] ++ str ": -12, " ++ [34] ++ str "b" ++ [34]
    ++ str ": [null, true], " ++ [34] ++ str "c" ++ [34] ++ str ": " ++ [34]
    ++ str "\u00e9\n\ud83d\ude00\" ++ [34; 34] ++ str "}"
  /\ json_dumps (VDict []) = str "{}"
  /\ json_dumps (VStr []) = [34; 34]
  /\ json_dumps_sep (str ",") (str ":") (VDict [(str "a", VInt 0); (str "b", VList [])])
     = str "{" ++ [34] ++ str "a" ++ [34] ++ str ":0," ++ [34] ++ str "b" ++ [34] ++ str ":[]}".
Proof. repeat split; vm_compute; reflexivity. Qed.

(** *** base64: encoding and decoding *)

Lemma list_ind3 {A} (P : list A -> Prop) :
  P [] -> (forall a, P [a]) -> (forall a b, P [a; b]) ->
  (forall a b c r, P r -> P (a :: b :: c :: r)) -> forall l, P l.
Proof.
  intros H0 H1 H2 H3.
  fix IH 1. intros [|a [|b [|c r]]].
  - exact H0.
  - apply H1.
  - apply H2.
  - apply H3, IH.
Qed.

Lemma byte_of_to_N b : byte_of_N (Byte.to_N b) = b.
Proof.
  unfold byte_of_N. pose proof (Byte.to_N_bounded b).
  rewrite N.mod_small by lia. rewrite Byte.of_to_N. reflexivity.
Qed.

Lemma sextet_table :
  forallb (fun n => match b64_index (b64_char n) with Some m => m =? n | None => false end)
          (map N.of_nat (seq 0 64)) = true.
Proof. vm_compute. reflexivity. Qed.

Lemma b64_index_char n : n < 64 -> b64_index (b64_char n) = Some n.
Proof.
  intros H. pose proof sextet_table as T. rewrite forallb_forall in T.
  assert (I : In n (map N.of_nat (seq 0 64))).
  { apply in_map_iff. exists (N.to_nat n). split; [lia|]. apply in_seq. lia. }
  specialize (T n I). destruct (b64_index (b64_char n)); [|discriminate].
  apply N.eqb_eq in T. congruence.
Qed.

Lemma b64_char_in n : n < 64 -> In (b64_char n) b64_alphabet.
Proof.
  intros H. unfold b64_char. apply nth_In.
  change (List.length b64_alphabet) with 64%nat. lia.
Qed.

Lemma alphabet_props :
  forallb (fun c => (c <? 128) && negb (c =? pad_char) && (32 <? c)) b64_alphabet = true.
Proof. vm_compute. reflexivity. Qed.

Lemma alphabet_char c :
  In c b64_alphabet -> c < 128 /\ c <> pad_char /\ 32 < c.
Proof.
  intros H. pose proof alphabet_props as T. rewrite forallb_forall in T.
  specialize (T c H). apply andb_true_iff in T. destruct T as [T T3].
  apply andb_true_iff in T. destruct T as [T1 T2].
  apply N.ltb_lt in T1. apply N.ltb_lt in T3. apply negb_true_iff in T2.
  apply N.eqb_neq in T2. auto.
Qed.

Lemma rstrip_keep chars c r :
  existsb (N.eqb c) chars = false -> rstrip chars (c :: r) = c :: rstrip chars r.
Proof. intros H. simpl. rewrite H. destruct (rstrip chars r); reflexivity. Qed.

Lemma not_pad_keep c r :
  c <> pad_char -> rstrip (str "=") (c :: r) = c :: rstrip (str "=") r.
Proof.
  intros H. apply rstrip_keep. simpl. rewrite orb_false_r.
  apply N.eqb_neq. exact H.
Qed.

Lemma b64_char_keep n r :
  n < 64 -> rstrip (str "=") (b64_char n :: r) = b64_char n :: rstrip (str "=") r.
Proof. intros H. apply not_pad_keep. apply (alphabet_char _ (b64_char_in n H)). Qed.

Lemma b64_char_not_pad n : n < 64 -> (b64_char n =? pad_char) = false.
Proof. intros H. apply N.eqb_neq. apply (alphabet_char _ (b64_char_in n H)). Qed.

Lemma sextet_bounds n :
  n < 16777216 ->
  n / 262144 < 64 /\ (n / 4096) mod 64 < 64 /\ (n / 64) mod 64 < 64 /\ n mod 64 < 64.
Proof.
  intros H. repeat split; try (apply N.mod_lt; lia).
  apply N.Div0.div_lt_upper_bound. lia.
Qed.

Lemma sextets_recompose n :
  n < 16777216 ->
  (n / 262144) * 262144 + ((n / 4096) mod 64) * 4096 + ((n / 64) mod 64) * 64 + n mod 64 = n.
Proof.
  intros H.
  assert (E1 : n = 64 * (n / 64) + n mod 64) by (apply N.div_mod; lia).
  assert (E2 : n / 64 = 64 * (n / 64 / 64) + (n / 64) mod 64) by (apply N.div_mod; lia).
  assert (E3 : n / 64 / 64 = 64 * (n / 64 / 64 / 64) + (n / 64 / 64) mod 64)
    by (apply N.div_mod; lia).
  rewrite !N.Div0.div_div in E2, E3. change (64 * 64) with 4096 in *.
  change (4096 * 64) with 262144 in *.
  assert (E4 : n / 4096 / 64 = n / 262144) by (rewrite N.Div0.div_div; reflexivity).
  assert (B : n / 262144 < 64) by (apply N.Div0.div_lt_upper_bound; lia).
  lia.
Qed.

Lemma octets_split x y z :
  x < 256 -> y < 256 -> z < 256 ->
  let n := x * 65536 + y * 256 + z in
  n < 16777216 /\ n / 65536 = x /\ (n / 256) mod 256 = y /\ n mod 256 = z.
Proof.
  intros Hx Hy Hz n. subst n.
  assert (E1 : (x * 65536 + y * 256 + z) mod 256 = z).
  { replace (x * 65536 + y * 256 + z) with (z + (x * 256 + y) * 256) by lia.
    rewrite N.Div0.mod_add. apply N.mod_small. lia. }
  assert (E2 : (x * 65536 + y * 256 + z) / 256 = x * 256 + y).
  { replace (x * 65536 + y * 256 + z) with (z + (x * 256 + y) * 256) by lia.
    rewrite N.div_add by lia. rewrite N.div_small; lia. }
  assert (E3 : (x * 65536 + y * 256 + z) / 65536 = x).
  { change 65536 with (256 * 256) at 2. rewrite <- N.Div0.div_div. rewrite E2.
    replace (x * 256 + y) with (y + x * 256) by lia.
    rewrite N.div_add by lia. rewrite N.div_small; lia. }
  rewrite E1, E2, E3. repeat split; try lia.
  replace (x * 256 + y) with (y + x * 256) by lia.
  rewrite N.Div0.mod_add. apply N.mod_small. lia.
Qed.

Lemma byte_lt b : Byte.to_N b < 256.
Proof. pose proof (Byte.to_N_bounded b). lia. Qed.

Lemma bytes_recompose (a b c : byte) :
  let n := Byte.to_N a * 65536 + Byte.to_N b * 256 + Byte.to_N c in
  n < 16777216 /\
  byte_of_N (n / 65536) = a /\ byte_of_N ((n / 256) mod 256) = b /\
  byte_of_N (n mod 256) = c.
Proof.
  intros n.
  destruct (octets_split _ _ _ (byte_lt a) (byte_lt b) (byte_lt c)) as (B & E1 & E2 & E3).
  fold n in B, E1, E2, E3. rewrite E1, E2, E3, !byte_of_to_N. auto.
Qed.

Lemma decode_quad_3 (a b c : byte) :
  let n := Byte.to_N a * 65536 + Byte.to_N b * 256 + Byte.to_N c in
  decode_quad (b64_char (n / 262144)) (b64_char ((n / 4096) mod 64))
              (b64_char ((n / 64) mod 64)) (b64_char (n mod 64)) = Some [a; b; c].
Proof.
  intros n. destruct (bytes_recompose a b c) as (B & Ea & Eb & Ec). fold n in B, Ea, Eb, Ec.
  destruct (sextet_bounds n B) as (B0 & B1 & B2 & B3).
  unfold decode_quad. rewrite !b64_index_char by assumption.
  rewrite (b64_char_not_pad _ B3), andb_false_r.
  rewrite (sextets_recompose n B), Ea, Eb, Ec. reflexivity.
Qed.

Lemma decode_quad_2 (a b : byte) :
  let n := Byte.to_N a * 65536 + Byte.to_N b * 256 in
  decode_quad (b64_char (n / 262144)) (b64_char ((n / 4096) mod 64))
              (b64_char ((n / 64) mod 64)) pad_char = Some [a; b].
Proof.
  intros n. destruct (bytes_recompose a b x00) as (B & Ea & Eb & _).
  change (Byte.to_N x00) with 0 in *. rewrite N.add_0_r in *. fold n in B, Ea, Eb.
  destruct (sextet_bounds n B) as (B0 & B1 & B2 & B3).
  unfold decode_quad. rewrite !b64_index_char by assumption.
  rewrite (b64_char_not_pad _ B2), andb_false_l, N.eqb_refl.
  assert (Z : n mod 64 = 0).
  { subst n. replace (Byte.to_N a * 65536 + Byte.to_N b * 256)
      with (0 + (Byte.to_N a * 1024 + Byte.to_N b * 4) * 64) by lia.
    rewrite N.Div0.mod_add. reflexivity. }
  pose proof (sextets_recompose n B) as R. rewrite Z, N.add_0_r in R.
  cbv zeta. rewrite R, Ea, Eb. reflexivity.
Qed.

Lemma decode_quad_1 (a : byte) :
  let n := Byte.to_N a * 65536 in
  decode_quad (b64_char (n / 262144)) (b64_char ((n / 4096) mod 64))
              pad_char pad_char = Some [a].
Proof.
  intros n. destruct (bytes_recompose a x00 x00) as (B & Ea & _ & _).
  change (Byte.to_N x00) with 0 in *. rewrite N.mul_0_l, !N.add_0_r in *. fold n in B, Ea.
  destruct (sextet_bounds n B) as (B0 & B1 & B2 & B3).
  unfold decode_quad. rewrite !b64_index_char by assumption.
  rewrite N.eqb_refl. cbn [andb].
  assert (Z : n mod 4096 = 0).
  { subst n. replace (Byte.to_N a * 65536) with (0 + (Byte.to_N a * 16) * 4096) by lia.
    rewrite N.Div0.mod_add. reflexivity. }
  assert (R : n / 262144 * 262144 + (n / 4096) mod 64 * 4096 = n).
  { assert (E1 : n = 4096 * (n / 4096) + n mod 4096) by (apply N.div_mod; lia).
    assert (E2 : n / 4096 = 64 * (n / 4096 / 64) + (n / 4096) mod 64)
      by (apply N.div_mod; lia).
    assert (E3 : n / 4096 / 64 = n / 262144) by (rewrite N.Div0.div_div; reflexivity).
    lia. }
  rewrite R, Ea. reflexivity.
Qed.

Lemma restore_padding_quad a b c d s :
  restore_padding (a :: b :: c :: d :: s) = a :: b :: c :: d :: restore_padding s.
Proof.
  unfold restore_padding. cbn [List.length app]. do 4 f_equal. f_equal. f_equal.
  replace (S (S (S (S (List.length s))))) with (List.length s + 1 * 4)%nat by lia.
  rewrite Nat.Div0.mod_add. reflexivity.
Qed.

Lemma b64url_roundtrip (data : bytes) : decode_b64 (b64url data) = Some data.
Proof.
  unfold decode_b64, b64url. induction data as [| a | a b | a b c r IH] using list_ind3.
  - reflexivity.
  - cbn [urlsafe_b64encode].
    destruct (bytes_recompose a x00 x00) as (B & _).
    change (Byte.to_N x00) with 0 in B. rewrite N.mul_0_l, !N.add_0_r in B.
    destruct (sextet_bounds _ B) as (B0 & B1 & _).
    rewrite !b64_char_keep by assumption.
    change (rstrip (str "=") [pad_char; pad_char]) with (@nil N).
    change (restore_padding [?x; ?y]) with [x; y; pad_char; pad_char].
    cbn [urlsafe_b64decode]. rewrite decode_quad_1. reflexivity.
  - cbn [urlsafe_b64encode].
    destruct (bytes_recompose a b x00) as (B & _).
    change (Byte.to_N x00) with 0 in B. rewrite N.add_0_r in B.
    destruct (sextet_bounds _ B) as (B0 & B1 & B2 & _).
    rewrite !b64_char_keep by assumption.
    change (rstrip (str "=") [pad_char]) with (@nil N).
    change (restore_padding [?x; ?y; ?z]) with [x; y; z; pad_char].
    cbn [urlsafe_b64decode]. rewrite decode_quad_2. reflexivity.
  - cbn [urlsafe_b64encode]. destruct (bytes_recompose a b c) as (B & _).
    destruct (sextet_bounds _ B) as (B0 & B1 & B2 & B3).
    rewrite !b64_char_keep by assumption. rewrite restore_padding_quad.
    cbn [urlsafe_b64decode]. rewrite decode_quad_3, (b64_char_not_pad _ B3), IH.
    reflexivity.
Qed.

Lemma b64url_chars (data : bytes) : Forall (fun c => In c b64_alphabet) (b64url data).
Proof.
  unfold b64url. induction data as [| a | a b | a b c r IH] using list_ind3.
  - constructor.
  - cbn [urlsafe_b64encode].
    destruct (bytes_recompose a x00 x00) as (B & _).
    change (Byte.to_N x00) with 0 in B. rewrite N.mul_0_l, !N.add_0_r in B.
    destruct (sextet_bounds _ B) as (B0 & B1 & _).
    rewrite !b64_char_keep by assumption.
    change (rstrip (str "=") [pad_char; pad_char]) with (@nil N).
    repeat (apply Forall_cons; [apply b64_char_in; assumption|]). apply Forall_nil.
  - cbn [urlsafe_b64encode].
    destruct (bytes_recompose a b x00) as (B & _).
    change (Byte.to_N x00) with 0 in B. rewrite N.add_0_r in B.
    destruct (sextet_bounds _ B) as (B0 & B1 & B2 & _).
    rewrite !b64_char_keep by assumption.
    change (rstrip (str "=") [pad_char]) with (@nil N).
    repeat (apply Forall_cons; [apply b64_char_in; assumption|]). apply Forall_nil.
  - cbn [urlsafe_b64encode]. destruct (bytes_recompose a b c) as (B & _).
    destruct (sextet_bounds _ B) as (B0 & B1 & B2 & B3).
    rewrite !b64_char_keep by assumption.
    repeat (apply Forall_cons; [apply b64_char_in; assumption|]). exact IH.
Qed.

Lemma b64url_no_pad (data : bytes) : ~ In pad_char (b64url data).
Proof.
  intros H. pose proof (b64url_chars data) as F. rewrite Forall_forall in F.
  apply (alphabet_char _ (F _ H)). reflexivity.
Qed.

(** *** Text that is plain ASCII encodes without error *)



Lemma utf8_encode_ascii s :
  Forall (fun c => c < 128) s -> utf8_encode s = Some (map byte_of_N s).
Proof.
  induction 1 as [|c r Hc _ IH]; [reflexivity|].
  cbn [utf8_encode map]. unfold utf8_encode_char.
  apply N.ltb_lt in Hc. rewrite Hc, IH. reflexivity.
Qed.

Lemma ascii_encode_ascii s :
  Forall (fun c => c < 128) s -> ascii_encode s = Some (map byte_of_N s).
Proof.
  induction 1 as [|c r Hc _ IH]; [reflexivity|].
  cbn [ascii_encode map]. apply N.ltb_lt in Hc. rewrite Hc, IH. reflexivity.
Qed.

Lemma printable_ascii s : Forall printable s -> Forall (fun c => c < 128) s.
Proof. apply Forall_impl. unfold printable. intros; lia. Qed.

Lemma b64url_ascii data : Forall (fun c => c < 128) (b64url data).
Proof.
  eapply Forall_impl; [|apply b64url_chars].
  intros c H. apply (alphabet_char c H).
Qed.

Lemma str_printable_check s :
  forallb (fun c => (32 <=? c) && (c <=? 126)) (str s) = true -> Forall printable (str s).
Proof.
  intros H. rewrite forallb_forall in H. apply Forall_forall. intros c Hc.
  specialize (H c Hc). apply andb_true_iff in H. destruct H as [H1 H2].
  apply N.leb_le in H1. apply N.leb_le in H2. split; assumption.
Qed.

Lemma hex_digit_printable d : d < 16 -> printable (hex_digit d).
Proof.
  intros H.
  assert (T : forallb (fun n => (32 <=? hex_digit n) && (hex_digit n <=? 126))
                      (map N.of_nat (seq 0 16)) = true) by (vm_compute; reflexivity).
  rewrite forallb_forall in T.
  assert (I : In d (map N.of_nat (seq 0 16))).
  { apply in_map_iff. exists (N.to_nat d). split; [lia|]. apply in_seq. lia. }
  specialize (T d I). apply andb_true_iff in T. destruct T as [T1 T2].
  apply N.leb_le in T1. apply N.leb_le in T2. split; assumption.
Qed.

Lemma u_escape_printable n : Forall printable (u_escape n).
Proof.
  unfold u_escape, hex4.
  repeat (apply Forall_cons; [|]); try apply Forall_nil;
    try (apply hex_digit_printable; apply N.mod_lt; lia);
    unfold printable, backslash; lia.
Qed.

Lemma escape_char_printable c : Forall printable (escape_char c).
Proof.
  unfold escape_char.
  repeat match goal with
  | |- Forall _ (if ?b then _ else _) => destruct b eqn:?
  end;
  try (apply Forall_app; split); try apply u_escape_printable;
  try (repeat (apply Forall_cons; [unfold printable, backslash, quote; lia|]); apply Forall_nil).
  apply andb_true_iff in Heqb1. destruct Heqb1 as [H1 H2].
  apply N.leb_le in H1. apply N.leb_le in H2.
  apply Forall_cons; [split; assumption | apply Forall_nil].
Qed.

Lemma encode_basestring_printable s : Forall printable (encode_basestring_ascii s).
Proof.
  unfold encode_basestring_ascii. apply Forall_cons; [unfold printable, quote; lia|].
  apply Forall_app. split.
  - induction s as [|c r IH]; [constructor|]. cbn [flat_map].
    apply Forall_app. split; [apply escape_char_printable | exact IH].
  - apply Forall_cons; [unfold printable, quote; lia | apply Forall_nil].
Qed.

Lemma string_of_uint_printable d :
  Forall printable (str (NilEmpty.string_of_uint d)).
Proof.
  induction d; cbn [NilEmpty.string_of_uint];
    try apply Forall_nil;
    (apply Forall_cons; [unfold printable; cbn; lia | exact IHd]).
Qed.

Lemma decimal_printable z : Forall printable (decimal z).
Proof.
  unfold decimal, NilZero.string_of_int, NilZero.string_of_uint.
  destruct (Z.to_int z) as [d|d].
  - destruct d; try apply string_of_uint_printable.
    apply str_printable_check. reflexivity.
  - change (str (String "-" ?s)) with (45 :: str s).
    apply Forall_cons; [unfold printable; lia|].
    destruct d; try apply string_of_uint_printable.
    apply str_printable_check. reflexivity.
Qed.

(** *** [json.dumps] writes printable ASCII *)

Lemma value_ind_nested (P : value -> Prop) :
  P VNone -> (forall b, P (VBool b)) -> (forall z, P (VInt z)) ->
  (forall s, P (VStr s)) ->
  (forall l, Forall P l -> P (VList l)) ->
  (forall d, Forall (fun kv => P (snd kv)) d -> P (VDict d)) ->
  forall v, P v.
Proof.
  intros HN HB HI HS HL HD. fix IH 1. intros [| b | z | s | l | d].
  - exact HN.
  - apply HB.
  - apply HI.
  - apply HS.
  - apply HL. induction l as [|x r IHr]; constructor; [apply IH | exact IHr].
  - apply HD. induction d as [|[k x] r IHr]; constructor; [apply IH | exact IHr].
Qed.

Lemma json_dumps_sep_printable item_sep key_sep :
  Forall printable item_sep -> Forall printable key_sep ->
  forall v, Forall printable (json_dumps_sep item_sep key_sep v).
Proof.
  intros Hi Hk. induction v as [| b | z | s | l IH | d IH] using value_ind_nested;
    cbn [json_dumps_sep].
  - apply str_printable_check. reflexivity.
  - destruct b; apply str_printable_check; reflexivity.
  - apply decimal_printable.
  - apply encode_basestring_printable.
  - apply Forall_app. split; [apply str_printable_check; reflexivity|].
    apply Forall_app. split; [|apply str_printable_check; reflexivity].
    induction IH as [|x r Hx _ IHr]; [constructor|].
    apply Forall_app. split; [exact Hx|].
    destruct r; [constructor|]. apply Forall_app. split; [exact Hi | exact IHr].
  - apply Forall_app. split; [apply str_printable_check; reflexivity|].
    apply Forall_app. split; [|apply str_printable_check; reflexivity].
    induction IH as [|[k x] r Hx _ IHr]; [constructor|].
    apply Forall_app. split; [apply encode_basestring_printable|].
    apply Forall_app. split; [exact Hk|].
    apply Forall_app. split; [exact Hx|].
    destruct r; [constructor|]. apply Forall_app. split; [exact Hi | exact IHr].
Qed.

Lemma json_dumps_printable v : Forall printable (json_dumps v).
Proof.
  apply json_dumps_sep_printable; apply str_printable_check; reflexivity.
Qed.

Lemma encode_b64_json v :
  encode_b64 (ArgStr (json_dumps v)) = Some (b64url (map byte_of_N (json_dumps v))).
Proof.
  unfold encode_b64.
  rewrite (utf8_encode_ascii _ (printable_ascii _ (json_dumps_printable v))).
  reflexivity.
Qed.

(** *** The methods as equations *)

Lemma b64_bytes data s : b64 (ArgBytes data) s = (Ret (b64url data), s).
Proof. reflexivity. Qed.

Lemma b64_json v s :
  b64 (ArgStr (json_dumps v)) s = (Ret (b64url (map byte_of_N (json_dumps v))), s).
Proof. unfold b64. rewrite encode_b64_json. reflexivity. Qed.

Lemma get_nonce_eq s :
  get_nonce s =
  match newNonce_url (self s) with
  | None => (Ret None, s)
  | Some url =>
      let r := next_client_response s in
      let s1 := snd (client_session_get url s) in
      if ((status_code r =? 200) || (status_code r =? 204))%Z then
        match header_get (headers r) (str "Replay-Nonce") with
        | Some n => (Ret (Some n), snd (set_nextNonce n s1))
        | None => (Raise (KeyError (str "Replay-Nonce")), s1)
        end
      else (Ret None, s1)
  end.
Proof.
  unfold get_nonce, bind, get_self. cbn [fst snd].
  destruct (newNonce_url (self s)) as [url|]; [|reflexivity].
  cbn [client_session_get snd fst]. unfold next_client_response.
  destruct ((status_code _ =? 200) || _)%Z; [|reflexivity].
  destruct (header_get _ _); reflexivity.
Qed.

Lemma create_jwk_object_eq s :
  create_jwk_object s =
  (Ret (VDict [(str "crv", VStr (str "P-256"));
               (str "kid", VStr (str "1"));
               (str "kty", VStr (str "EC"));
               (str "x", VStr (b64url (to_bytes (Qx (key (self s))))));
               (str "y", VStr (b64url (to_bytes (Qy (key (self s))))))]), s).
Proof. reflexivity. Qed.

Lemma signing_input_ascii eh ep :
  ascii_encode (b64url eh ++ str "." ++ b64url ep)
  = Some (map byte_of_N (b64url eh ++ str "." ++ b64url ep)).
Proof.
  apply ascii_encode_ascii. apply Forall_app. split; [apply b64url_ascii|].
  apply Forall_app. split; [|apply b64url_ascii].
  repeat constructor.
Qed.

Lemma signing_input_ascii_empty eh :
  ascii_encode (b64url eh ++ str ".") = Some (map byte_of_N (b64url eh ++ str ".")).
Proof.
  apply ascii_encode_ascii. apply Forall_app. split; [apply b64url_ascii|].
  repeat constructor.
Qed.

Lemma bind_ret_eq {A B} (m : M A) (f : A -> M B) s a s' :
  m s = (Ret a, s') -> bind m f s = f a s'.
Proof. intros H. unfold bind. rewrite H. reflexivity. Qed.

Lemma bind_raise_eq {A B} (m : M A) (f : A -> M B) s e s' :
  m s = (Raise e, s') -> bind m f s = (Raise e, s').
Proof. intros H. unfold bind. rewrite H. reflexivity. Qed.

Lemma bind_running_eq {A B} (m : M A) (f : A -> M B) s s' :
  m s = (Running, s') -> bind m f s = (Running, s').
Proof. intros H. unfold bind. rewrite H. reflexivity. Qed.

Lemma ret_inj {A} (a b : A) (s s' : State) : (Ret a, s) = (Ret b, s') -> a = b /\ s = s'.
Proof. intros [= -> ->]. auto. Qed.

Lemma or_raise_some {A} e (o : option A) a s : o = Some a -> or_raise e o s = (Ret a, s).
Proof. intros ->. reflexivity. Qed.

Lemma or_raise_signing eh ep s :
  or_raise UnicodeEncodeError (ascii_encode (b64url eh ++ str "." ++ b64url ep)) s
  = (Ret (map byte_of_N (b64url eh ++ str "." ++ b64url ep)), s).
Proof. apply or_raise_some, signing_input_ascii. Qed.

Lemma or_raise_signing_empty eh s :
  or_raise UnicodeEncodeError (ascii_encode (b64url eh ++ str ".")) s
  = (Ret (map byte_of_N (b64url eh ++ str ".")), s).
Proof. apply or_raise_some, signing_input_ascii_empty. Qed.

Tactic Notation "mret" uconstr(E) := (erewrite bind_ret_eq by exact E); cbv zeta.

(** The envelope of the kid mode and the state it leaves, given the nonce. *)
Lemma create_jose_kid_eq url payload s :
  create_jose_kid url payload s =
  match get_nonce s with
  | (Ret nonce, s1) =>
      let eh := b64url (map byte_of_N
                  (json_dumps (kid_protected (account_kid (self s)) nonce url))) in
      let ep := if is_str payload [] then []
                else b64url (map byte_of_N (json_dumps payload)) in
      let h := SHA256.new (map byte_of_N (eh ++ str "." ++ ep)) in
      (Ret (VDict [(str "protected", VStr eh);
                   (str "payload", VStr ep);
                   (str "signature",
                    VStr (b64url (signer (world s1) (List.length (signed (world s1)))
                                         (SHA256.digest h))))]),
       snd (signing_alg_sign h s1))
  | (Raise e, s1) => (Raise e, s1)
  | (Running, s1) => (Running, s1)
  end.
Proof.
  unfold create_jose_kid.
  mret (eq_refl : get_self s = (Ret (self s), s)).
  destruct (get_nonce s) as [[nonce|e|] s1] eqn:G;
    [ | apply (bind_raise_eq _ _ _ _ _ G) | apply (bind_running_eq _ _ _ _ G) ].
  mret G. mret (b64_json (kid_protected (account_kid (self s)) nonce url) s1).
  destruct (is_str payload []).
  - erewrite (bind_ret_eq (bind _ _)).
    2:{ mret (or_raise_signing_empty _ _).
        reflexivity. }
    cbn [fst snd]. rewrite app_nil_r. reflexivity.
  - erewrite (bind_ret_eq (bind _ _)).
    2:{ mret (b64_json payload s1).
        mret (or_raise_signing _ _ _).
        reflexivity. }
    reflexivity.
Qed.

(** The envelope of the jwk mode. *)
Lemma create_jose_jwk_eq url payload s :
  create_jose_jwk url payload s =
  match get_nonce s with
  | (Ret nonce, s1) =>
      let jwk := VDict [(str "crv", VStr (str "P-256"));
                        (str "kid", VStr (str "1"));
                        (str "kty", VStr (str "EC"));
                        (str "x", VStr (b64url (to_bytes (Qx (key (self s))))));
                        (str "y", VStr (b64url (to_bytes (Qy (key (self s))))))] in
      let eh := b64url (map byte_of_N (json_dumps (jwk_protected jwk nonce url))) in
      let ep := b64url (map byte_of_N (json_dumps payload)) in
      let h := SHA256.new (map byte_of_N (eh ++ str "." ++ ep)) in
      (Ret (VDict [(str "protected", VStr eh);
                   (str "payload", VStr ep);
                   (str "signature",
                    VStr (b64url (signer (world s1) (List.length (signed (world s1)))
                                         (SHA256.digest h))))]),
       snd (signing_alg_sign h s1))
  | (Raise e, s1) => (Raise e, s1)
  | (Running, s1) => (Running, s1)
  end.
Proof.
  unfold create_jose_jwk.
  mret (create_jwk_object_eq s).
  destruct (get_nonce s) as [[nonce|e|] s1] eqn:G;
    [ | apply (bind_raise_eq _ _ _ _ _ G) | apply (bind_running_eq _ _ _ _ G) ].
  mret G. mret (b64_json (jwk_protected
     (VDict [(str "crv", VStr (str "P-256")); (str "kid", VStr (str "1"));
             (str "kty", VStr (str "EC"));
             (str "x", VStr (b64url (to_bytes (Qx (key (self s))))));
             (str "y", VStr (b64url (to_bytes (Qy (key (self s))))))]) nonce url) s1).
  mret (b64_json payload s1).
  mret (or_raise_signing _ _ _).
  reflexivity.
Qed.

(** *** What building an envelope touches *)

Lemma get_nonce_frame s r s' :
  get_nonce s = (r, s') -> untouched s s' /\ fetched s s' /\ signed (world s') = signed (world s).
Proof.
  rewrite get_nonce_eq. unfold untouched, fetched, setting.
  destruct (newNonce_url (self s)) as [url|] eqn:U.
  - cbv zeta. destruct ((_ =? 200) || _)%Z.
    + destruct (header_get _ _); intros [= <- <-]; cbn; rewrite U;
        (repeat split; try reflexivity);
        exists [GET url]; (split; [reflexivity | repeat constructor]).
    + intros [= <- <-]; cbn; rewrite U; (repeat split; try reflexivity);
        exists [GET url]; (split; [reflexivity | repeat constructor]).
  - intros [= <- <-]. rewrite U. repeat split; try reflexivity.
    exists []. rewrite app_nil_r. split; [reflexivity | constructor].
Qed.

Lemma create_jose_kid_frame url payload s r s' :
  create_jose_kid url payload s = (r, s') -> untouched s s' /\ fetched s s'.
Proof.
  rewrite create_jose_kid_eq.
  destruct (get_nonce s) as [[nonce|e|] s1] eqn:G;
    destruct (get_nonce_frame _ _ _ G) as (U & F & _);
    cbv zeta; intros [= <- <-]; auto.
Qed.

(** *** One round of the polling loop *)

Lemma poll_unfold fuel url su fa s :
  poll_resource_status (S fuel) url su fa s =
  match create_jose_kid (VStr url) (VStr []) s with
  | (Ret env, s1) =>
      let s2 := snd (jose_session_post url (Some (VStr [])) env s1) in
      match json (next_jose_response s1) with
      | None => (Raise JSONDecodeError, s2)
      | Some obj =>
          match poll_decide (next_jose_response s1) obj su fa s2 with
          | (Ret (Some v), s3) => (Ret v, s3)
          | (Ret None, s3) => poll_resource_status fuel url su fa (snd (sleep 1 s3))
          | (Raise e, s3) => (Raise e, s3)
          | (Running, s3) => (Running, s3)
          end
      end
  | (Raise e, s1) => (Raise e, s1)
  | (Running, s1) => (Running, s1)
  end.
Proof.
  cbn [poll_resource_status]. unfold bind at 1.
  destruct (create_jose_kid (VStr url) (VStr []) s) as [[env|e|] s1]; try reflexivity.
  unfold bind at 1. cbn [jose_session_post fst snd]. unfold bind at 1.
  unfold next_jose_response.
  destruct (json (jose_session (world s1) (jose_calls (world s1)))) as [obj|];
    [|reflexivity].
  cbn [or_raise ret]. unfold bind at 1.
  match goal with |- context [poll_decide ?r ?o ?a ?b ?st] =>
    destruct (poll_decide r o a b st) as [[[v|]|e|] s3] end; reflexivity.
Qed.

Lemma getitem_status r obj st s :
  json r = Some obj -> resource_status r = Some st ->
  getitem obj (str "status") s = (Ret st, s).
Proof.
  unfold resource_status. intros ->. destruct obj; try discriminate.
  cbn [getitem]. intros ->. reflexivity.
Qed.

Lemma poll_decide_success su fa r obj s :
  succeeds su r obj -> poll_decide r obj su fa s = (Ret (Some obj), s).
Proof.
  intros (C & J & st & R & V). unfold poll_decide. apply Z.eqb_eq in C. rewrite C.
  mret (getitem_status r obj st s J R). rewrite V. reflexivity.
Qed.

Lemma poll_decide_failure su fa r obj s :
  fails su fa r -> json r = Some obj ->
  poll_decide r obj su fa s = (Ret (Some (VBool false)), s).
Proof.
  intros (C & st & R & V & W) J. unfold poll_decide. apply Z.eqb_eq in C. rewrite C.
  mret (getitem_status r obj st s J R). rewrite V.
  mret (getitem_status r obj st s J R). rewrite W. reflexivity.
Qed.

Lemma poll_decide_retry su fa r obj s :
  retries su fa r -> json r = Some obj -> poll_decide r obj su fa s = (Ret None, s).
Proof.
  intros (_ & [C | (st & R & V & W)]) J; unfold poll_decide.
  - apply Z.eqb_neq in C. rewrite C. reflexivity.
  - destruct (status_code r =? 200)%Z; [|reflexivity].
    mret (getitem_status r obj st s J R). rewrite V.
    mret (getitem_status r obj st s J R). rewrite W. reflexivity.
Qed.

Lemma poll_decide_state su fa r obj s o s' :
  poll_decide r obj su fa s = (o, s') -> s' = s.
Proof.
  unfold poll_decide. destruct (status_code r =? 200)%Z; [|intros [= _ <-]; reflexivity].
  unfold bind, getitem, or_raise, ret, raise.
  destruct obj; try (intros [= _ <-]; reflexivity).
  destruct (dict_get d (str "status")); [|intros [= _ <-]; reflexivity].
  destruct (value_in v su); [intros [= _ <-]; reflexivity|].
  destruct (value_in v fa); intros [= _ <-]; reflexivity.
Qed.

Lemma poll_decide_returns su fa r obj s v s' :
  json r = Some obj ->
  poll_decide r obj su fa s = (Ret (Some v), s') ->
  succeeds su r obj /\ v = obj \/ fails su fa r /\ v = VBool false.
Proof.
  intros J. unfold poll_decide, succeeds, fails, resource_status. rewrite J.
  destruct (status_code r =? 200)%Z eqn:C; [|intros [=]].
  apply Z.eqb_eq in C. unfold bind, getitem, or_raise, ret, raise.
  intros H. destruct obj; try discriminate H.
  destruct (dict_get d (str "status")) as [st|]; [|discriminate H].
  destruct (value_in st su) eqn:V.
  - injection H as <- _. left. repeat split; auto. exists st. auto.
  - destruct (value_in st fa) eqn:W; [|discriminate H]. injection H as <- _.
    right. repeat split; auto. exists st. auto.
Qed.

Lemma create_jose_kid_returns url payload s :
  nonce_header_present (next_client_response s) ->
  exists env s1, create_jose_kid url payload s = (Ret env, s1).
Proof.
  intros H. rewrite create_jose_kid_eq, get_nonce_eq.
  destruct (newNonce_url (self s)); [|eauto].
  cbv zeta. unfold nonce_header_present in H.
  destruct ((_ =? 200) || _)%Z eqn:C; [|eauto].
  apply orb_true_iff in C. rewrite !Z.eqb_eq in C.
  destruct (header_get _ _); [eauto | exfalso; apply (H C); reflexivity].
Qed.

Lemma poll_traffic_gets url g : only_gets g -> poll_traffic url g.
Proof.
  apply Forall_impl. intros [u|u d b]; [auto | intros []].
Qed.

Lemma poll_round fuel url su fa s :
  nonce_header_present (next_client_response s) ->
  let r := next_jose_response s in
  exists s2,
    polled url 1 0 s s2 /\
    (forall obj, succeeds su r obj ->
       poll_resource_status (S fuel) url su fa s = (Ret obj, s2)) /\
    (fails su fa r ->
       poll_resource_status (S fuel) url su fa s = (Ret (VBool false), s2)) /\
    (retries su fa r ->
       poll_resource_status (S fuel) url su fa s
       = poll_resource_status fuel url su fa (snd (sleep 1 s2))).
Proof.
  intros N r.
  destruct (create_jose_kid_returns (VStr url) (VStr []) s N) as (env & s1 & E).
  destruct (create_jose_kid_frame _ _ _ _ _ E) as ((U1 & U2 & U3 & U4 & U5) & (g & G1 & G2)).
  assert (R : next_jose_response s1 = r).
  { unfold r, next_jose_response. rewrite U4.
    unfold setting in U1. injection U1 as _ _ _ _ _ _ _ _ -> _. reflexivity. }
  exists (snd (jose_session_post url (Some (VStr [])) env s1)). split; [|split; [|split]].
  - unfold polled. cbn [jose_session_post snd world self].
    repeat split; try assumption.
    + cbn. rewrite U4. lia.
    + cbn. rewrite U5. lia.
    + exists (g ++ [POST url (Some (VStr [])) env]). cbn. rewrite G1, app_assoc.
      split; [reflexivity|]. apply Forall_app. split; [apply poll_traffic_gets, G2|].
      repeat constructor.
  - intros obj S. rewrite poll_unfold, E. cbv zeta. rewrite R.
    destruct S as (C & J & S). rewrite J.
    rewrite (poll_decide_success su fa r obj _ (conj C (conj J S))). reflexivity.
  - intros F. rewrite poll_unfold, E. cbv zeta. rewrite R.
    assert (J : exists obj, json r = Some obj).
    { destruct F as (_ & st & F & _). unfold resource_status in F.
      destruct (json r); [eauto | discriminate]. }
    destruct J as (obj & J). rewrite J.
    rewrite (poll_decide_failure su fa r obj _ F J). reflexivity.
  - intros T. rewrite poll_unfold, E. cbv zeta. rewrite R.
    destruct T as ((obj & J) & T). rewrite J.
    rewrite (poll_decide_retry su fa r obj _ (conj (ex_intro _ obj J) T) J). reflexivity.
Qed.

(** *** The polling loop over a sequence of responses *)

Lemma polled_refl url s : polled url 0 0 s s.
Proof.
  unfold polled. repeat split; try lia.
  exists []. rewrite app_nil_r. split; [reflexivity | constructor].
Qed.

Lemma polled_trans url a b c d s1 s2 s3 :
  polled url a b s1 s2 -> polled url c d s2 s3 -> polled url (a + c) (b + d) s1 s3.
Proof.
  intros (A1 & A2 & A3 & A4 & A5 & g & A6 & A7) (B1 & B2 & B3 & B4 & B5 & h & B6 & B7).
  unfold polled. repeat split; try congruence; try lia.
  exists (g ++ h). rewrite B6, A6, app_assoc. split; [reflexivity|].
  apply Forall_app. split; assumption.
Qed.

Lemma polled_sleep url s : polled url 0 1 s (snd (sleep 1 s)).
Proof.
  unfold polled. cbn. repeat split; try lia.
  exists []. rewrite app_nil_r. split; [reflexivity | constructor].
Qed.

Lemma polled_sessions url a b s s' :
  polled url a b s s' ->
  client_session (world s') = client_session (world s) /\
  jose_session (world s') = jose_session (world s).
Proof.
  intros (A1 & _). unfold setting in A1. injection A1 as _ _ _ _ _ _ _ -> -> _. auto.
Qed.

Lemma polled_nonce_ok url a b s s' : polled url a b s s' -> nonce_ok s -> nonce_ok s'.
Proof.
  intros P N k. destruct (polled_sessions _ _ _ _ _ P) as (-> & _). apply N.
Qed.

Lemma poll_out_of_fuel url su fa s : poll_resource_status 0 url su fa s = (Running, s).
Proof. reflexivity. Qed.

(** After [k] responses that make it retry, the loop is where it started, [k]
    rounds and [k] seconds later. *)
Lemma poll_retries k : forall fuel url su fa s,
  nonce_ok s ->
  (forall i, (i < k)%nat ->
     retries su fa (jose_session (world s) (jose_calls (world s) + i))) ->
  exists s', polled url k k s s' /\
    poll_resource_status (k + fuel) url su fa s = poll_resource_status fuel url su fa s'.
Proof.
  induction k as [|k IH]; intros fuel url su fa s N T.
  - exists s. split; [apply polled_refl | reflexivity].
  - destruct (poll_round (k + fuel) url su fa s (N _)) as (s2 & P & _ & _ & R).
    assert (T0 : retries su fa (next_jose_response s)).
    { unfold next_jose_response. rewrite <- (Nat.add_0_r (jose_calls (world s))).
      apply T. lia. }
    specialize (R T0).
    pose proof (polled_trans _ _ _ _ _ _ _ _ P (polled_sleep url s2)) as P2.
    destruct (IH fuel url su fa (snd (sleep 1 s2))) as (s' & P' & E).
    + apply (polled_nonce_ok _ _ _ _ _ P2 N).
    + intros i Hi. destruct (polled_sessions _ _ _ _ _ P2) as (_ & ->).
      destruct P2 as (_ & _ & _ & -> & _).
      replace (jose_calls (world s) + (1 + 0) + i)%nat
        with (jose_calls (world s) + S i)%nat by lia.
      apply T. lia.
    + exists s'. split.
      * pose proof (polled_trans _ _ _ _ _ _ _ _ P2 P') as P3.
        replace (S k) with (1 + 0 + k)%nat at 1 by lia.
        replace (S k) with (0 + 1 + k)%nat by lia. exact P3.
      * cbn [Nat.add]. rewrite R. exact E.
Qed.

Lemma poll_running k : forall url su fa s,
  nonce_ok s ->
  (forall i, (i < k)%nat ->
     retries su fa (jose_session (world s) (jose_calls (world s) + i))) ->
  fst (poll_resource_status k url su fa s) = Running.
Proof.
  intros url su fa s N T.
  destruct (poll_retries k 0 url su fa s N T) as (s' & _ & E).
  rewrite Nat.add_0_r in E. rewrite E. reflexivity.
Qed.

Lemma poll_terminal k fuel url su fa s :
  nonce_ok s ->
  (forall i, (i < k)%nat ->
     retries su fa (jose_session (world s) (jose_calls (world s) + i))) ->
  (k < fuel)%nat ->
  let r := jose_session (world s) (jose_calls (world s) + k) in
  exists s', polled url (S k) k s s' /\
    (forall obj, succeeds su r obj ->
       poll_resource_status fuel url su fa s = (Ret obj, s')) /\
    (fails su fa r ->
       poll_resource_status fuel url su fa s = (Ret (VBool false), s')).
Proof.
  intros N T L r.
  destruct (poll_retries k (fuel - k) url su fa s N T) as (s1 & P & E).
  replace (k + (fuel - k))%nat with fuel in E by lia.
  destruct (fuel - k)%nat as [|f] eqn:F; [lia|].
  destruct (poll_round f url su fa s1 (polled_nonce_ok _ _ _ _ _ P N _))
    as (s2 & P2 & Sc & Fl & _).
  assert (R : next_jose_response s1 = r).
  { unfold next_jose_response, r. destruct (polled_sessions _ _ _ _ _ P) as (_ & ->).
    destruct P as (_ & _ & _ & -> & _). reflexivity. }
  rewrite R in Sc, Fl. exists s2. split; [|split].
  - pose proof (polled_trans _ _ _ _ _ _ _ _ P P2) as P3.
    replace (S k) with (k + 1)%nat by lia. rewrite Nat.add_0_r in P3. exact P3.
  - intros obj H. rewrite E. apply Sc, H.
  - intros H. rewrite E. apply Fl, H.
Qed.

(** Whenever the loop returns, the response it returns on had status 200. *)
Lemma poll_returns fuel : forall url su fa s v s',
  poll_resource_status fuel url su fa s = (Ret v, s') ->
  exists j, jose_calls (world s') = S j /\ (jose_calls (world s) <= j)%nat /\
    let r := jose_session (world s) j in
    status_code r = 200%Z /\
    (succeeds su r v \/ fails su fa r /\ v = VBool false).
Proof.
  induction fuel as [|fuel IH]; intros url su fa s v s' H; [discriminate H|].
  rewrite poll_unfold in H.
  destruct (create_jose_kid (VStr url) (VStr []) s) as [[env|e|] s1] eqn:E;
    try discriminate H.
  destruct (create_jose_kid_frame _ _ _ _ _ E) as ((U1 & _ & _ & U4 & _) & _).
  assert (J : jose_session (world s1) = jose_session (world s)).
  { unfold setting in U1. injection U1 as _ _ _ _ _ _ _ _ -> _. reflexivity. }
  cbv zeta in H. unfold next_jose_response in H. rewrite J, U4 in H.
  destruct (json _) as [obj|] eqn:Jo; [|discriminate H].
  destruct (poll_decide _ _ _ _ _) as [[[w|]|e|] s3] eqn:D; try discriminate H.
  - injection H as <- <-. pose proof (poll_decide_state _ _ _ _ _ _ _ D) as ->.
    exists (jose_calls (world s)). cbn. rewrite U4. split; [reflexivity|].
    split; [lia|]. destruct (poll_decide_returns _ _ _ _ _ _ _ Jo D) as [(Sc & ->)|(F & ->)].
    + split; [apply Sc | left; exact Sc].
    + split; [apply F | right; split; [exact F | reflexivity]].
  - pose proof (poll_decide_state _ _ _ _ _ _ _ D) as ->.
    apply IH in H. destruct H as (j & H1 & H2 & H3). cbn in H2, H3.
    rewrite J in H3. rewrite U4 in H2. exists j. split; [exact H1|]. split; [lia|].
    exact H3.
Qed.

Lemma succeeds_truthy su r obj : succeeds su r obj -> truthy obj = true.
Proof.
  intros (_ & J & st & R & _). unfold resource_status in R. rewrite J in R.
  destruct obj as [| | | | |d]; try discriminate R.
  destruct d; [discriminate R | reflexivity].
Qed.

(** *** [finalize_certificate] as an equation *)

Lemma finalize_unfold fuel order_url finalize_url der s :
  finalize_certificate fuel order_url finalize_url der s =
  match poll_resource_status fuel order_url (starting_success_states (self s))
          (starting_failure_states (self s)) s with
  | (Ret obj, s1) =>
      if negb (truthy obj) then (Ret (VBool false), s1)
      else
        match create_jose_kid (VStr finalize_url)
                (VDict [(str "csr", VStr (b64url der))]) s1 with
        | (Ret env, s2) =>
            let s3 := snd (jose_session_post finalize_url None env s2) in
            if (status_code (next_jose_response s2) =? 200)%Z then
              match poll_resource_status fuel order_url (final_success_states (self s3))
                      (final_failure_states (self s3)) s3 with
              | (Ret obj2, s4) =>
                  if truthy obj2 then getitem obj2 (str "certificate") s4
                  else (Ret (VBool false), s4)
              | (Raise e, s4) => (Raise e, s4)
              | (Running, s4) => (Running, s4)
              end
            else (Ret VNone, s3)
        | (Raise e, s2) => (Raise e, s2)
        | (Running, s2) => (Running, s2)
        end
  | (Raise e, s1) => (Raise e, s1)
  | (Running, s1) => (Running, s1)
  end.
Proof.
  unfold finalize_certificate. unfold bind at 1. cbn [get_self]. unfold bind at 1.
  destruct (poll_resource_status fuel order_url _ _ s) as [[obj|e|] s1]; try reflexivity.
  destruct (negb (truthy obj)); [reflexivity|].
  unfold bind at 1. cbn [b64 encode_b64 or_raise ret]. unfold bind at 1.
  destruct (create_jose_kid _ _ s1) as [[env|e|] s2]; try reflexivity.
  unfold bind at 1. cbn [jose_session_post fst snd]. unfold next_jose_response.
  destruct (status_code _ =? 200)%Z; [|reflexivity].
  unfold bind at 1. cbn [get_self]. unfold bind at 1.
  match goal with |- context [poll_resource_status ?a ?b ?c ?d ?st] =>
    destruct (poll_resource_status a b c d st) as [[obj2|e2|] s4] end;
    try reflexivity.
  destruct (truthy obj2); reflexivity.
Qed.

(** *** The key authorization *)

Lemma pystr_eqb_eq a b : pystr_eqb a b = true <-> a = b.
Proof.
  unfold pystr_eqb. destruct (list_eq_dec N.eq_dec a b); split; auto; discriminate.
Qed.


Lemma is_str_eq v s : is_str v s = true <-> v = VStr s.
Proof.
  destruct v; cbn; try (split; discriminate).
  rewrite pystr_eqb_eq. split; [intros ->; reflexivity | intros [= ->]; reflexivity].
Qed.

Lemma escape_alphabet c : In c b64_alphabet -> escape_char c = [c].
Proof.
  intros H.
  assert (T : forallb (fun c => pystr_eqb (escape_char c) [c]) b64_alphabet = true)
    by (vm_compute; reflexivity).
  rewrite forallb_forall in T. apply pystr_eqb_eq, T, H.
Qed.

Lemma encode_basestring_b64url data :
  encode_basestring_ascii (b64url data) = quoted (b64url data).
Proof.
  unfold encode_basestring_ascii, quoted. f_equal. f_equal.
  pose proof (b64url_chars data) as F.
  induction F as [|c r Hc _ IH]; [reflexivity|].
  cbn [flat_map]. rewrite (escape_alphabet c Hc), IH. reflexivity.
Qed.

Lemma canonical_jwk_dumps k :
  json_dumps_sep (str ",") (str ":")
    (VDict [(str "crv", VStr (str "P-256")); (str "kty", VStr (str "EC"));
            (str "x", VStr (b64url (to_bytes (Qx k))));
            (str "y", VStr (b64url (to_bytes (Qy k))))])
  = spec_canonical_jwk k.
Proof.
  cbn [json_dumps_sep]. rewrite !encode_basestring_b64url.
  unfold spec_canonical_jwk. rewrite <- !app_assoc. reflexivity.
Qed.

Lemma quoted_printable s : Forall printable s -> Forall printable (quoted s).
Proof.
  intros H. unfold quoted. apply Forall_cons; [unfold printable, quote; lia|].
  apply Forall_app. split; [exact H|].
  apply Forall_cons; [unfold printable, quote; lia | apply Forall_nil].
Qed.

Lemma canonical_jwk_printable k : Forall printable (spec_canonical_jwk k).
Proof.
  rewrite <- canonical_jwk_dumps.
  apply json_dumps_sep_printable; apply str_printable_check; reflexivity.
Qed.



Lemma create_key_authorization_eq token s :
  create_key_authorization token s =
  match format_str token with
  | Some t => (Ret (spec_key_authorization t (key (self s))), s)
  | None => (Raise Unsupported, s)
  end.
Proof.
  unfold create_key_authorization.
  mret (eq_refl : get_self s = (Ret (self s), s)).
  mret (b64_bytes _ s). mret (b64_bytes _ s).
  rewrite canonical_jwk_dumps.
  erewrite bind_ret_eq.
  2:{ apply or_raise_some, utf8_encode_ascii, printable_ascii, canonical_jwk_printable. }
  mret (b64_bytes _ s). unfold format_arg, bind, or_raise.
  destruct (format_str token); reflexivity.
Qed.

(** *** [authorize_certificate] *)

Lemma ascii_encode_some s d :
  ascii_encode s = Some d -> d = map byte_of_N s.
Proof.
  revert d. induction s as [|c r IH]; intros d; cbn [ascii_encode map].
  - intros [= <-]. reflexivity.
  - destruct (c <? 128); [|discriminate].
    destruct (ascii_encode r) as [br|]; [|discriminate].
    intros [= <-]. rewrite (IH br eq_refl). reflexivity.
Qed.

Lemma getitem_eq obj k s :
  getitem obj k s =
  match obj with
  | VDict d => match dict_get d k with
               | Some v => (Ret v, s)
               | None => (Raise (KeyError k), s)
               end
  | _ => (Raise TypeError, s)
  end.
Proof. destruct obj; try reflexivity. cbn. destruct (dict_get d k); reflexivity. Qed.

Lemma getitem_state obj k s r s' : getitem obj k s = (r, s') -> s' = s.
Proof.
  rewrite getitem_eq. destruct obj; try (intros [= _ <-]; reflexivity).
  destruct (dict_get d k); intros [= _ <-]; reflexivity.
Qed.

Lemma getitem_member obj k v s s' :
  getitem obj (str k) s = (Ret v, s') -> member obj k = Some v.
Proof.
  rewrite getitem_eq. destruct obj; try discriminate. cbn [member].
  destruct (dict_get d (str k)); [intros [= -> _]; reflexivity | discriminate].
Qed.

(** The test [auth_scheme == scheme and challenge["type"] == kind]. *)
Lemma scheme_test auth_scheme scheme kind challenge s (b : bool) s' :
  (if pystr_eqb auth_scheme scheme
   then ty <- getitem challenge (str "type") ;; ret (is_str ty (str kind))
   else ret false) s = (Ret b, s') ->
  s' = s /\ (b = true ->
             auth_scheme = scheme /\ member challenge "type" = Some (VStr (str kind))).
Proof.
  destruct (pystr_eqb auth_scheme scheme) eqn:E.
  - unfold bind. destruct (getitem challenge (str "type") s) as [[ty| |] s1] eqn:G;
      try discriminate.
    pose proof (getitem_state _ _ _ _ _ G) as ->. intros [= <- <-].
    split; [reflexivity|]. intros I. apply is_str_eq in I. subst ty.
    split; [apply pystr_eqb_eq, E | apply (getitem_member _ _ _ _ _ G)].
  - intros [= <- <-]. split; [reflexivity | discriminate].
Qed.

Lemma scheme_test_state auth_scheme scheme kind challenge s r s' :
  (if pystr_eqb auth_scheme scheme
   then ty <- getitem challenge (str "type") ;; ret (is_str ty (str kind))
   else ret false) s = (r, s') -> s' = s.
Proof.
  destruct (pystr_eqb auth_scheme scheme).
  - unfold bind. destruct (getitem challenge (str "type") s) as [[ty| |] s1] eqn:G;
      pose proof (getitem_state _ _ _ _ _ G) as ->; intros [= _ <-]; reflexivity.
  - intros [= _ <-]. reflexivity.
Qed.


Lemma iterate_state v s r s' : iterate v s = (r, s') -> s' = s.
Proof. destruct v; intros [= _ <-]; reflexivity. Qed.


Lemma member_getitem obj k v s : member obj k = Some v -> getitem obj (str k) s = (Ret v, s).
Proof.
  rewrite getitem_eq. destruct obj; try discriminate. cbn [member]. intros ->. reflexivity.
Qed.



(** *** The coordinates as bytes *)

Lemma byte_of_N_value n : Byte.to_N (byte_of_N n) = n mod 256.
Proof.
  unfold byte_of_N. assert (L : n mod 256 < 256) by (apply N.mod_lt; lia).
  destruct (Byte.of_N (n mod 256)) as [b|] eqn:E.
  - apply Byte.to_of_N in E. exact E.
  - apply Byte.of_N_None_iff in E. lia.
Qed.

Lemma be_value_app a b :
  be_value (a ++ b) = fold_left (fun acc x => acc * 256 + Byte.to_N x) b (be_value a).
Proof. unfold be_value. apply fold_left_app. Qed.

Lemma be_value_low n : forall len,
  be_value (map (fun i => byte_of_N (N.shiftr n (8 * N.of_nat i))) (rev (seq 0 len)))
  = n mod 256 ^ N.of_nat len.
Proof.
  induction len as [|len IH].
  - cbn. rewrite N.mod_1_r. reflexivity.
  - rewrite seq_S, rev_app_distr. cbn [rev app map Nat.add].
    change (?x :: ?l) with ([x] ++ l). rewrite be_value_app.
    unfold be_value at 1. cbn [fold_left]. rewrite N.mul_0_l, N.add_0_l.
    rewrite byte_of_N_value.
    assert (G : forall l acc,
      fold_left (fun acc x => acc * 256 + Byte.to_N x) l acc
      = acc * 256 ^ N.of_nat (List.length l) + be_value l).
    { clear. induction l as [|x l IHl]; intros acc.
      - cbn. lia.
      - cbn [fold_left List.length]. rewrite IHl. unfold be_value. cbn [fold_left].
        rewrite (IHl (0 * 256 + Byte.to_N x)). rewrite Nat2N.inj_succ, N.pow_succ_r'.
        fold (be_value l). ring. }
    rewrite G, IH, length_map, length_rev, length_seq.
    rewrite N.shiftr_div_pow2.
    replace (2 ^ (8 * N.of_nat len)) with (256 ^ N.of_nat len)
      by (change 256 with (2 ^ 8); rewrite <- N.pow_mul_r; reflexivity).
    rewrite Nat2N.inj_succ, N.pow_succ_r'.
    rewrite (N.mul_comm 256), N.Div0.mod_mul_r. lia.
Qed.

Lemma be_value_to_bytes n : be_value (to_bytes n) = n.
Proof.
  unfold to_bytes. rewrite be_value_low, N2Nat.id. apply N.mod_small.
  destruct (N.eq_dec n 0) as [->|Z]; [reflexivity|].
  assert (L : n < 2 ^ N.succ (N.log2 n)) by (apply N.log2_spec; lia).
  eapply N.lt_le_trans; [exact L|].
  change 256 with (2 ^ 8). rewrite <- N.pow_mul_r. apply N.pow_le_mono_r; [lia|].
  pose proof (N.Div0.mod_le (N.log2 n) 8).
  pose proof (N.div_mod (N.log2 n) 8). pose proof (N.mod_lt (N.log2 n) 8). lia.
Qed.

(* ===================================================================== *)
(** ** The claims *)
(* ===================================================================== *)

(** C10.  For every byte string [data], [encode_b64 data] contains no "="
    padding character and decoding it after restoring the padding gives
    [data] back; a string is first encoded in UTF-8 and then treated as its
    bytes (when it cannot be encoded, [encode_b64] raises). *)
Theorem encode_b64_roundtrip :
  (forall data : bytes,
     exists e, encode_b64 (ArgBytes data) = Some e /\
               ~ In pad_char e /\ decode_b64 e = Some data) /\
  (forall s : pystr,
     encode_b64 (ArgStr s) =
     match utf8_encode s with
     | Some data => encode_b64 (ArgBytes data)
     | None => None
     end).
Proof.
  split.
  - intros data. exists (b64url data). split; [reflexivity|].
    split; [apply b64url_no_pad | apply b64url_roundtrip].
  - intros s. unfold encode_b64. destruct (utf8_encode s); reflexivity.
Qed.

(** C2.  In the kid mode, with the empty string as payload, what is hashed
    and signed is the encoded protected header followed by one "." and
    nothing else, and the payload member of the envelope is the empty
    string; with the empty object as payload the member is "e30" and the
    signing input ends in ".e30". *)
Theorem create_jose_kid_empty_payload url s nonce s1 :
  get_nonce s = (Ret nonce, s1) ->
  exists eh,
    encode_b64 (ArgStr (json_dumps (kid_protected (account_kid (self s)) nonce url)))
      = Some eh /\
    (exists env s2,
       create_jose_kid url (VStr []) s = (Ret env, s2) /\
       member env "protected" = Some (VStr eh) /\
       member env "payload" = Some (VStr []) /\
       signed (world s2) =
         signed (world s1) ++ [SHA256.new (map byte_of_N eh ++ [x2e])] /\
       member env "signature" =
         Some (VStr (b64url (signer (world s1) (List.length (signed (world s1)))
                               (SHA256.sha256 (map byte_of_N eh ++ [x2e])))))) /\
    (exists env s2,
       create_jose_kid url (VDict []) s = (Ret env, s2) /\
       member env "protected" = Some (VStr eh) /\
       member env "payload" = Some (VStr (str "e30")) /\
       signed (world s2) =
         signed (world s1) ++ [SHA256.new (map byte_of_N eh ++ [x2e; x65; x33; x30])]).
Proof.
  intros G. eexists. split; [apply encode_b64_json|]. split.
  - rewrite create_jose_kid_eq, G. cbv zeta. eexists. eexists.
    split; [reflexivity|]. cbn [is_str pystr_eqb member dict_get].
    repeat split; try reflexivity.
    + cbn [signing_alg_sign snd world signed]. rewrite app_nil_r, map_app. reflexivity.
    + unfold SHA256.digest, SHA256.new. cbn [SHA256.hashed].
      rewrite app_nil_r, map_app. reflexivity.
  - rewrite create_jose_kid_eq, G. cbv zeta. eexists. eexists.
    split; [reflexivity|]. cbn [is_str member dict_get].
    repeat split; try reflexivity.
    cbn [signing_alg_sign snd world signed]. rewrite map_app. reflexivity.
Qed.

Lemma create_jose_kid_empty_payload_witness :
  get_nonce (demo_state (fun _ => demo_response 200 [] None))
  = (Ret (Some (str "n0nce")),
     snd (get_nonce (demo_state (fun _ => demo_response 200 [] None)))) /\
  exists env s2,
    create_jose_kid (VStr (str "https://ca/order")) (VStr [])
      (demo_state (fun _ => demo_response 200 [] None)) = (Ret env, s2) /\
    member env "payload" = Some (VStr []).
Proof.
  split; [reflexivity|].
  destruct (create_jose_kid_empty_payload (VStr (str "https://ca/order"))
              (demo_state (fun _ => demo_response 200 [] None))
              (Some (str "n0nce"))
              (snd (get_nonce (demo_state (fun _ => demo_response 200 [] None))))
              eq_refl)
    as (eh & _ & (env & s2 & E & _ & P & _) & _).
  exists env, s2. split; [exact E | exact P].
Defined.



(** C4, as the code has it.  In both builders, for every url and every
    payload other than the empty string, the texts encoded into the protected
    and payload members are those of [json.dumps] with its default separators
    [", "] and [": "]: printable ASCII, in which the protected header always
    has spaces; the hash object that is signed holds the ASCII bytes of
    ["{header}.{payload}"], the two encoded members joined by a dot. *)
Theorem envelope_serialization url payload s nonce s1 :
  get_nonce s = (Ret nonce, s1) ->
  is_str payload [] = false ->
  forall (jwk_mode : bool),
  exists protected eh ep env s2,
    (if jwk_mode then create_jose_jwk url payload s
     else create_jose_kid url payload s)
      = (Ret env, s2) /\
    (if jwk_mode
     then exists jwk, create_jwk_object s = (Ret jwk, s) /\
                      protected = jwk_protected jwk nonce url
     else protected = kid_protected (account_kid (self s)) nonce url) /\
    encode_b64 (ArgStr (json_dumps protected)) = Some eh /\
    encode_b64 (ArgStr (json_dumps payload)) = Some ep /\
    member env "protected" = Some (VStr eh) /\
    member env "payload" = Some (VStr ep) /\
    Forall printable (json_dumps protected) /\ In 32 (json_dumps protected) /\
    Forall printable (json_dumps payload) /\
    exists data,
      ascii_encode (eh ++ str "." ++ ep) = Some data /\
      signed (world s2) = signed (world s1) ++ [SHA256.new data] /\
      member env "signature" =
        Some (VStr (b64url (signer (world s1) (List.length (signed (world s1)))
                              (SHA256.sha256 data)))).
Proof.
  intros G P jwk_mode. destruct jwk_mode.
  - rewrite create_jose_jwk_eq, G. cbv zeta.
    eexists. eexists. eexists. eexists. eexists. split; [reflexivity|].
    split; [eexists; split; [apply create_jwk_object_eq | reflexivity]|].
    split; [apply encode_b64_json|]. split; [apply encode_b64_json|].
    split; [reflexivity|]. split; [reflexivity|].
    split; [apply json_dumps_printable|].
    split; [cbn; auto 20|]. split; [apply json_dumps_printable|].
    eexists. split; [apply signing_input_ascii|]. split; reflexivity.
  - rewrite create_jose_kid_eq, G, P. cbv zeta.
    eexists. eexists. eexists. eexists. eexists. split; [reflexivity|].
    split; [reflexivity|].
    split; [apply encode_b64_json|]. split; [apply encode_b64_json|].
    split; [reflexivity|]. split; [reflexivity|].
    split; [apply json_dumps_printable|].
    split; [cbn; auto 20|]. split; [apply json_dumps_printable|].
    eexists. split; [apply signing_input_ascii|]. split; reflexivity.
Qed.

Lemma envelope_serialization_witness :
  get_nonce (demo_state (fun _ => demo_response 200 [] None))
  = (Ret (Some (str "n0nce")),
     snd (get_nonce (demo_state (fun _ => demo_response 200 [] None)))) /\
  is_str (VDict [(str "csr", VStr (str "AQI"))]) [] = false /\
  exists protected env s2,
    create_jose_kid (VStr (str "https://ca/finalize"))
      (VDict [(str "csr", VStr (str "AQI"))])
      (demo_state (fun _ => demo_response 200 [] None)) = (Ret env, s2) /\
    In 32 (json_dumps protected).
Proof.
  split; [reflexivity|]. split; [reflexivity|].
  destruct (envelope_serialization (VStr (str "https://ca/finalize"))
              (VDict [(str "csr", VStr (str "AQI"))])
              (demo_state (fun _ => demo_response 200 [] None))
              (Some (str "n0nce"))
              (snd (get_nonce (demo_state (fun _ => demo_response 200 [] None))))
              eq_refl eq_refl false)
    as (protected & eh & ep & env & s2 & E & _ & _ & _ & _ & _ & _ & I & _).
  exists protected, env, s2. split; [exact E | exact I].
Defined.

(** C4 as stated fails: the protected header and the payload that
    [create_jose_kid] encodes for a finalize request both contain spaces. *)
Lemma envelope_json_has_whitespace :
  exists env s2 eh ep header payload,
    create_jose_kid (VStr (str "https://ca/finalize"))
      (VDict [(str "csr", VStr (str "AQI"))])
      (demo_state (fun _ => demo_response 200 [] None)) = (Ret env, s2) /\
    member env "protected" = Some (VStr eh) /\ decode_b64 eh = Some header /\
    member env "payload" = Some (VStr ep) /\ decode_b64 ep = Some payload /\
    payload = map byte_of_N (str "{" ++ quoted (str "csr") ++ str ": "
                               ++ quoted (str "AQI") ++ str "}") /\
    In x20 header /\ In x20 payload.
Proof.
  eexists. eexists. eexists. eexists. eexists. eexists.
  split; [vm_compute; reflexivity|].
  split; [reflexivity|]. split; [vm_compute; reflexivity|].
  split; [reflexivity|]. split; [vm_compute; reflexivity|].
  split; [vm_compute; reflexivity|].
  split; cbn; auto 20.
Qed.

(** C5, as the code has it.  [create_jwk_object] returns the five-member
    object crv, kid, kty, x, y, with kid the string "1" and x and y the
    base64url encodings of the big-endian bytes of the coordinates of the
    public point. *)
Theorem create_jwk_object_members s :
  exists x y,
    encode_b64 (ArgBytes (to_bytes (Qx (key (self s))))) = Some x /\
    encode_b64 (ArgBytes (to_bytes (Qy (key (self s))))) = Some y /\
    be_value (to_bytes (Qx (key (self s)))) = Qx (key (self s)) /\
    be_value (to_bytes (Qy (key (self s)))) = Qy (key (self s)) /\
    create_jwk_object s =
      (Ret (VDict [(str "crv", VStr (str "P-256"));
                   (str "kid", VStr (str "1"));
                   (str "kty", VStr (str "EC"));
                   (str "x", VStr x);
                   (str "y", VStr y)]), s).
Proof.
  eexists. eexists. split; [reflexivity|]. split; [reflexivity|].
  split; [apply be_value_to_bytes|]. split; [apply be_value_to_bytes|].
  apply create_jwk_object_eq.
Qed.

(** C5 as stated fails: the object has a member "kid", which is none of kty,
    crv, x, y. *)
Lemma jwk_object_has_kid :
  exists d,
    fst (create_jwk_object (demo_state (fun _ => demo_response 200 [] None)))
      = Ret (VDict d) /\
    dict_get d (str "kid") = Some (VStr (str "1")) /\
    List.length d = 5%nat /\
    ~ (forall k, In k (dict_keys d) -> In k [str "kty"; str "crv"; str "x"; str "y"]).
Proof.
  eexists. split; [reflexivity|]. split; [reflexivity|]. split; [reflexivity|].
  intros H. specialize (H (str "kid")). cbn in H.
  destruct H as [H|[H|[H|[H|[]]]]]; try discriminate H. auto.
Qed.

(** C8, as the code has it.  [get_nonce] produces the value [v] exactly when
    the newNonce URL is set, the answer has status 200 or 204 and carries the
    header Replay-Nonce with value [v]; it then stores [v] as [nextNonce].
    With the URL unset it returns [None] without a request; with another
    status it returns [None]. *)
Theorem get_nonce_produces s :
  (forall v,
     (exists s', get_nonce s = (Ret (Some v), s')) <->
     (newNonce_url (self s) <> None /\
      (status_code (next_client_response s) = 200%Z \/
       status_code (next_client_response s) = 204%Z) /\
      header_get (headers (next_client_response s)) (str "Replay-Nonce") = Some v)) /\
  (forall v s', get_nonce s = (Ret (Some v), s') -> nextNonce (self s') = Some v) /\
  (newNonce_url (self s) = None -> get_nonce s = (Ret None, s)) /\
  (forall url,
     newNonce_url (self s) = Some url ->
     status_code (next_client_response s) <> 200%Z ->
     status_code (next_client_response s) <> 204%Z ->
     get_nonce s = (Ret None, snd (client_session_get url s))).
Proof.
  rewrite get_nonce_eq. split; [|split; [|split]].
  - intros v. split.
    + intros (s' & H). destruct (newNonce_url (self s)); [|discriminate H].
      cbv zeta in H. destruct ((_ =? 200) || _)%Z eqn:C; [|discriminate H].
      apply orb_true_iff in C. rewrite !Z.eqb_eq in C.
      destruct (header_get _ _); [|discriminate H]. injection H as -> _.
      split; [discriminate | split; [exact C | reflexivity]].
    + intros (U & C & H). destruct (newNonce_url (self s)); [|contradiction].
      cbv zeta. rewrite H.
      assert (B : ((status_code (next_client_response s) =? 200)
                   || (status_code (next_client_response s) =? 204))%Z = true).
      { apply orb_true_iff. rewrite !Z.eqb_eq. exact C. }
      rewrite B. eauto.
  - intros v s'. destruct (newNonce_url (self s)); [|discriminate].
    cbv zeta. destruct ((_ =? 200) || _)%Z; [|discriminate].
    destruct (header_get _ _); [|discriminate]. intros [= <- <-]. reflexivity.
  - intros ->. reflexivity.
  - intros url -> C1 C2. cbv zeta.
    apply Z.eqb_neq in C1. apply Z.eqb_neq in C2. rewrite C1, C2. reflexivity.
Qed.

(** C8 as stated fails: with the URL set and status 200, an answer without
    the header makes [get_nonce] raise; it produces no nonce. *)
Lemma get_nonce_without_header :
  newNonce_url demo_client <> None /\
  get_nonce {| self := demo_client;
               world := {| client_session := fun _ => demo_response 200 [] None;
                           client_calls := 0;
                           jose_session := fun _ => demo_response 200 [] None;
                           jose_calls := 0; sent := []; signer := fun _ d => d;
                           signed := []; zone_TXT := []; http_challenges := [];
                           slept := 0 |} |}
  = (Raise (KeyError (str "Replay-Nonce")),
     {| self := demo_client;
        world := {| client_session := fun _ => demo_response 200 [] None;
                    client_calls := 1;
                    jose_session := fun _ => demo_response 200 [] None;
                    jose_calls := 0; sent := [GET (str "https://ca/nonce")];
                    signer := fun _ d => d;
                    signed := []; zone_TXT := []; http_challenges := [];
                    slept := 0 |} |}).
Proof. split; [discriminate | reflexivity]. Qed.

Lemma get_nonce_produces_witness :
  exists s', get_nonce (demo_state (fun _ => demo_response 200 [] None))
             = (Ret (Some (str "n0nce")), s').
Proof.
  apply (proj1 (get_nonce_produces (demo_state (fun _ => demo_response 200 [] None)))
           (str "n0nce")).
  split; [discriminate|]. split; [right; reflexivity | reflexivity].
Defined.

(** C7, as the code has it.  Let the nonce endpoint be well behaved.  If the
    first [k] polled responses each have a JSON body and either an HTTP status
    other than 200 or a status in neither set, the loop is still running after
    [k] rounds; if response [k] then has HTTP status 200 and a status in
    [success], the loop returns that resource, and if it has HTTP status 200
    and a status in [failure] and not in [success], the loop returns [False];
    either way with any fuel above [k], after [k] sleeps and [k + 1] requests.
    If every response is of the first kind, the loop never returns. *)
Theorem poll_resource_status_sequence url success failure s :
  nonce_ok s ->
  (forall k,
     (forall i, (i < k)%nat -> retries success failure (polled_response s i)) ->
     (forall fuel, (fuel <= k)%nat ->
        fst (poll_resource_status fuel url success failure s) = Running) /\
     (forall fuel obj, (k < fuel)%nat ->
        succeeds success (polled_response s k) obj ->
        exists s', poll_resource_status fuel url success failure s = (Ret obj, s') /\
                   polled url (S k) k s s') /\
     (forall fuel, (k < fuel)%nat ->
        fails success failure (polled_response s k) ->
        exists s', poll_resource_status fuel url success failure s
                   = (Ret (VBool false), s') /\
                   polled url (S k) k s s')) /\
  ((forall i, retries success failure (polled_response s i)) ->
   forall fuel, fst (poll_resource_status fuel url success failure s) = Running).
Proof.
  intros N. split.
  - intros k T. split; [|split].
    + intros fuel L. apply poll_running; [exact N|].
      intros i Hi. apply T. lia.
    + intros fuel obj L Sc.
      destruct (poll_terminal k fuel url success failure s N T L) as (s' & P & A & _).
      exists s'. split; [apply A, Sc | exact P].
    + intros fuel L F.
      destruct (poll_terminal k fuel url success failure s N T L) as (s' & P & _ & B).
      exists s'. split; [apply B, F | exact P].
  - intros T fuel. apply poll_running; [exact N|]. intros i _. apply T.
Qed.

Lemma demo_nonce_ok polled : nonce_ok (demo_state polled).
Proof. intros k _. discriminate. Defined.

(** The fourth scenario of the specification: pending, pending, valid. *)
Lemma poll_resource_status_sequence_witness :
  exists s',
    poll_resource_status 3 (str "https://ca/order/1") [str "valid"] [str "invalid"]
      (demo_state (fun i => match i with
                            | 0%nat | 1%nat => demo_response 200 [] (Some (resource "pending"))
                            | _ => demo_response 200 [] (Some (resource "valid"))
                            end))
    = (Ret (resource "valid"), s') /\
    jose_calls (world s') = 3%nat /\ slept (world s') = 2%nat.
Proof.
  destruct (proj1 (poll_resource_status_sequence (str "https://ca/order/1")
              [str "valid"] [str "invalid"]
              (demo_state (fun i => match i with
                            | 0%nat | 1%nat => demo_response 200 [] (Some (resource "pending"))
                            | _ => demo_response 200 [] (Some (resource "valid"))
                            end))
              (demo_nonce_ok _)) 2%nat) as (_ & A & _).
  - intros i Hi. destruct i as [|[|i]]; [| | lia];
      (split; [eexists; reflexivity|]);
      right; exists (VStr (str "pending")); repeat split.
  - destruct (A 3%nat (resource "valid")) as (s' & E & P).
    + lia.
    + split; [reflexivity|]. split; [reflexivity|].
      exists (VStr (str "valid")). split; reflexivity.
    + exists s'. split; [exact E|].
      destruct P as (_ & _ & _ & J & Sl & _). split; [exact J | exact Sl].
Defined.

(** C7 as stated fails: the first response carries a status of the failure
    set, but under HTTP 503; the loop passes over it and returns the resource
    of the second response. *)
Lemma poll_passes_over_non_200 :
  resource_status (demo_response 503 [] (Some (resource "invalid")))
    = Some (VStr (str "invalid")) /\
  value_in (VStr (str "invalid")) [str "invalid"] = true /\
  fst (poll_resource_status 2 (str "https://ca/order/1") [str "valid"] [str "invalid"]
         (demo_state (fun i => match i with
                               | 0%nat => demo_response 503 [] (Some (resource "invalid"))
                               | _ => demo_response 200 [] (Some (resource "valid"))
                               end)))
  = Ret (resource "valid").
Proof. repeat split; vm_compute; reflexivity. Qed.




(** *** [finalize_certificate] over a sequence of responses *)

Lemma setting_fields s s' :
  setting s' = setting s ->
  key (self s') = key (self s) /\
  starting_success_states (self s') = starting_success_states (self s) /\
  starting_failure_states (self s') = starting_failure_states (self s) /\
  final_success_states (self s') = final_success_states (self s) /\
  final_failure_states (self s') = final_failure_states (self s) /\
  client_session (world s') = client_session (world s) /\
  jose_session (world s') = jose_session (world s).
Proof.
  unfold setting. intros H. injection H as _ _ -> -> -> -> -> -> -> _.
  repeat split; reflexivity.
Qed.

(** C6.  With the state sets of [__init__] and a well-behaved nonce endpoint:
    [finalize_certificate] first polls the order with success set ready,
    processing, valid and failure set invalid.  If that poll ends in failure
    it returns [False] and has sent polling traffic only: no CSR.  If it ends
    in success it posts the envelope of [{"csr": base64url(der)}] to the
    finalize URL; an answer other than 200 makes it return [None]; on 200 it
    polls again with success set valid and failure set ready, invalid,
    pending, returning [False] on failure and the certificate member of the
    order on success. *)
Theorem finalize_certificate_sequence fuel order_url finalize_url der s k1 :
  configured (self s) -> nonce_ok s ->
  (forall i, (i < k1)%nat ->
     retries [str "ready"; str "processing"; str "valid"] [str "invalid"]
       (polled_response s i)) ->
  (k1 < fuel)%nat ->
  (fails [str "ready"; str "processing"; str "valid"] [str "invalid"]
     (polled_response s k1) ->
   exists s', finalize_certificate fuel order_url finalize_url der s
              = (Ret (VBool false), s') /\
              polled order_url (S k1) k1 s s') /\
  (forall obj1,
     succeeds [str "ready"; str "processing"; str "valid"] (polled_response s k1) obj1 ->
     exists env s3 g,
       sent (world s3) = sent (world s) ++ g ++ [POST finalize_url None env] /\
       poll_traffic order_url g /\
       member env "payload"
         = Some (VStr (b64url (map byte_of_N
                    (json_dumps (VDict [(str "csr", VStr (b64url der))]))))) /\
       jose_calls (world s3) = (jose_calls (world s) + k1 + 2)%nat /\
       (status_code (polled_response s (S k1)) <> 200%Z ->
        finalize_certificate fuel order_url finalize_url der s = (Ret VNone, s3)) /\
       (status_code (polled_response s (S k1)) = 200%Z ->
        forall k2,
          (forall i, (i < k2)%nat ->
             retries [str "valid"] [str "ready"; str "invalid"; str "pending"]
               (polled_response s (k1 + 2 + i))) ->
          (k2 < fuel)%nat ->
          (fails [str "valid"] [str "ready"; str "invalid"; str "pending"]
             (polled_response s (k1 + 2 + k2)) ->
           exists s', finalize_certificate fuel order_url finalize_url der s
                      = (Ret (VBool false), s')) /\
          (forall obj2 certificate,
             succeeds [str "valid"] (polled_response s (k1 + 2 + k2)) obj2 ->
             member obj2 "certificate" = Some certificate ->
             exists s', finalize_certificate fuel order_url finalize_url der s
                        = (Ret certificate, s')))).
Proof.
  intros (C1 & C2 & C3 & C4) N T L.
  destruct (poll_terminal k1 fuel order_url _ _ s N T L) as (s1 & P & Sc & Fl).
  fold (polled_response s k1) in Sc, Fl. split.
  - intros F. exists s1. split; [|exact P].
    rewrite finalize_unfold, C1, C2, (Fl F). reflexivity.
  - intros obj1 S1.
    pose proof (polled_nonce_ok _ _ _ _ _ P N) as N1.
    destruct (create_jose_kid_returns (VStr finalize_url)
                (VDict [(str "csr", VStr (b64url der))]) s1 (N1 _)) as (env & s2 & E).
    destruct (create_jose_kid_frame _ _ _ _ _ E)
      as ((U1 & U2 & U3 & U4 & U5) & (g2 & G1 & G2)).
    destruct P as (P1 & P2 & P3 & P4 & P5 & g1 & P6 & P7).
    destruct (setting_fields _ _ P1) as (_ & _ & _ & Q3 & Q4 & Q5 & Q6).
    destruct (setting_fields _ _ U1) as (_ & _ & _ & R3 & R4 & R5 & R6).
    set (s3 := snd (jose_session_post finalize_url None env s2)).
    assert (J3 : jose_calls (world s3) = (jose_calls (world s) + k1 + 2)%nat).
    { subst s3. cbn. rewrite U4, P4. lia. }
    assert (NR : next_jose_response s2 = polled_response s (S k1)).
    { unfold next_jose_response, polled_response. rewrite U4, P4, R6, Q6. reflexivity. }
    assert (F0 : finalize_certificate fuel order_url finalize_url der s =
                 if (status_code (polled_response s (S k1)) =? 200)%Z
                 then
                   match poll_resource_status fuel order_url [str "valid"]
                           [str "ready"; str "invalid"; str "pending"] s3 with
                   | (Ret obj2, s4) =>
                       if truthy obj2 then getitem obj2 (str "certificate") s4
                       else (Ret (VBool false), s4)
                   | (Raise e, s4) => (Raise e, s4)
                   | (Running, s4) => (Running, s4)
                   end
                 else (Ret VNone, s3)).
    { rewrite finalize_unfold, C1, C2, (Sc obj1 S1), (succeeds_truthy _ _ _ S1).
      cbn [negb]. rewrite E. cbv zeta. rewrite NR. fold s3.
      replace (final_success_states (self s3)) with [str "valid"]
        by (subst s3; cbn; rewrite R3, Q3, C3; reflexivity).
      replace (final_failure_states (self s3))
        with [str "ready"; str "invalid"; str "pending"]
        by (subst s3; cbn; rewrite R4, Q4, C4; reflexivity).
      reflexivity. }
    exists env, s3, (g1 ++ g2). split; [|split; [|split; [|split; [|split]]]].
    + subst s3. cbn. rewrite G1, P6, <- !app_assoc. reflexivity.
    + apply Forall_app. split; [exact P7 | apply poll_traffic_gets, G2].
    + rewrite create_jose_kid_eq in E.
      destruct (get_nonce s1) as [[nonce|e|] s1']; try discriminate E.
      cbv zeta in E. injection E as <- _. reflexivity.
    + exact J3.
    + intros C. rewrite F0. apply Z.eqb_neq in C. rewrite C. reflexivity.
    + intros C k2 T2 L2. apply Z.eqb_eq in C. rewrite C in F0.
      assert (N3 : nonce_ok s3).
      { intros k. subst s3. cbn. rewrite R5, Q5. apply N. }
      assert (PR : forall i, polled_response s3 i = polled_response s (k1 + 2 + i)).
      { intros i. unfold polled_response. rewrite J3. subst s3. cbn.
        rewrite R6, Q6. f_equal. lia. }
      destruct (poll_terminal k2 fuel order_url [str "valid"]
                  [str "ready"; str "invalid"; str "pending"] s3 N3)
        as (s4 & _ & Sc4 & Fl4).
      * intros i Hi. fold (polled_response s3 i). rewrite PR. apply T2, Hi.
      * exact L2.
      * fold (polled_response s3 k2) in Sc4, Fl4. rewrite PR in Sc4, Fl4. split.
        -- intros F. exists s4. rewrite F0, (Fl4 F). reflexivity.
        -- intros obj2 certificate S2 M. exists s4.
           rewrite F0, (Sc4 obj2 S2), (succeeds_truthy _ _ _ S2).
           apply member_getitem, M.
Qed.

Lemma finalize_certificate_sequence_witness :
  exists s',
    finalize_certificate 3 (str "https://ca/order/1") (str "https://ca/finalize/1")
      [x01; x02]
      (demo_state (fun i => match i with
                            | 0%nat => demo_response 200 [] (Some (resource "pending"))
                            | 1%nat => demo_response 200 [] (Some (resource "ready"))
                            | 2%nat => demo_response 200 [] (Some (resource "processing"))
                            | 3%nat => demo_response 200 [] (Some (resource "processing"))
                            | _ => demo_response 200 [] (Some (resource "valid"))
                            end))
    = (Ret (VStr (str "https://ca/cert/1")), s').
Proof.
  destruct (finalize_certificate_sequence 3 (str "https://ca/order/1")
              (str "https://ca/finalize/1") [x01; x02]
              (demo_state (fun i => match i with
                            | 0%nat => demo_response 200 [] (Some (resource "pending"))
                            | 1%nat => demo_response 200 [] (Some (resource "ready"))
                            | 2%nat => demo_response 200 [] (Some (resource "processing"))
                            | 3%nat => demo_response 200 [] (Some (resource "processing"))
                            | _ => demo_response 200 [] (Some (resource "valid"))
                            end)) 1%nat) as (_ & A).
  - repeat split.
  - apply demo_nonce_ok.
  - intros i Hi. destruct i as [|i]; [|lia].
    split; [eexists; reflexivity|]. right. exists (VStr (str "pending")). repeat split.
  - lia.
  - destruct (A (resource "ready")) as (env & s3 & g & _ & _ & _ & _ & _ & B).
    + split; [reflexivity|]. split; [reflexivity|].
      exists (VStr (str "ready")). split; reflexivity.
    + destruct (B eq_refl 1%nat) as (_ & C).
      * intros i Hi. destruct i as [|i]; [|lia].
        split; [eexists; reflexivity|]. right.
        exists (VStr (str "processing")). repeat split.
      * lia.
      * apply (C (resource "valid") (VStr (str "https://ca/cert/1"))).
        -- split; [reflexivity|]. split; [reflexivity|].
           exists (VStr (str "valid")). split; reflexivity.
        -- reflexivity.
Defined.



(** The value that run computes, checked against an independent computation
    of the same key authorization and digest. *)
Example dns_txt_value :
  spec_key_authorization (str "Qg6b") (key demo_client)
  = str "Qg6b._2fDhOSrUHaoQXXlEXT9GUSV-5rzZiHCiLh3SRZJ550" /\
  spec_dns_txt (spec_key_authorization (str "Qg6b") (key demo_client))
  = str "Cly4WUK1QJxtT_D_KqDnTNKADXt9r9N-A6yP1F5yhi0".
Proof. split; vm_compute; reflexivity. Qed.

(** The fourth scenario of the specification, second half: pending, invalid
    ends in failure at the second poll. *)
Example poll_pending_invalid :
  fst (poll_resource_status 5 (str "https://ca/order/1") [str "valid"] [str "invalid"]
         (demo_state (fun i => match i with
                               | 0%nat => demo_response 200 [] (Some (resource "pending"))
                               | _ => demo_response 200 [] (Some (resource "invalid"))
                               end)))
  = Ret (VBool false).
Proof. vm_compute. reflexivity. Qed.

(** An order that turns invalid before finalization: [False], two requests for
    a nonce and two polls sent, and no request to the finalize URL. *)
Example finalize_invalid_order :
  let run := finalize_certificate 5 (str "https://ca/order/1")
               (str "https://ca/finalize/1") [x01; x02]
               (demo_state (fun i => match i with
                                     | 0%nat => demo_response 200 []
                                                  (Some (resource "pending"))
                                     | _ => demo_response 200 []
                                              (Some (resource "invalid"))
                                     end)) in
  fst run = Ret (VBool false) /\
  map (fun q => match q with GET u => u | POST u _ _ => u end) (sent (world (snd run)))
  = [str "https://ca/nonce"; str "https://ca/order/1";
     str "https://ca/nonce"; str "https://ca/order/1"].
Proof. split; vm_compute; reflexivity. Qed.

(** A coordinate below 2^248 takes fewer than 32 bytes. *)
Example to_bytes_short : to_bytes 255 = [xff] /\ to_bytes 256 = [x01; x00].
Proof. split; vm_compute; reflexivity. Qed.

(* ===================================================================== *)
(** ** Further properties *)
(* ===================================================================== *)

(** *** The envelope builders on every state *)

Lemma get_nonce_cases s :
  (exists nonce, get_nonce s = (Ret nonce, snd (get_nonce s)) /\
     signed (world (snd (get_nonce s))) = signed (world s)) \/
  (get_nonce s = (Raise (KeyError (str "Replay-Nonce")), snd (get_nonce s)) /\
   newNonce_url (self s) <> None /\
   (status_code (next_client_response s) = 200%Z \/
    status_code (next_client_response s) = 204%Z) /\
   header_get (headers (next_client_response s)) (str "Replay-Nonce") = None /\
   signed (world (snd (get_nonce s))) = signed (world s)).
Proof.
  rewrite !get_nonce_eq. destruct (newNonce_url (self s)) as [u|]; [|left; eauto].
  cbv zeta. destruct ((_ =? 200) || _)%Z eqn:C; [|left; eauto].
  apply orb_true_iff in C. rewrite !Z.eqb_eq in C.
  destruct (header_get _ _) eqn:H; [left; eauto|].
  right. repeat split; try reflexivity; [discriminate | exact C].
Qed.

(** Both builders as one equation. *)
Lemma create_jose_eq jwk_mode url payload s :
  create_jose jwk_mode url payload s =
  match get_nonce s with
  | (Ret nonce, s1) =>
      let eh := b64url (json_bytes (protected_of jwk_mode s nonce url)) in
      let ep := if negb jwk_mode && is_str payload [] then []
                else b64url (json_bytes payload) in
      let h := SHA256.new (map byte_of_N (eh ++ str "." ++ ep)) in
      (Ret (VDict [(str "protected", VStr eh);
                   (str "payload", VStr ep);
                   (str "signature",
                    VStr (b64url (signer (world s1) (List.length (signed (world s1)))
                                         (SHA256.digest h))))]),
       snd (signing_alg_sign h s1))
  | (Raise e, s1) => (Raise e, s1)
  | (Running, s1) => (Running, s1)
  end.
Proof.
  unfold create_jose, protected_of, json_bytes. destruct jwk_mode.
  - rewrite create_jose_jwk_eq. reflexivity.
  - rewrite create_jose_kid_eq. reflexivity.
Qed.

Lemma json_bytes_utf8 v : utf8_encode (json_dumps v) = Some (json_bytes v).
Proof. apply utf8_encode_ascii, printable_ascii, json_dumps_printable. Qed.

Lemma decoded_protected eh ep sg :
  decoded (VDict [(str "protected", VStr (b64url eh)); (str "payload", VStr ep);
                  (str "signature", VStr sg)]) "protected" = Some eh.
Proof. unfold decoded. cbn [member dict_get]. apply b64url_roundtrip. Qed.


(** X2.  When no nonce is to be had (the directory is not read, or the
    nonce endpoint answers with a status other than 200 and 204), the builders
    do not stop: the envelope is built and signed with a protected header
    whose nonce is [null]; with the newNonce URL unset no request is sent. *)
Theorem envelope_without_nonce (jwk_mode : bool) url payload s :
  newNonce_url (self s) = None \/
  (status_code (next_client_response s) <> 200%Z /\
   status_code (next_client_response s) <> 204%Z) ->
  exists env s',
    create_jose jwk_mode url payload s = (Ret env, s') /\
    decoded env "protected" = utf8_encode (json_dumps (protected_of jwk_mode s None url)) /\
    decoded env "protected" <> None /\
    member (protected_of jwk_mode s None url) "nonce" = Some VNone /\
    (exists h, signed (world s') = signed (world s) ++ [h]) /\
    (newNonce_url (self s) = None -> sent (world s') = sent (world s)).
Proof.
  intros H. rewrite create_jose_eq, get_nonce_eq.
  assert (G : exists s1,
    match newNonce_url (self s) with
    | None => (Ret None, s)
    | Some url0 =>
        let r := next_client_response s in
        let s1 := snd (client_session_get url0 s) in
        if ((status_code r =? 200) || (status_code r =? 204))%Z
        then match header_get (headers r) (str "Replay-Nonce") with
             | Some n => (Ret (Some n), snd (set_nextNonce n s1))
             | None => (Raise (KeyError (str "Replay-Nonce")), s1)
             end
        else (Ret None, s1)
    end = (Ret (@None pystr), s1) /\ signed (world s1) = signed (world s) /\
    (newNonce_url (self s) = None -> sent (world s1) = sent (world s))).
  { destruct (newNonce_url (self s)) as [u|].
    - destruct H as [H | [H1 H2]]; [discriminate|].
      apply Z.eqb_neq in H1. apply Z.eqb_neq in H2. cbv zeta. rewrite H1, H2.
      eexists. split; [reflexivity|]. split; [reflexivity | discriminate].
    - exists s. auto. }
  destruct G as (s1 & -> & Sg & St). cbv zeta. eexists. eexists.
  split; [reflexivity|]. rewrite decoded_protected, json_bytes_utf8.
  split; [reflexivity|]. split; [discriminate|].
  split; [destruct jwk_mode; reflexivity|]. cbn [snd signing_alg_sign world signed sent].
  split; [rewrite Sg; eauto | exact St].
Qed.

Lemma envelope_without_nonce_witness :
  exists env s',
    create_jose false (VStr (str "https://ca/order")) (VDict [])
      {| self := init {| Qx := 1; Qy := 2 |};
         world := world (demo_state (fun _ => demo_response 200 [] None)) |}
    = (Ret env, s') /\
    decoded env "protected"
    = Some (map byte_of_N
              (str "{" ++ quoted (str "alg") ++ str ": " ++ quoted (str "ES256") ++ str ", "
                 ++ quoted (str "kid") ++ str ": null, "
                 ++ quoted (str "nonce") ++ str ": null, "
                 ++ quoted (str "url") ++ str ": " ++ quoted (str "https://ca/order")
                 ++ str "}")) /\
    sent (world s') = [].
Proof.
  destruct (envelope_without_nonce false (VStr (str "https://ca/order")) (VDict [])
              {| self := init {| Qx := 1; Qy := 2 |};
                 world := world (demo_state (fun _ => demo_response 200 [] None)) |}
              (or_introl eq_refl))
    as (env & s' & E & D & _ & _ & _ & St).
  exists env, s'. split; [exact E|]. split; [rewrite D; vm_compute; reflexivity|].
  apply St. reflexivity.
Defined.

Lemma create_jose_fetch jwk_mode url payload s u :
  newNonce_url (self s) = Some u ->
  sent (world (snd (create_jose jwk_mode url payload s))) = sent (world s) ++ [GET u] /\
  client_calls (world (snd (create_jose jwk_mode url payload s)))
    = S (client_calls (world s)).
Proof.
  intros U. rewrite create_jose_eq, get_nonce_eq, U. cbv zeta.
  destruct ((_ =? 200) || _)%Z; [destruct (header_get _ _)|]; split; reflexivity.
Qed.

(** X3.  With the newNonce URL set, building an envelope sends exactly one
    request, a GET to that URL, and consumes one answer of the nonce
    endpoint; the nonce of the protected header is the Replay-Nonce of that
    answer; a nonce stored before in [nextNonce] is never used. *)
Theorem envelope_fetches_its_nonce (jwk_mode : bool) url payload s u :
  newNonce_url (self s) = Some u ->
  sent (world (snd (create_jose jwk_mode url payload s))) = sent (world s) ++ [GET u] /\
  client_calls (world (snd (create_jose jwk_mode url payload s)))
    = S (client_calls (world s)) /\
  (forall n, fst (create_jose jwk_mode url payload (snd (set_nextNonce n s)))
             = fst (create_jose jwk_mode url payload s)) /\
  (forall env,
     fst (create_jose jwk_mode url payload s) = Ret env ->
     decoded env "protected"
     = Some (json_bytes (protected_of jwk_mode s (nonce_of (next_client_response s)) url))).
Proof.
  intros U. split; [|split; [|split]].
  - apply (create_jose_fetch _ _ _ _ _ U).
  - apply (create_jose_fetch _ _ _ _ _ U).
  - intros n. rewrite !create_jose_eq, !get_nonce_eq. cbn [set_nextNonce snd self newNonce_url].
    rewrite U. cbv zeta. unfold next_client_response. cbn [world].
    destruct ((_ =? 200) || _)%Z; [destruct (header_get _ _)|];
      destruct jwk_mode; reflexivity.
  - intros env. rewrite create_jose_eq, get_nonce_eq, U. cbv zeta. unfold nonce_of.
    destruct ((_ =? 200) || _)%Z; [destruct (header_get _ _)|]; try discriminate;
      cbn [fst]; intros [= <-]; apply decoded_protected.
Qed.

Lemma envelope_fetches_its_nonce_witness :
  sent (world (snd (create_jose true (VStr (str "https://ca/acct")) (VDict [])
                      (demo_state (fun _ => demo_response 200 [] None)))))
  = [GET (str "https://ca/nonce")] /\
  member (protected_of true (demo_state (fun _ => demo_response 200 [] None))
            (nonce_of (next_client_response
                         (demo_state (fun _ => demo_response 200 [] None))))
            (VStr (str "https://ca/acct"))) "nonce"
  = Some (VStr (str "n0nce")).
Proof.
  split; [|reflexivity].
  apply (envelope_fetches_its_nonce true (VStr (str "https://ca/acct")) (VDict [])
           (demo_state (fun _ => demo_response 200 [] None)) (str "https://ca/nonce")
           eq_refl).
Defined.

(** *** The length of the encoding *)

Lemma b64url_cons3 a b c r :
  b64url (a :: b :: c :: r)
  = (let n := Byte.to_N a * 65536 + Byte.to_N b * 256 + Byte.to_N c in
     [b64_char (n / 262144); b64_char ((n / 4096) mod 64);
      b64_char ((n / 64) mod 64); b64_char (n mod 64)]) ++ b64url r.
Proof.
  unfold b64url. cbn [urlsafe_b64encode]. cbv zeta.
  destruct (bytes_recompose a b c) as (B & _).
  destruct (sextet_bounds _ B) as (B0 & B1 & B2 & B3).
  rewrite !b64_char_keep by assumption. reflexivity.
Qed.

(** X4.  [encode_b64] of [n] bytes has [(4n + 2) / 3] characters (the
    integer quotient): four for every three bytes, two or three for a rest
    of one or two, and no padding. *)
Theorem encode_b64_length (data : bytes) :
  exists e, encode_b64 (ArgBytes data) = Some e /\
            List.length e = ((4 * List.length data + 2) / 3)%nat.
Proof.
  exists (b64url data). split; [reflexivity|].
  induction data as [| a | a b | a b c r IH] using list_ind3.
  - reflexivity.
  - unfold b64url. cbn [urlsafe_b64encode].
    destruct (bytes_recompose a x00 x00) as (B & _).
    change (Byte.to_N x00) with 0 in B. rewrite N.mul_0_l, !N.add_0_r in B.
    destruct (sextet_bounds _ B) as (B0 & B1 & _).
    rewrite !b64_char_keep by assumption. reflexivity.
  - unfold b64url. cbn [urlsafe_b64encode].
    destruct (bytes_recompose a b x00) as (B & _).
    change (Byte.to_N x00) with 0 in B. rewrite N.add_0_r in B.
    destruct (sextet_bounds _ B) as (B0 & B1 & B2 & _).
    rewrite !b64_char_keep by assumption. reflexivity.
  - rewrite b64url_cons3. cbv zeta. cbn [List.length app]. rewrite IH.
    replace (4 * S (S (S (List.length r))) + 2)%nat
      with (4 * List.length r + 2 + 4 * 3)%nat by lia.
    rewrite Nat.div_add by lia. lia.
Qed.

(** *** The polling loop on every state *)

Lemma untouched_polled url s s' : untouched s s' -> fetched s s' -> polled url 0 0 s s'.
Proof.
  intros (U1 & U2 & U3 & U4 & U5) (g & G1 & G2). unfold polled.
  repeat split; try assumption; try lia.
  exists g. split; [exact G1 | apply poll_traffic_gets, G2].
Qed.

Lemma polled_post url env s :
  polled url 1 0 s (snd (jose_session_post url (Some (VStr [])) env s)).
Proof.
  unfold polled. cbn. repeat split; try lia.
  exists [POST url (Some (VStr [])) env]. split; [reflexivity|]. repeat constructor.
Qed.

Lemma poll_decide_raises r obj su fa s e s' :
  poll_decide r obj su fa s = (Raise e, s') -> e = TypeError \/ e = KeyError (str "status").
Proof.
  unfold poll_decide. destruct (status_code r =? 200)%Z; [|discriminate].
  unfold bind at 1. rewrite getitem_eq.
  destruct obj; try (intros [= <- _]; left; reflexivity).
  destruct (dict_get d (str "status")) as [st|] eqn:G.
  2:{ intros [= <- _]. right. reflexivity. }
  destruct (value_in st su); [discriminate|].
  unfold bind. rewrite getitem_eq, G.
  destruct (value_in st fa); discriminate.
Qed.

Lemma create_jose_raises jwk_mode url payload s e s' :
  create_jose jwk_mode url payload s = (Raise e, s') -> e = KeyError (str "Replay-Nonce").
Proof.
  rewrite create_jose_eq.
  destruct (get_nonce_cases s) as [(nonce & G & _) | (G & _)]; rewrite G.
  - discriminate.
  - intros [= <- _]. reflexivity.
Qed.

(** Whatever the servers answer and however the loop ends, it has polled:
    [rounds] requests to [url], a second of sleep between two of them. *)
Lemma poll_run fuel : forall url su fa s r s',
  poll_resource_status fuel url su fa s = (r, s') ->
  exists rounds sleeps,
    polled url rounds sleeps s s' /\
    (sleeps <= rounds <= S sleeps)%nat /\
    (forall v, r = Ret v -> rounds = S sleeps) /\
    (forall e, r = Raise e ->
       In e [KeyError (str "Replay-Nonce"); JSONDecodeError; TypeError;
             KeyError (str "status")]).
Proof.
  induction fuel as [|fuel IH]; intros url su fa s r s' H.
  - injection H as <- <-. exists 0%nat, 0%nat.
    split; [apply polled_refl|]. split; [lia|]. split; discriminate.
  - rewrite poll_unfold in H.
    destruct (create_jose_kid (VStr url) (VStr []) s) as [[env|e|] s1] eqn:E;
      destruct (create_jose_kid_frame _ _ _ _ _ E) as (U & F);
      pose proof (untouched_polled url _ _ U F) as P0.
    2:{ injection H as <- <-. exists 0%nat, 0%nat. split; [exact P0|]. split; [lia|].
        split; [discriminate|]. intros e' [= <-].
        rewrite (create_jose_raises false _ _ _ _ _ E). left. reflexivity. }
    2:{ injection H as <- <-. exists 0%nat, 0%nat. split; [exact P0|]. split; [lia|].
        split; discriminate. }
    cbv zeta in H.
    pose proof (polled_trans _ _ _ _ _ _ _ _ P0 (polled_post url env s1)) as P1.
    cbn [Nat.add] in P1.
    destruct (json (next_jose_response s1)) as [obj|] eqn:J.
    2:{ injection H as <- <-. exists 1%nat, 0%nat. split; [exact P1|]. split; [lia|].
        split; [discriminate|]. intros e' [= <-]. cbn. auto. }
    destruct (poll_decide _ _ _ _ _) as [[[w|]|e|] s3] eqn:D;
      pose proof (poll_decide_state _ _ _ _ _ _ _ D) as ->.
    + injection H as <- <-. exists 1%nat, 0%nat. split; [exact P1|]. split; [lia|].
      split; [reflexivity | discriminate].
    + apply IH in H. destruct H as (rounds & sleeps & P & L & Rt & Rs).
      pose proof (polled_trans _ _ _ _ _ _ _ _ P1 (polled_sleep url _)) as P2.
      pose proof (polled_trans _ _ _ _ _ _ _ _ P2 P) as P3.
      exists (1 + 0 + rounds)%nat, (0 + 1 + sleeps)%nat.
      split; [exact P3|]. split; [lia|]. split; [|exact Rs].
      intros v Hv. rewrite (Rt v Hv). reflexivity.
    + injection H as <- <-. exists 1%nat, 0%nat. split; [exact P1|]. split; [lia|].
      split; [discriminate|]. intros e' [= <-].
      destruct (poll_decide_raises _ _ _ _ _ _ _ D) as [-> | ->]; cbn; auto.
    + injection H as <- <-. exists 1%nat, 0%nat. split; [exact P1|]. split; [lia|].
      split; discriminate.
Qed.

Lemma succeeds_member su r obj :
  succeeds su r obj ->
  exists st, member obj "status" = Some st /\ value_in st su = true.
Proof.
  intros (_ & J & st & R & V). unfold resource_status in R. rewrite J in R.
  destruct obj; try discriminate R. exists st. split; [exact R | exact V].
Qed.

(** X5.  Whatever the servers answer, when [poll_resource_status] returns,
    it returns [False] or an object that is true, with a status member that
    is in [success_states]; it has published no DNS record and registered no
    HTTP challenge, has sent only nonce requests and POSTs to [order_url]
    with the empty string as data, and has slept one second between two
    polls: one second less than the number of polls. *)
Theorem poll_resource_status_result fuel url success failure s v s' :
  poll_resource_status fuel url success failure s = (Ret v, s') ->
  (v = VBool false \/
   truthy v = true /\
   exists st, member v "status" = Some st /\ value_in st success = true) /\
  zone_TXT (world s') = zone_TXT (world s) /\
  http_challenges (world s') = http_challenges (world s) /\
  (exists g, sent (world s') = sent (world s) ++ g /\ poll_traffic url g) /\
  (exists sleeps, slept (world s') = (slept (world s) + sleeps)%nat /\
                  jose_calls (world s') = (jose_calls (world s) + S sleeps)%nat).
Proof.
  intros H. split.
  - destruct (poll_returns _ _ _ _ _ _ _ H) as (j & _ & _ & _ & [Sc | (_ & ->)]).
    + right. split; [apply (succeeds_truthy _ _ _ Sc) | apply (succeeds_member _ _ _ Sc)].
    + left. reflexivity.
  - destruct (poll_run _ _ _ _ _ _ _ H)
      as (rounds & sleeps & (_ & Z & Hc & J & Sl & G) & _ & Rt & _).
    rewrite (Rt v eq_refl) in J. repeat split; try assumption.
    exists sleeps. split; assumption.
Qed.

Lemma poll_resource_status_result_witness :
  exists s',
    poll_resource_status 3 (str "https://ca/order/1") [str "valid"] [str "invalid"]
      (demo_state (fun i => match i with
                            | 0%nat => demo_response 200 [] (Some (resource "pending"))
                            | _ => demo_response 200 [] (Some (resource "valid"))
                            end))
    = (Ret (resource "valid"), s') /\
    zone_TXT (world s') = [] /\
    exists sleeps, slept (world s') = sleeps /\ jose_calls (world s') = S sleeps.
Proof.
  eexists. split; [vm_compute; reflexivity|].
  match goal with |- zone_TXT (world ?st) = _ /\ _ =>
    destruct (poll_resource_status_result 3 (str "https://ca/order/1")
                [str "valid"] [str "invalid"]
                (demo_state (fun i => match i with
                   | 0%nat => demo_response 200 [] (Some (resource "pending"))
                   | _ => demo_response 200 [] (Some (resource "valid"))
                   end))
                (resource "valid") st eq_refl) as (_ & Z & _ & _ & sleeps & Sl & J)
  end.
  split; [exact Z|]. exists sleeps. split; [exact Sl | exact J].
Defined.



(** *** The fuel of the model *)




(** *** [finalize_certificate] on every state *)

Lemma poll_traffic_finalize order_url finalize_url g :
  poll_traffic order_url g ->
  finalize_traffic order_url finalize_url g /\ filter is_submission g = [].
Proof.
  induction 1 as [|q g Hq _ [IH1 IH2]]; [split; constructor|].
  destruct q as [u|u d b].
  - split; [constructor; [exact I | exact IH1] | exact IH2].
  - destruct Hq as [-> ->]. split; [constructor; [left; auto | exact IH1] | exact IH2].
Qed.

Lemma only_gets_finalize order_url finalize_url g :
  only_gets g -> finalize_traffic order_url finalize_url g /\ filter is_submission g = [].
Proof. intros H. apply poll_traffic_finalize, poll_traffic_gets, H. Qed.

Lemma value_in_single st k : value_in st [k] = true -> st = VStr k.
Proof.
  destruct st; try discriminate. cbn. rewrite orb_false_r. intros H.
  apply pystr_eqb_eq in H. subst. reflexivity.
Qed.

(** X8.  With the state sets of [__init__], whatever the servers answer:
    when [finalize_certificate] returns, it returns [False], [None], or the
    certificate member of an order object that came with HTTP status 200 and
    status "valid" in a later answer; it has touched neither the DNS zone nor
    the HTTP challenges; every POST went to the order URL as a poll or to the
    finalize URL, and at most one request was no poll. *)
Theorem finalize_certificate_result fuel order_url finalize_url der s v s' :
  configured (self s) ->
  finalize_certificate fuel order_url finalize_url der s = (Ret v, s') ->
  (v = VBool false \/ v = VNone \/
   exists j obj,
     (jose_calls (world s) < j < jose_calls (world s'))%nat /\
     status_code (jose_session (world s) j) = 200%Z /\
     json (jose_session (world s) j) = Some obj /\
     member obj "status" = Some (VStr (str "valid")) /\
     member obj "certificate" = Some v) /\
  zone_TXT (world s') = zone_TXT (world s) /\
  http_challenges (world s') = http_challenges (world s) /\
  exists g, sent (world s') = sent (world s) ++ g /\
            finalize_traffic order_url finalize_url g /\
            (List.length (filter is_submission g) <= 1)%nat.
Proof.
  intros (C1 & C2 & C3 & C4). rewrite finalize_unfold.
  destruct (poll_resource_status fuel order_url _ _ s) as [[obj|e|] s1] eqn:H1;
    try discriminate.
  destruct (poll_run _ _ _ _ _ _ _ H1)
    as (r1 & sl1 & (P1 & Z1 & Hc1 & J1 & _ & g1 & G1 & T1) & L1 & Rt1 & _).
  specialize (Rt1 obj eq_refl). subst r1.
  destruct (poll_traffic_finalize order_url finalize_url g1 T1) as (F1 & N1).
  destruct (negb (truthy obj)).
  { intros [= <- <-]. split; [left; reflexivity|]. split; [exact Z1|]. split; [exact Hc1|].
    exists g1. split; [exact G1|]. split; [exact F1|]. rewrite N1. cbn. lia. }
  destruct (create_jose_kid _ _ s1) as [[env|e|] s2] eqn:E; try discriminate.
  destruct (create_jose_kid_frame _ _ _ _ _ E) as ((U1 & U2 & U3 & U4 & _) & (g2 & G2 & T2)).
  destruct (only_gets_finalize order_url finalize_url g2 T2) as (F2 & N2).
  cbv zeta. set (s3 := snd (jose_session_post finalize_url None env s2)).
  assert (G3 : sent (world s3) = sent (world s) ++ g1 ++ g2 ++ [POST finalize_url None env]).
  { subst s3. cbn. rewrite G2, G1, <- !app_assoc. reflexivity. }
  assert (F3 : finalize_traffic order_url finalize_url
                 (g1 ++ g2 ++ [POST finalize_url None env])).
  { apply Forall_app. split; [exact F1|]. apply Forall_app. split; [exact F2|].
    constructor; [right; auto | constructor]. }
  assert (N3 : filter is_submission (g1 ++ g2 ++ [POST finalize_url None env])
               = [POST finalize_url None env]).
  { rewrite !filter_app, N1, N2. reflexivity. }
  assert (Z3 : zone_TXT (world s3) = zone_TXT (world s)) by (subst s3; cbn; congruence).
  assert (Hc3 : http_challenges (world s3) = http_challenges (world s))
    by (subst s3; cbn; congruence).
  destruct (status_code _ =? 200)%Z.
  2:{ intros [= <- <-]. split; [right; left; reflexivity|]. split; [exact Z3|].
      split; [exact Hc3|]. eexists. split; [exact G3|]. split; [exact F3|].
      rewrite N3. cbn. lia. }
  destruct (setting_fields _ _ P1) as (_ & _ & _ & Q3 & Q4 & _ & Q6).
  destruct (setting_fields _ _ U1) as (_ & _ & _ & R3 & R4 & _ & R6).
  replace (final_success_states (self s3)) with [str "valid"]
    by (subst s3; cbn; rewrite R3, Q3, C3; reflexivity).
  replace (final_failure_states (self s3)) with [str "ready"; str "invalid"; str "pending"]
    by (subst s3; cbn; rewrite R4, Q4, C4; reflexivity).
  destruct (poll_resource_status fuel order_url _ _ s3) as [[obj2|e|] s4] eqn:H2;
    try discriminate.
  destruct (poll_run _ _ _ _ _ _ _ H2)
    as (r2 & sl2 & (_ & Z4 & Hc4 & _ & _ & g4 & G4 & T4) & _).
  destruct (poll_traffic_finalize order_url finalize_url g4 T4) as (F4 & N4).
  assert (Fr : zone_TXT (world s4) = zone_TXT (world s) /\
               http_challenges (world s4) = http_challenges (world s) /\
               exists g, sent (world s4) = sent (world s) ++ g /\
                         finalize_traffic order_url finalize_url g /\
                         (List.length (filter is_submission g) <= 1)%nat).
  { split; [congruence|]. split; [congruence|].
    exists ((g1 ++ g2 ++ [POST finalize_url None env]) ++ g4).
    split; [rewrite G4, G3, <- !app_assoc; reflexivity|].
    split; [apply Forall_app; split; assumption|].
    rewrite filter_app, N3, N4. cbn. lia. }
  destruct (truthy obj2) eqn:Tr.
  2:{ intros [= <- <-]. split; [left; reflexivity | exact Fr]. }
  intros G. pose proof (getitem_state _ _ _ _ _ G) as ->.
  split; [|exact Fr]. right. right.
  destruct (poll_returns _ _ _ _ _ _ _ H2) as (j & Js & Jl & _ & [Sc | (_ & ->)]);
    [|discriminate Tr].
  assert (JS : jose_session (world s3) = jose_session (world s))
    by (subst s3; cbn; rewrite R6, Q6; reflexivity).
  rewrite JS in Sc. exists j, obj2.
  assert (J3 : jose_calls (world s3) = S (jose_calls (world s) + S sl1)).
  { subst s3. cbn. rewrite U4, J1. reflexivity. }
  split; [lia|]. destruct Sc as (C & Jn & st & R & V).
  split; [exact C|]. split; [exact Jn|].
  apply value_in_single in V. subst st.
  unfold resource_status in R. rewrite Jn in R.
  split; [destruct obj2; try discriminate R; exact R|].
  apply (getitem_member _ _ _ _ _ G).
Qed.

Lemma finalize_certificate_result_witness :
  exists s',
    finalize_certificate 3 (str "https://ca/order/1") (str "https://ca/finalize/1")
      [x01; x02]
      (demo_state (fun i => match i with
                            | 1%nat => demo_response 200 [] (Some (resource "processing"))
                            | _ => demo_response 200 [] (Some (resource "valid"))
                            end))
    = (Ret (VStr (str "https://ca/cert/1")), s') /\
    zone_TXT (world s') = [] /\ http_challenges (world s') = [].
Proof.
  eexists. split; [vm_compute; reflexivity|].
  match goal with |- zone_TXT (world ?st) = _ /\ _ =>
    destruct (finalize_certificate_result 3 (str "https://ca/order/1")
                (str "https://ca/finalize/1") [x01; x02]
                (demo_state (fun i => match i with
                   | 1%nat => demo_response 200 [] (Some (resource "processing"))
                   | _ => demo_response 200 [] (Some (resource "valid"))
                   end))
                (VStr (str "https://ca/cert/1")) st
                (conj eq_refl (conj eq_refl (conj eq_refl eq_refl))) eq_refl)
      as (_ & Z & H & _)
  end.
  split; [exact Z | exact H].
Defined.

(** *** [authorize_certificate] and the HTTP challenge *)

Lemma is_str_neq ty k : ty <> VStr k -> is_str ty k = false.
Proof.
  intros H. destruct (is_str ty k) eqn:I; [|reflexivity].
  apply is_str_eq in I. contradiction.
Qed.

Lemma authorize_challenges_passed obj auth_scheme rest s : forall pre,
  Forall (passed_over auth_scheme) pre ->
  authorize_challenges obj auth_scheme (pre ++ rest) s
  = authorize_challenges obj auth_scheme rest s.
Proof.
  intros pre Hpre. induction Hpre as [|c pre ((tv & Hc1 & Hc2) & Hty) _ IH]; [reflexivity|].
  cbn [app authorize_challenges].
  mret (member_getitem _ _ _ s Hc1).
  destruct (format_str tv) as [t|] eqn:F; [|contradiction].
  erewrite (bind_ret_eq (create_key_authorization tv)).
  2:{ rewrite create_key_authorization_eq, F. reflexivity. }
  unfold challenge_type in Hty.
  destruct (pystr_eqb auth_scheme (str "dns01")) eqn:D.
  - destruct Hty as (ty & T1 & T2).
    rewrite (bind_ret_eq _ _ s false s).
    2:{ mret (member_getitem _ _ _ s T1). rewrite (is_str_neq _ _ T2). reflexivity. }
    apply pystr_eqb_eq in D. subst auth_scheme.
    rewrite (bind_ret_eq _ _ s false s) by reflexivity.
    exact IH.
  - rewrite (bind_ret_eq _ _ s false s) by reflexivity.
    destruct (pystr_eqb auth_scheme (str "http01")) eqn:H.
    + destruct Hty as (ty & T1 & T2).
      rewrite (bind_ret_eq _ _ s false s).
      2:{ mret (member_getitem _ _ _ s T1). rewrite (is_str_neq _ _ T2). reflexivity. }
      exact IH.
    + rewrite (bind_ret_eq _ _ s false s) by reflexivity. exact IH.
Qed.


(** The state in which the loop over the challenges starts: the envelope is
    built and posted. *)
Lemma authorize_certificate_eq auth_url auth_scheme s :
  authorize_certificate auth_url auth_scheme s =
  match create_jose_kid (VStr auth_url) (VStr []) s with
  | (Ret env, s1) =>
      let s2 := snd (jose_session_post auth_url None env s1) in
      if (status_code (next_jose_response s1) =? 200)%Z then
        match json (next_jose_response s1) with
        | None => (Raise JSONDecodeError, s2)
        | Some obj =>
            match getitem obj (str "challenges") s2 with
            | (Ret cs, _) =>
                match iterate cs s2 with
                | (Ret l, _) => authorize_challenges obj auth_scheme l s2
                | (Raise e, _) => (Raise e, s2)
                | (Running, _) => (Running, s2)
                end
            | (Raise e, _) => (Raise e, s2)
            | (Running, _) => (Running, s2)
            end
        end
      else (Ret VNone, s2)
  | (Raise e, s1) => (Raise e, s1)
  | (Running, s1) => (Running, s1)
  end.
Proof.
  unfold authorize_certificate. cbv zeta. unfold bind at 1.
  destruct (create_jose_kid (VStr auth_url) (VStr []) s) as [[env|e|] s1]; try reflexivity.
  unfold bind at 1. cbn [jose_session_post fst snd]. unfold next_jose_response.
  destruct (status_code _ =? 200)%Z; [|reflexivity].
  unfold bind at 1. unfold or_raise at 1.
  destruct (json _) as [obj|]; [|reflexivity]. cbn [ret]. unfold bind at 1.
  match goal with |- context [getitem obj (str "challenges") ?st] =>
    destruct (getitem obj (str "challenges") st) as [[cs|e|] s3] eqn:G;
      pose proof (getitem_state _ _ _ _ _ G) as -> end; try reflexivity.
  unfold bind at 1.
  match goal with |- context [iterate cs ?st] =>
    destruct (iterate cs st) as [[l|e|] s3] eqn:I;
      pose proof (iterate_state _ _ _ _ I) as -> end; reflexivity.
Qed.

(** The envelope of [authorize_certificate] and the state after it is posted,
    when the nonce endpoint answers well. *)
Lemma authorize_posted auth_url s :
  nonce_header_present (next_client_response s) ->
  exists env s1,
    create_jose_kid (VStr auth_url) (VStr []) s = (Ret env, s1) /\
    next_jose_response s1 = next_jose_response s /\
    let s2 := snd (jose_session_post auth_url None env s1) in
    key (self s2) = key (self s) /\
    zone_TXT (world s2) = zone_TXT (world s) /\
    http_challenges (world s2) = http_challenges (world s) /\
    jose_calls (world s2) = S (jose_calls (world s)) /\
    exists g, sent (world s2) = sent (world s) ++ g ++ [POST auth_url None env] /\
              only_gets g.
Proof.
  intros N.
  destruct (create_jose_kid_returns (VStr auth_url) (VStr []) s N) as (env & s1 & E).
  destruct (create_jose_kid_frame _ _ _ _ _ E) as ((U1 & U2 & U3 & U4 & _) & (g & G1 & G2)).
  destruct (setting_fields _ _ U1) as (K & _ & _ & _ & _ & _ & J).
  exists env, s1. split; [exact E|]. split.
  { unfold next_jose_response. rewrite U4, J. reflexivity. }
  cbn. repeat split; try assumption; try congruence.
  exists g. split; [rewrite G1, <- app_assoc; reflexivity | exact G2].
Qed.



(** *** What [authorize_certificate] provisions *)

Lemma create_jose_kid_ends url payload s :
  fst (create_jose_kid url payload s) <> Running.
Proof.
  change (create_jose_kid url payload s) with (create_jose false url payload s).
  rewrite create_jose_eq.
  destruct (get_nonce_cases s) as [(nonce & G & _) | (G & _)]; rewrite G; discriminate.
Qed.

(** How the loop over the challenges ends, and the state it leaves. *)
Lemma authorize_challenges_run obj auth_scheme : forall cs s r s',
  authorize_challenges obj auth_scheme cs s = (r, s') ->
  (s' = s /\ (r = Ret VNone \/ exists e, r = Raise e)) \/
  (exists ch tv token d,
     r = Ret ch /\ In ch cs /\ auth_scheme = str "dns01" /\
     member ch "type" = Some (VStr (str "dns-01")) /\
     member ch "token" = Some tv /\ format_str tv = Some token /\
     s' = snd (zone_add_TXT (str "_acme-challenge." ++ d)
                 (spec_dns_txt (spec_key_authorization token (key (self s)))) s)) \/
  (exists ch tv token,
     r = Ret ch /\ In ch cs /\ auth_scheme = str "http01" /\
     member ch "type" = Some (VStr (str "http-01")) /\
     member ch "token" = Some tv /\ format_str tv = Some token /\
     s' = snd (register_http_challenge tv
                 (spec_key_authorization token (key (self s))) s)).
Proof.
  induction cs as [|challenge rest IH]; intros s r s' H.
  - injection H as <- <-. left. auto.
  - cbn [authorize_challenges] in H. unfold bind at 1 in H.
    destruct (getitem challenge (str "token") s) as [[tv|e|] s1] eqn:G1;
      pose proof (getitem_state _ _ _ _ _ G1) as ->;
      [| injection H as <- <-; left; eauto | injection H as <- <-].
    2:{ rewrite getitem_eq in G1. destruct challenge; try discriminate G1.
        destruct (dict_get d (str "token")); discriminate G1. }
    unfold bind at 1 in H. rewrite create_key_authorization_eq in H.
    destruct (format_str tv) as [token|] eqn:Ft;
      [| injection H as <- <-; left; eauto].
    unfold bind at 1 in H.
    match type of H with context [(if pystr_eqb ?a ?b then ?x else ?y) s] =>
      destruct ((if pystr_eqb a b then x else y) s) as [[dns|e|] s1] eqn:T1 end;
      pose proof (scheme_test_state _ _ _ _ _ _ _ T1) as ->;
      [| injection H as <- <-; left; eauto | ].
    2:{ destruct (pystr_eqb auth_scheme (str "dns01")); [|discriminate T1].
        unfold bind in T1. rewrite getitem_eq in T1. destruct challenge; try discriminate T1.
        destruct (dict_get d (str "type")); discriminate T1. }
    destruct dns.
    + destruct (scheme_test _ _ _ _ _ _ _ T1) as (_ & T). destruct (T eq_refl) as (Sch & Ty).
      unfold bind at 1 in H. unfold or_raise at 1 in H.
      destruct (ascii_encode _) as [data|] eqn:A;
        [| injection H as <- <-; left; eauto].
      pose proof (ascii_encode_some _ _ A) as D. subst data. cbn [ret] in H.
      unfold bind at 1 in H. rewrite b64_bytes in H. unfold bind at 1 in H.
      rewrite getitem_eq in H.
      destruct obj as [| | | | |od]; try (injection H as <- <-; left; eauto).
      destruct (dict_get od (str "identifier")) as [ident|];
        [| injection H as <- <-; left; eauto].
      unfold bind at 1 in H. rewrite getitem_eq in H.
      destruct ident as [| | | | |idd]; try (injection H as <- <-; left; eauto).
      destruct (dict_get idd (str "value")) as [domain|];
        [| injection H as <- <-; left; eauto].
      unfold bind at 1 in H. unfold format_arg, or_raise in H.
      destruct (format_str domain) as [d|];
        [| injection H as <- <-; left; eauto].
      cbn [ret] in H. unfold bind in H. cbn [zone_add_TXT ret] in H.
      injection H as <- <-. right. left.
      exists challenge, tv, token, d.
      split; [reflexivity|]. split; [left; reflexivity|]. split; [exact Sch|].
      split; [exact Ty|]. split; [apply (getitem_member _ _ _ _ _ G1)|].
      split; [exact Ft | reflexivity].
    + unfold bind at 1 in H.
      match type of H with context [(if pystr_eqb ?a ?b then ?x else ?y) s] =>
        destruct ((if pystr_eqb a b then x else y) s) as [[http|e|] s1] eqn:T2 end;
        pose proof (scheme_test_state _ _ _ _ _ _ _ T2) as ->;
        [| injection H as <- <-; left; eauto | ].
      2:{ destruct (pystr_eqb auth_scheme (str "http01")); [|discriminate T2].
          unfold bind in T2. rewrite getitem_eq in T2.
          destruct challenge; try discriminate T2.
          destruct (dict_get d (str "type")); discriminate T2. }
      destruct http.
      * destruct (scheme_test _ _ _ _ _ _ _ T2) as (_ & T).
        destruct (T eq_refl) as (Sch & Ty).
        unfold bind at 1 in H. rewrite G1 in H. unfold bind in H.
        cbn [register_http_challenge ret] in H. injection H as <- <-. right. right.
        exists challenge, tv, token.
        split; [reflexivity|]. split; [left; reflexivity|]. split; [exact Sch|].
        split; [exact Ty|]. split; [apply (getitem_member _ _ _ _ _ G1)|].
        split; [exact Ft | reflexivity].
      * apply IH in H.
        destruct H as [H | [(ch & tv' & tok' & d & R & I & H) | (ch & tv' & tok' & R & I & H)]].
        -- left. exact H.
        -- right. left. exists ch, tv', tok', d. split; [exact R|].
           split; [right; exact I | exact H].
        -- right. right. exists ch, tv', tok'. split; [exact R|].
           split; [right; exact I | exact H].
Qed.

(** X10.  However [authorize_certificate] ends, it has done one of three
    things.  Nothing was provisioned, and it returned [None] or raised.  Or
    the scheme is dns01, one TXT record was added, nothing was registered
    for HTTP, and the challenge returned is of type dns-01.  Or the scheme
    is http01, one HTTP challenge was registered, its key authorization
    being that of the token of the challenge returned, of type http-01, and
    the zone is as it was.  So a scheme never provisions for the other, and
    any other scheme string provisions nothing. *)
Theorem authorize_certificate_provisions auth_url auth_scheme s r s' :
  authorize_certificate auth_url auth_scheme s = (r, s') ->
  (zone_TXT (world s') = zone_TXT (world s) /\
   http_challenges (world s') = http_challenges (world s) /\
   (r = Ret VNone \/ exists e, r = Raise e)) \/
  (auth_scheme = str "dns01" /\
   http_challenges (world s') = http_challenges (world s) /\
   exists ch name txt,
     r = Ret ch /\ member ch "type" = Some (VStr (str "dns-01")) /\
     zone_TXT (world s') = zone_TXT (world s) ++ [(name, txt)]) \/
  (auth_scheme = str "http01" /\
   zone_TXT (world s') = zone_TXT (world s) /\
   exists ch tv token,
     r = Ret ch /\ member ch "type" = Some (VStr (str "http-01")) /\
     member ch "token" = Some tv /\ format_str tv = Some token /\
     http_challenges (world s') =
       http_challenges (world s) ++ [(tv, spec_key_authorization token (key (self s)))]).
Proof.
  rewrite authorize_certificate_eq.
  pose proof (create_jose_kid_ends (VStr auth_url) (VStr []) s) as NR.
  destruct (create_jose_kid (VStr auth_url) (VStr []) s) as [[env|e|] s1] eqn:E;
    destruct (create_jose_kid_frame _ _ _ _ _ E) as ((U1 & U2 & U3 & _) & _);
    [| intros [= <- <-]; left; eauto | exfalso; apply NR; reflexivity ].
  destruct (setting_fields _ _ U1) as (K & _).
  cbv zeta. set (s2 := snd (jose_session_post auth_url None env s1)).
  assert (Z2 : zone_TXT (world s2) = zone_TXT (world s)) by exact U2.
  assert (H2 : http_challenges (world s2) = http_challenges (world s)) by exact U3.
  assert (K2 : key (self s2) = key (self s)) by exact K.
  clearbody s2. clear E U1 U2 U3 K NR.
  destruct (status_code _ =? 200)%Z; [|intros [= <- <-]; left; auto].
  destruct (json _) as [obj|]; [|intros [= <- <-]; left; eauto].
  rewrite getitem_eq. destruct obj as [| | | | |od]; try (intros [= <- <-]; left; eauto).
  destruct (dict_get od (str "challenges")) as [cs|]; [|intros [= <- <-]; left; eauto].
  destruct cs as [| | | cstr | l | cd]; cbn [iterate ret raise];
    try (intros [= <- <-]; left; eauto); intros H;
    apply authorize_challenges_run in H;
    (destruct H as [(-> & R) | [(ch & tv & token & d & R & _ & Sch & Ty & _ & _ & ->)
                                | (ch & tv & token & R & _ & Sch & Ty & Tk & Ft & ->)]];
     [ left; auto
     | right; left; split; [exact Sch|]; split; [exact H2|];
       exists ch; eexists; eexists; split; [exact R|]; split; [exact Ty|];
       cbn; rewrite Z2; reflexivity
     | right; right; split; [exact Sch|]; split; [exact Z2|];
       exists ch, tv, token; split; [exact R|]; split; [exact Ty|];
       split; [exact Tk|]; split; [exact Ft|]; cbn; rewrite H2, K2; reflexivity ]).
Qed.

Lemma authorize_certificate_provisions_witness :
  exists r s',
    authorize_certificate (str "https://ca/authz/1") (str "dns-01")
      (demo_state (fun _ => demo_response 200 []
         (Some (VDict [(str "challenges",
                        VList [VDict [(str "type", VStr (str "dns-01"));
                                      (str "token", VStr (str "Qg6b"))]])]))))
    = (r, s') /\
    zone_TXT (world s') = [] /\ http_challenges (world s') = [].
Proof.
  eexists. eexists. split; [vm_compute; reflexivity|].
  match goal with |- zone_TXT (world ?st) = _ /\ _ =>
    destruct (authorize_certificate_provisions (str "https://ca/authz/1") (str "dns-01")
      (demo_state (fun _ => demo_response 200 []
         (Some (VDict [(str "challenges",
                        VList [VDict [(str "type", VStr (str "dns-01"));
                                      (str "token", VStr (str "Qg6b"))]])]))))
      (Ret VNone) st eq_refl) as [(Z & H & _) | [(Sch & _) | (Sch & _)]]
  end.
  - split; [exact Z | exact H].
  - discriminate Sch.
  - discriminate Sch.
Defined.

(** X11.  [authorize_certificate] returns [None], with nothing provisioned
    and one answer consumed, when the answer has a status other than 200, and
    when it has status 200 and no listed challenge is of the type the scheme
    asks for (for a scheme that is neither dns01 nor http01: whatever the
    types are). *)
Theorem authorize_certificate_no_match auth_url auth_scheme s :
  nonce_header_present (next_client_response s) ->
  (status_code (next_jose_response s) <> 200%Z \/
   exists obj cs,
     json (next_jose_response s) = Some obj /\
     member obj "challenges" = Some (VList cs) /\
     Forall (passed_over auth_scheme) cs) ->
  exists s',
    authorize_certificate auth_url auth_scheme s = (Ret VNone, s') /\
    zone_TXT (world s') = zone_TXT (world s) /\
    http_challenges (world s') = http_challenges (world s) /\
    jose_calls (world s') = S (jose_calls (world s)).
Proof.
  intros N H.
  destruct (authorize_posted auth_url s N) as (env & s1 & E & R & _ & Z & Hc & Jc & _).
  rewrite authorize_certificate_eq, E. cbv zeta. rewrite R.
  set (s2 := snd (jose_session_post auth_url None env s1)) in *.
  destruct (status_code (next_jose_response s) =? 200)%Z eqn:C.
  - destruct H as [H | (obj & cs & J & M & P)]; [apply Z.eqb_eq in C; contradiction|].
    rewrite J, (member_getitem _ _ _ s2 M). cbn [iterate ret].
    rewrite <- (app_nil_r cs), (authorize_challenges_passed obj _ [] s2 cs P).
    exists s2. auto.
  - exists s2. auto.
Qed.

Lemma authorize_certificate_no_match_witness :
  exists s',
    authorize_certificate (str "https://ca/authz/1") (str "dns01")
      (demo_state (fun _ => demo_response 200 []
         (Some (VDict [(str "challenges",
                        VList [VDict [(str "type", VStr (str "tls-alpn-01"));
                                      (str "token", VStr (str "Qg6b"))]])]))))
    = (Ret VNone, s') /\
    zone_TXT (world s') = [] /\ jose_calls (world s') = 1%nat.
Proof.
  destruct (authorize_certificate_no_match (str "https://ca/authz/1") (str "dns01")
      (demo_state (fun _ => demo_response 200 []
         (Some (VDict [(str "challenges",
                        VList [VDict [(str "type", VStr (str "tls-alpn-01"));
                                      (str "token", VStr (str "Qg6b"))]])])))))
    as (s' & E & Z & _ & J).
  - intros _. discriminate.
  - right. eexists. eexists. split; [reflexivity|]. split; [reflexivity|].
    apply Forall_cons; [|apply Forall_nil]. split.
    + exists (VStr (str "Qg6b")). split; [reflexivity | discriminate].
    + exists (VStr (str "tls-alpn-01")). split; [reflexivity | discriminate].
  - exists s'. split; [exact E|]. split; [exact Z | exact J].
Defined.

(** *** The second monad *)

Lemma and_then_returns {A B} (m : Method A) (f : A -> Method B) p a p' :
  m p = (Returns a, p') -> and_then m f p = f a p'.
Proof. intros H. unfold and_then. rewrite H. reflexivity. Qed.

Lemma and_then_raises {A B} (m : Method A) (f : A -> Method B) p e p' :
  m p = (Raises e, p') -> and_then m f p = (Raises e, p').
Proof. intros H. unfold and_then. rewrite H. reflexivity. Qed.

Lemma lift_ret {A} (m : M A) p a s :
  m (state p) = (Ret a, s) -> lift m p = (Returns a, with_state p s).
Proof. intros H. unfold lift. rewrite H. reflexivity. Qed.

Lemma lift_raise {A} (m : M A) p e s :
  m (state p) = (Raise e, s) -> lift m p = (Raises (Py e), with_state p s).
Proof. intros H. unfold lift. rewrite H. reflexivity. Qed.

Tactic Notation "mstep" uconstr(E) := (erewrite and_then_returns by exact E); cbv zeta.

Lemma lift_getitem obj k v p :
  member obj k = Some v -> lift (getitem obj (str k)) p = (Returns v, p).
Proof.
  intros H. rewrite (lift_ret _ p v (state p) (member_getitem _ _ _ _ H)).
  destruct p; reflexivity.
Qed.

Lemma json_of_some r obj p : json r = Some obj -> json_of r p = (Returns obj, p).
Proof.
  intros H. unfold json_of. rewrite (lift_ret _ p obj (state p)).
  - destruct p; reflexivity.
  - rewrite H. reflexivity.
Qed.

(** *** [get_directory] *)

Lemma get_directory_run p obj revokeCert newNonce newAccount newOrder :
  status_code (next_client_response (state p)) = 200%Z ->
  json (next_client_response (state p)) = Some obj ->
  member obj "revokeCert" = Some revokeCert ->
  member obj "newNonce" = Some (VStr newNonce) ->
  member obj "newAccount" = Some newAccount ->
  member obj "newOrder" = Some newOrder ->
  get_directory p = (Returns obj, resolved p revokeCert newNonce newAccount newOrder).
Proof.
  intros C J M1 M2 M3 M4. unfold get_directory.
  mstep (eq_refl : get_endpoints p = (Returns (endpoints p), p)).
  mstep (lift_ret _ p _ _ eq_refl). cbn [client_session_get fst snd].
  fold (next_client_response (state p)). apply Z.eqb_eq in C. rewrite C.
  mstep (json_of_some _ _ _ J).
  mstep (lift_getitem _ _ _ _ M1).
  erewrite and_then_returns by reflexivity.
  mstep (lift_getitem _ _ _ _ M2).
  erewrite and_then_returns by reflexivity.
  mstep (lift_getitem _ _ _ _ M3).
  erewrite and_then_returns by reflexivity.
  mstep (lift_getitem _ _ _ _ M4).
  erewrite and_then_returns by reflexivity.
  reflexivity.
Qed.

Lemma get_directory_not_200 p :
  status_code (next_client_response (state p)) <> 200%Z ->
  get_directory p
  = (Returns VNone,
     with_state p (snd (client_session_get (directory (endpoints p)) (state p)))).
Proof.
  intros C. unfold get_directory.
  mstep (eq_refl : get_endpoints p = (Returns (endpoints p), p)).
  mstep (lift_ret _ p _ _ eq_refl). cbn [client_session_get fst snd].
  fold (next_client_response (state p)). apply Z.eqb_neq in C. rewrite C. reflexivity.
Qed.

(** X12.  On an answer of status 200 whose object has the four members,
    [get_directory] returns the object and stores the four URLs, with one
    GET to the directory URL and the account and the key untouched; from
    then on an envelope fetches its nonce from the newNonce URL of the
    directory. *)
Theorem get_directory_resolves p obj revokeCert newNonce newAccount newOrder :
  status_code (next_client_response (state p)) = 200%Z ->
  json (next_client_response (state p)) = Some obj ->
  member obj "revokeCert" = Some revokeCert ->
  member obj "newNonce" = Some (VStr newNonce) ->
  member obj "newAccount" = Some newAccount ->
  member obj "newOrder" = Some newOrder ->
  exists p',
    get_directory p = (Returns obj, p') /\
    endpoints p' = {| directory := directory (endpoints p);
                      revokeCert_url := revokeCert;
                      newAccount_url := newAccount;
                      newOrder_url := newOrder |} /\
    newNonce_url (self (state p')) = Some newNonce /\
    account_kid (self (state p')) = account_kid (self (state p)) /\
    key (self (state p')) = key (self (state p)) /\
    sent (world (state p')) = sent (world (state p)) ++ [GET (directory (endpoints p))] /\
    forall jwk_mode url payload,
      sent (world (snd (create_jose jwk_mode url payload (state p'))))
      = sent (world (state p)) ++ [GET (directory (endpoints p)); GET newNonce].
Proof.
  intros C J M1 M2 M3 M4.
  exists (resolved p revokeCert newNonce newAccount newOrder).
  split; [apply get_directory_run; assumption|].
  repeat (split; [reflexivity|]).
  intros jwk_mode url payload.
  destruct (create_jose_fetch jwk_mode url payload
              (state (resolved p revokeCert newNonce newAccount newOrder))
              newNonce eq_refl) as (S1 & _).
  rewrite S1. cbn. rewrite <- app_assoc. reflexivity.
Qed.

Lemma get_directory_resolves_witness :
  exists p',
    get_directory (demo_program demo_ca_client demo_ca) = (Returns demo_directory, p') /\
    newNonce_url (self (state p')) = Some (str "https://ca/nonce") /\
    newOrder_url (endpoints p') = VStr (str "https://ca/order") /\
    sent (world (state p')) = [GET (str "https://ca/dir")].
Proof.
  destruct (get_directory_resolves (demo_program demo_ca_client demo_ca) demo_directory
              (VStr (str "https://ca/revoke")) (str "https://ca/nonce")
              (VStr (str "https://ca/acct")) (VStr (str "https://ca/order"))
              eq_refl eq_refl eq_refl eq_refl eq_refl eq_refl)
    as (p' & E & En & Nn & _ & _ & St & _).
  exists p'. split; [exact E|]. split; [exact Nn|]. split; [rewrite En; reflexivity|].
  exact St.
Defined.

Lemma lift_getitem_missing d k p :
  dict_get d (str k) = None ->
  lift (getitem (VDict d) (str k)) p = (Raises (Py (KeyError (str k))), p).
Proof.
  intros H. rewrite (lift_raise _ p (KeyError (str k)) (state p)).
  - destruct p; reflexivity.
  - cbn [getitem]. rewrite H. reflexivity.
Qed.

(** X13.  On an answer of another status [get_directory] returns [None] and
    changes nothing of the client.  On an answer of status 200 whose object
    lacks newAccount it raises [KeyError] with the client half configured:
    the revokeCert and newNonce URLs are those of the object, the newAccount
    and newOrder URLs are as before. *)
Theorem get_directory_failure p :
  (status_code (next_client_response (state p)) <> 200%Z ->
   exists p',
     get_directory p = (Returns VNone, p') /\
     endpoints p' = endpoints p /\ self (state p') = self (state p) /\
     sent (world (state p')) = sent (world (state p)) ++ [GET (directory (endpoints p))]) /\
  (forall d revokeCert newNonce,
     status_code (next_client_response (state p)) = 200%Z ->
     json (next_client_response (state p)) = Some (VDict d) ->
     dict_get d (str "revokeCert") = Some revokeCert ->
     dict_get d (str "newNonce") = Some (VStr newNonce) ->
     dict_get d (str "newAccount") = None ->
     exists p',
       get_directory p = (Raises (Py (KeyError (str "newAccount"))), p') /\
       revokeCert_url (endpoints p') = revokeCert /\
       newNonce_url (self (state p')) = Some newNonce /\
       newAccount_url (endpoints p') = newAccount_url (endpoints p) /\
       newOrder_url (endpoints p') = newOrder_url (endpoints p)).
Proof.
  split.
  - intros C. rewrite (get_directory_not_200 p C). eexists. split; [reflexivity|].
    cbn. auto.
  - intros d revokeCert newNonce C J M1 M2 M3. unfold get_directory.
    mstep (eq_refl : get_endpoints p = (Returns (endpoints p), p)).
    mstep (lift_ret _ p _ _ eq_refl). cbn [client_session_get fst snd].
    fold (next_client_response (state p)). apply Z.eqb_eq in C. rewrite C.
    mstep (json_of_some _ _ _ J).
    mstep (lift_getitem (VDict d) "revokeCert" _ _ M1).
    erewrite and_then_returns by reflexivity.
    mstep (lift_getitem (VDict d) "newNonce" _ _ M2).
    erewrite and_then_returns by reflexivity.
    erewrite and_then_raises by (apply lift_getitem_missing; exact M3).
    eexists. split; [reflexivity|]. cbn. auto.
Qed.

Lemma get_directory_failure_witness :
  exists p',
    get_directory
      (demo_program (fun _ => demo_response 200 []
                                (Some (VDict [(str "revokeCert", VStr (str "https://ca/revoke"));
                                              (str "newNonce", VStr (str "https://ca/nonce"))])))
         demo_ca)
    = (Raises (Py (KeyError (str "newAccount"))), p') /\
    newNonce_url (self (state p')) = Some (str "https://ca/nonce") /\
    newOrder_url (endpoints p') = VNone.
Proof.
  destruct (proj2 (get_directory_failure
      (demo_program (fun _ => demo_response 200 []
                                (Some (VDict [(str "revokeCert", VStr (str "https://ca/revoke"));
                                              (str "newNonce", VStr (str "https://ca/nonce"))])))
         demo_ca))
      [(str "revokeCert", VStr (str "https://ca/revoke"));
       (str "newNonce", VStr (str "https://ca/nonce"))]
      (VStr (str "https://ca/revoke")) (str "https://ca/nonce")
      eq_refl eq_refl eq_refl eq_refl eq_refl) as (p' & E & _ & Nn & _ & No).
  exists p'. split; [exact E|]. split; [exact Nn | exact No].
Defined.

(** *** An envelope, built and posted *)

Lemma create_jose_frame jwk_mode url payload s r s' :
  create_jose jwk_mode url payload s = (r, s') -> untouched s s' /\ fetched s s'.
Proof.
  rewrite create_jose_eq.
  destruct (get_nonce s) as [[nonce|e|] s1] eqn:G;
    destruct (get_nonce_frame _ _ _ G) as (U & F & _);
    cbv zeta; intros [= <- <-]; auto.
Qed.

Lemma create_jose_decoded jwk_mode url payload s env s' :
  create_jose jwk_mode url payload s = (Ret env, s') ->
  decoded env "protected"
  = Some (json_bytes (protected_of jwk_mode s (next_nonce s) url)) /\
  member env "payload" = Some (VStr (encoded_payload jwk_mode payload)).
Proof.
  rewrite create_jose_eq, get_nonce_eq. unfold next_nonce, nonce_of.
  destruct (newNonce_url (self s)) as [nu|].
  - cbv zeta. destruct ((_ =? 200) || _)%Z.
    + destruct (header_get _ (str "Replay-Nonce")) as [n|]; [|discriminate].
      intros [= <- _]. split; [apply decoded_protected | reflexivity].
    + intros [= <- _]. split; [apply decoded_protected | reflexivity].
  - intros [= <- _]. split; [apply decoded_protected | reflexivity].
Qed.

Lemma create_jose_returns jwk_mode url payload s :
  nonce_header_present (next_client_response s) ->
  exists env s1,
    create_jose jwk_mode url payload s = (Ret env, s1) /\
    decoded env "protected"
    = Some (json_bytes (protected_of jwk_mode s (next_nonce s) url)) /\
    member env "payload" = Some (VStr (encoded_payload jwk_mode payload)).
Proof.
  intros N. rewrite create_jose_eq, get_nonce_eq.
  unfold next_nonce, nonce_of, nonce_header_present in *.
  destruct (newNonce_url (self s)) as [nu|].
  - cbv zeta. destruct ((_ =? 200) || _)%Z eqn:C.
    + apply orb_true_iff in C. rewrite !Z.eqb_eq in C. specialize (N C).
      destruct (header_get _ _) as [n|]; [|contradiction].
      eexists. eexists. split; [reflexivity|].
      split; [apply decoded_protected | reflexivity].
    + eexists. eexists. split; [reflexivity|].
      split; [apply decoded_protected | reflexivity].
  - eexists. eexists. split; [reflexivity|].
    split; [apply decoded_protected | reflexivity].
Qed.

Lemma create_jose_posted jwk_mode url payload u s :
  nonce_header_present (next_client_response s) ->
  exists env s1,
    create_jose jwk_mode url payload s = (Ret env, s1) /\
    next_jose_response s1 = next_jose_response s /\
    decoded env "protected"
    = Some (json_bytes (protected_of jwk_mode s (next_nonce s) url)) /\
    member env "payload" = Some (VStr (encoded_payload jwk_mode payload)) /\
    let s2 := snd (jose_session_post u None env s1) in
    setting s2 = setting s /\
    zone_TXT (world s2) = zone_TXT (world s) /\
    http_challenges (world s2) = http_challenges (world s) /\
    jose_calls (world s2) = S (jose_calls (world s)) /\
    exists g, sent (world s2) = sent (world s) ++ g ++ [POST u None env] /\ only_gets g.
Proof.
  intros N. destruct (create_jose_returns jwk_mode url payload s N) as (env & s1 & E & D & P).
  destruct (create_jose_frame _ _ _ _ _ _ E) as ((U1 & U2 & U3 & U4 & _) & (g & G1 & G2)).
  destruct (setting_fields _ _ U1) as (_ & _ & _ & _ & _ & _ & J).
  exists env, s1. split; [exact E|]. split.
  { unfold next_jose_response. rewrite U4, J. reflexivity. }
  split; [exact D|]. split; [exact P|]. cbn.
  split; [exact U1|]. split; [exact U2|]. split; [exact U3|]. split; [congruence|].
  exists g. split; [rewrite G1, <- app_assoc; reflexivity | exact G2].
Qed.

Lemma setting_client s s' :
  setting s' = setting s ->
  newNonce_url (self s') = newNonce_url (self s) /\
  account_kid (self s') = account_kid (self s) /\
  key (self s') = key (self s).
Proof. unfold setting. intros H. injection H as -> -> -> _. auto. Qed.

Lemma post_str u body p :
  post (VStr u) body p
  = (Returns (next_jose_response (state p)),
     with_state p (snd (jose_session_post u None body (state p)))).
Proof. reflexivity. Qed.

Lemma header_some r name v p :
  header_get (headers r) name = Some v -> header r name p = (Returns v, p).
Proof.
  intros H. unfold header. rewrite (lift_ret _ p v (state p)).
  - destruct p; reflexivity.
  - rewrite H. reflexivity.
Qed.

(** X14.  When the newAccount endpoint answers 201 with a JSON body and a
    Location header, [create_account] returns the body and stores the
    Location as the account URL; what it posted to the newAccount URL is the
    envelope of the jwk mode (the protected header carries the JWK) with the
    payload [{"termsOfServiceAgreed": true}]; and every envelope of the kid
    mode built afterwards carries that account URL as its kid. *)
Theorem create_account_registers p u obj kid :
  newAccount_url (endpoints p) = VStr u ->
  nonce_header_present (next_client_response (state p)) ->
  status_code (next_jose_response (state p)) = 201%Z ->
  json (next_jose_response (state p)) = Some obj ->
  header_get (headers (next_jose_response (state p))) (str "Location") = Some kid ->
  exists env p',
    create_account p = (Returns obj, p') /\
    account_kid (self (state p')) = Some kid /\
    endpoints p' = endpoints p /\
    (exists g, sent (world (state p')) = sent (world (state p)) ++ g ++ [POST u None env] /\
               only_gets g) /\
    decoded env "protected"
    = Some (json_bytes (protected_of true (state p) (next_nonce (state p)) (VStr u))) /\
    decoded env "payload"
    = Some (json_bytes (VDict [(str "termsOfServiceAgreed", VBool true)])) /\
    forall url payload env' s'',
      create_jose_kid url payload (state p') = (Ret env', s'') ->
      decoded env' "protected"
      = Some (json_bytes (kid_protected (Some kid) (next_nonce (state p')) url)).
Proof.
  intros U N C J L.
  destruct (create_jose_posted true (VStr u)
              (VDict [(str "termsOfServiceAgreed", VBool true)]) u (state p) N)
    as (env & s1 & E & R & D & P & S2 & Z & H & Jc & G).
  unfold create_account. cbv zeta.
  mstep (eq_refl : get_endpoints p = (Returns (endpoints p), p)). rewrite U.
  mstep (lift_ret _ p _ _ E).
  erewrite and_then_returns by reflexivity. cbn [with_state endpoints]. rewrite U.
  mstep (post_str u env _). cbn [with_state state]. rewrite R.
  apply Z.eqb_eq in C. rewrite C.
  mstep (json_of_some _ _ _ J). mstep (header_some _ _ _ _ L).
  erewrite and_then_returns by reflexivity.
  exists env. eexists. split; [reflexivity|]. cbn [state with_state endpoints snd].
  split; [reflexivity|]. split; [reflexivity|]. split; [exact G|].
  split; [exact D|]. split.
  { unfold decoded. rewrite P. apply b64url_roundtrip. }
  intros url payload env' s'' E'.
  apply (create_jose_decoded false url payload _ env' s'' E').
Qed.

Lemma create_account_registers_witness :
  exists env p',
    create_account (demo_registered demo_ca)
    = (Returns (VDict [(str "status", VStr (str "valid"))]), p') /\
    account_kid (self (state p')) = Some (str "https://ca/acct/7") /\
    decoded env "payload"
    = Some (json_bytes (VDict [(str "termsOfServiceAgreed", VBool true)])).
Proof.
  destruct (create_account_registers (demo_registered demo_ca) (str "https://ca/acct")
              (VDict [(str "status", VStr (str "valid"))]) (str "https://ca/acct/7")
              eq_refl) as (env & p' & E & K & _ & _ & _ & P & _).
  - intros _. discriminate.
  - reflexivity.
  - reflexivity.
  - reflexivity.
  - exists env, p'. split; [exact E|]. split; [exact K | exact P].
Defined.




(** X16.  Before the directory is read (the newAccount URL is no string),
    [create_account] raises the exception of [requests] for the URL: no POST
    is sent and no answer consumed, but the envelope was built and signed,
    and the account URL stays as it was. *)
Theorem create_account_needs_directory p :
  (forall u, newAccount_url (endpoints p) <> VStr u) ->
  nonce_header_present (next_client_response (state p)) ->
  exists p',
    create_account p = (Raises RequestException, p') /\
    jose_calls (world (state p')) = jose_calls (world (state p)) /\
    (exists g, sent (world (state p')) = sent (world (state p)) ++ g /\ only_gets g) /\
    (exists h, signed (world (state p')) = signed (world (state p)) ++ [h]) /\
    account_kid (self (state p')) = account_kid (self (state p)).
Proof.
  intros U N.
  destruct (create_jose_returns true (newAccount_url (endpoints p))
              (VDict [(str "termsOfServiceAgreed", VBool true)]) (state p) N)
    as (env & s1 & E & _).
  destruct (create_jose_frame _ _ _ _ _ _ E) as ((U1 & _ & _ & U4 & _) & F).
  destruct (setting_client _ _ U1) as (_ & K & _).
  assert (Sg : exists h, signed (world s1) = signed (world (state p)) ++ [h]).
  { rewrite create_jose_eq in E.
    destruct (get_nonce (state p)) as [[nonce|e|] s0] eqn:G; try discriminate E.
    destruct (get_nonce_frame _ _ _ G) as (_ & _ & Sg).
    cbv zeta in E. apply ret_inj in E. destruct E as [_ <-].
    cbn [signing_alg_sign snd world signed]. rewrite Sg. eauto. }
  unfold create_account. cbv zeta.
  mstep (eq_refl : get_endpoints p = (Returns (endpoints p), p)).
  mstep (lift_ret _ p _ _ E).
  erewrite and_then_returns by reflexivity. cbn [with_state endpoints].
  exists (with_state p s1). split.
  - destruct (newAccount_url (endpoints p)) as [| | | x | |]; try reflexivity.
    exfalso. apply (U x). reflexivity.
  - cbn [with_state state]. auto.
Qed.

Lemma create_account_needs_directory_witness :
  exists p',
    create_account
      {| endpoints := {| directory := str "https://ca/dir"; revokeCert_url := VNone;
                         newAccount_url := VNone; newOrder_url := VNone |};
         state := {| self := init {| Qx := 1; Qy := 2 |};
                     world := world (demo_state (fun _ => demo_response 201 [] None)) |};
         host := {| calls := []; written := [];
                    generate_keypair := {| Qx := 1; Qy := 2 |};
                    generate_csr_key := fun _ => inr ValueError;
                    load_pem_x509_certificate := fun _ => None |} |}
    = (Raises RequestException, p') /\
    jose_calls (world (state p')) = 0%nat.
Proof.
  destruct (create_account_needs_directory
      {| endpoints := {| directory := str "https://ca/dir"; revokeCert_url := VNone;
                         newAccount_url := VNone; newOrder_url := VNone |};
         state := {| self := init {| Qx := 1; Qy := 2 |};
                     world := world (demo_state (fun _ => demo_response 201 [] None)) |};
         host := {| calls := []; written := [];
                    generate_keypair := {| Qx := 1; Qy := 2 |};
                    generate_csr_key := fun _ => inr ValueError;
                    load_pem_x509_certificate := fun _ => None |} |})
    as (p' & E & J & _).
  - intros u. discriminate.
  - intros _. discriminate.
  - exists p'. split; [exact E | exact J].
Defined.


(** *** The requests of the kid mode *)










(** *** The servers stay as they are *)

Create HintDb frame.

Lemma keeps_ret {A} (a : A) : keeps (ret a).
Proof. intros s. split; [reflexivity | split; cbn; lia]. Qed.

Lemma keeps_raise {A} e : keeps (@raise A e).
Proof. intros s. split; [reflexivity | split; cbn; lia]. Qed.

Lemma keeps_bind {A B} (m : M A) (f : A -> M B) :
  keeps m -> (forall a, keeps (f a)) -> keeps (bind m f).
Proof.
  intros Hm Hf s. unfold bind. specialize (Hm s).
  destruct (m s) as [[a|e|] s1]; cbn [snd] in *; try exact Hm.
  destruct (Hf a s1) as (F1 & F2 & F3). destruct Hm as (M1 & M2 & M3).
  split; [congruence | split; lia].
Qed.

Lemma keeps_or_raise {A} e (o : option A) : keeps (or_raise e o).
Proof. destruct o; [apply keeps_ret | apply keeps_raise]. Qed.

Lemma keeps_getitem obj k : keeps (getitem obj k).
Proof. destruct obj; try apply keeps_raise. apply keeps_or_raise. Qed.

Lemma keeps_iterate obj : keeps (iterate obj).
Proof. destruct obj; try apply keeps_raise; apply keeps_ret. Qed.

Lemma keeps_b64 data : keeps (b64 data).
Proof. apply keeps_or_raise. Qed.

Lemma keeps_format_arg x : keeps (format_arg x).
Proof. apply keeps_or_raise. Qed.

Lemma keeps_get_self : keeps get_self.
Proof. intros s. split; [reflexivity | split; cbn; lia]. Qed.

Lemma keeps_set_nextNonce n : keeps (set_nextNonce n).
Proof. intros s. split; [reflexivity | split; cbn; lia]. Qed.

Lemma keeps_set_account_kid k : keeps (set_account_kid k).
Proof. intros s. split; [reflexivity | split; cbn; lia]. Qed.

Lemma keeps_assign_newNonce_url u : keeps (assign_newNonce_url u).
Proof. intros s. split; [reflexivity | split; cbn; lia]. Qed.

Lemma keeps_client_session_get url : keeps (client_session_get url).
Proof. intros s. split; [reflexivity | split; cbn; lia]. Qed.

Lemma keeps_jose_session_post url data body : keeps (jose_session_post url data body).
Proof. intros s. split; [reflexivity | split; cbn; lia]. Qed.

Lemma keeps_signing_alg_sign h : keeps (signing_alg_sign h).
Proof. intros s. split; [reflexivity | split; cbn; lia]. Qed.

Lemma keeps_zone_add_TXT name txt : keeps (zone_add_TXT name txt).
Proof. intros s. split; [reflexivity | split; cbn; lia]. Qed.

Lemma keeps_register_http_challenge token key_auth :
  keeps (register_http_challenge token key_auth).
Proof. intros s. split; [reflexivity | split; cbn; lia]. Qed.

Lemma keeps_sleep n : keeps (sleep n).
Proof. intros s. split; [reflexivity | split; cbn; lia]. Qed.

#[local] Hint Resolve keeps_ret keeps_raise keeps_or_raise keeps_getitem keeps_iterate
  keeps_b64 keeps_format_arg keeps_get_self keeps_set_nextNonce keeps_set_account_kid
  keeps_assign_newNonce_url keeps_client_session_get keeps_jose_session_post
  keeps_signing_alg_sign keeps_zone_add_TXT keeps_register_http_challenge keeps_sleep
  : frame.

Ltac keeps_step :=
  match goal with
  | |- keeps (bind _ _) => apply keeps_bind; [|intro]
  | |- keeps (if ?b then _ else _) => destruct b
  | |- keeps (match ?x with _ => _ end) => destruct x
  | |- keeps (let _ := _ in _) => cbv zeta
  | |- keeps _ => solve [auto 1 with frame nocore]
  end.

Ltac keeps_auto := repeat keeps_step.

Lemma keeps_get_nonce : keeps get_nonce.
Proof. unfold get_nonce. keeps_auto. Qed.
#[local] Hint Resolve keeps_get_nonce : frame.

Lemma keeps_create_jose_kid url payload : keeps (create_jose_kid url payload).
Proof. unfold create_jose_kid. keeps_auto. Qed.

Lemma keeps_create_jose_jwk url payload : keeps (create_jose_jwk url payload).
Proof. unfold create_jose_jwk, create_jwk_object. keeps_auto. Qed.

Lemma keeps_create_key_authorization token : keeps (create_key_authorization token).
Proof. unfold create_key_authorization. keeps_auto. Qed.
#[local] Hint Resolve keeps_create_jose_kid keeps_create_jose_jwk
  keeps_create_key_authorization : frame.

Lemma keeps_authorize_challenges obj auth_scheme cs :
  keeps (authorize_challenges obj auth_scheme cs).
Proof.
  induction cs as [|c rest IH]; cbn [authorize_challenges]; keeps_auto.
Qed.
#[local] Hint Resolve keeps_authorize_challenges : frame.

Lemma keeps_authorize_certificate auth_url auth_scheme :
  keeps (authorize_certificate auth_url auth_scheme).
Proof. unfold authorize_certificate. keeps_auto. Qed.

Lemma keeps_poll_decide r obj su fa : keeps (poll_decide r obj su fa).
Proof. unfold poll_decide. keeps_auto. Qed.
#[local] Hint Resolve keeps_authorize_certificate keeps_poll_decide : frame.

Lemma keeps_poll_resource_status fuel url su fa :
  keeps (poll_resource_status fuel url su fa).
Proof.
  induction fuel as [|fuel IH]; cbn [poll_resource_status].
  - intros s. split; [reflexivity | split; cbn; lia].
  - keeps_auto.
Qed.
#[local] Hint Resolve keeps_poll_resource_status : frame.

Lemma keeps_finalize_certificate fuel order_url finalize_url der :
  keeps (finalize_certificate fuel order_url finalize_url der).
Proof. unfold finalize_certificate. keeps_auto. Qed.
#[local] Hint Resolve keeps_finalize_certificate : frame.

Lemma preserves_returns {A} (a : A) : preserves (returns a).
Proof. intros p. split; [reflexivity|]. split; [cbn; lia|]. split; [cbn; lia | reflexivity]. Qed.

Lemma preserves_throw {A} e : preserves (@throw A e).
Proof. intros p. split; [reflexivity|]. split; [cbn; lia|]. split; [cbn; lia | reflexivity]. Qed.

Lemma preserves_and_then {A B} (m : Method A) (f : A -> Method B) :
  preserves m -> (forall a, preserves (f a)) -> preserves (and_then m f).
Proof.
  intros Hm Hf p. unfold and_then. specialize (Hm p).
  destruct (m p) as [[a|e|] p1]; cbn [snd] in *; try exact Hm.
  destruct (Hf a p1) as (F1 & F2 & F3 & F4). destruct Hm as (M1 & M2 & M3 & M4).
  split; [congruence|]. split; [lia|]. split; [lia | congruence].
Qed.

Lemma preserves_lift {A} (m : M A) : keeps m -> preserves (lift m).
Proof.
  intros H p. unfold lift. specialize (H (state p)).
  destruct (m (state p)) as [[a|e|] s1]; cbn [snd with_state state host] in *;
    (split; [apply H|]; split; [apply H|]; split; [apply H | reflexivity]).
Qed.

Lemma preserves_get_endpoints : preserves get_endpoints.
Proof. intros p. split; [reflexivity|]. split; [cbn; lia|]. split; [cbn; lia | reflexivity]. Qed.

Lemma preserves_set_endpoints e : preserves (set_endpoints e).
Proof. intros p. split; [reflexivity|]. split; [cbn; lia|]. split; [cbn; lia | reflexivity]. Qed.

Lemma preserves_json_of r : preserves (json_of r).
Proof. apply preserves_lift, keeps_or_raise. Qed.

Lemma preserves_header r name : preserves (header r name).
Proof. apply preserves_lift, keeps_or_raise. Qed.

#[local] Hint Resolve preserves_returns preserves_throw preserves_get_endpoints
  preserves_set_endpoints preserves_json_of preserves_header : frame.

Ltac preserves_step :=
  match goal with
  | |- preserves (and_then _ _) => apply preserves_and_then; [|intro]
  | |- preserves (lift _) => apply preserves_lift; keeps_auto
  | |- preserves (if ?b then _ else _) => destruct b
  | |- preserves (match ?x with _ => _ end) => destruct x
  | |- preserves (let _ := _ in _) => cbv zeta
  | |- preserves _ => solve [auto 1 with frame nocore]
  end.

Ltac preserves_auto := repeat preserves_step.

Lemma preserves_post url body : preserves (post url body).
Proof. unfold post. preserves_auto. Qed.

Lemma preserves_set_newNonce_url v : preserves (set_newNonce_url v).
Proof. unfold set_newNonce_url. preserves_auto. Qed.

Lemma preserves_set_revokeCert_url v : preserves (set_revokeCert_url v).
Proof. unfold set_revokeCert_url. preserves_auto. Qed.

Lemma preserves_set_newAccount_url v : preserves (set_newAccount_url v).
Proof. unfold set_newAccount_url. preserves_auto. Qed.

Lemma preserves_set_newOrder_url v : preserves (set_newOrder_url v).
Proof. unfold set_newOrder_url. preserves_auto. Qed.
#[local] Hint Resolve preserves_post preserves_set_newNonce_url preserves_set_revokeCert_url
  preserves_set_newAccount_url preserves_set_newOrder_url : frame.

Lemma preserves_get_directory : preserves get_directory.
Proof. unfold get_directory. preserves_auto. Qed.

Lemma preserves_create_account : preserves create_account.
Proof. unfold create_account. preserves_auto. Qed.

Lemma preserves_issue_certificate domains nb na :
  preserves (issue_certificate domains nb na).
Proof. unfold issue_certificate. preserves_auto. Qed.

Lemma preserves_validate_certificate url : preserves (validate_certificate url).
Proof. unfold validate_certificate. preserves_auto. Qed.

Lemma preserves_download_certificate url : preserves (download_certificate url).
Proof. unfold download_certificate. preserves_auto. Qed.

Lemma preserves_revoke_certificate cert : preserves (revoke_certificate cert).
Proof. unfold revoke_certificate. preserves_auto. Qed.

Lemma preserves_authorize auth scheme : preserves (authorize auth scheme).
Proof. unfold authorize. preserves_auto. Qed.
#[local] Hint Resolve preserves_get_directory preserves_create_account
  preserves_issue_certificate preserves_validate_certificate
  preserves_download_certificate preserves_revoke_certificate preserves_authorize : frame.

Lemma preserves_authorize_all auth_scheme auths : forall urls,
  preserves (authorize_all auths auth_scheme urls).
Proof.
  induction auths as [|a rest IH]; intros urls; cbn [authorize_all]; preserves_auto.
Qed.

Lemma preserves_validate_all urls : preserves (validate_all urls).
Proof.
  induction urls as [|u rest IH]; cbn [validate_all]; preserves_auto.
Qed.

Lemma preserves_finalize fuel order_url finalize_url der :
  preserves (finalize fuel order_url finalize_url der).
Proof. unfold finalize. preserves_auto. Qed.
#[local] Hint Resolve preserves_authorize_all preserves_validate_all preserves_finalize
  : frame.

(** *** [create_account] as a run *)

Lemma create_account_run p u obj kid :
  newAccount_url (endpoints p) = VStr u ->
  nonce_header_present (next_client_response (state p)) ->
  status_code (next_jose_response (state p)) = 201%Z ->
  json (next_jose_response (state p)) = Some obj ->
  header_get (headers (next_jose_response (state p))) (str "Location") = Some kid ->
  exists env s1,
    create_jose_jwk (VStr u) (VDict [(str "termsOfServiceAgreed", VBool true)]) (state p)
    = (Ret env, s1) /\
    create_account p
    = (Returns obj,
       with_state p (snd (set_account_kid kid (snd (jose_session_post u None env s1))))).
Proof.
  intros U N C J L.
  destruct (create_jose_posted true (VStr u)
              (VDict [(str "termsOfServiceAgreed", VBool true)]) u (state p) N)
    as (env & s1 & E & R & _).
  exists env, s1. split; [exact E|].
  unfold create_account. cbv zeta.
  mstep (eq_refl : get_endpoints p = (Returns (endpoints p), p)). rewrite U.
  mstep (lift_ret _ p _ _ E).
  erewrite and_then_returns by reflexivity. cbn [with_state endpoints]. rewrite U.
  mstep (post_str u env _). cbn [with_state state]. rewrite R.
  apply Z.eqb_eq in C. rewrite C.
  mstep (json_of_some _ _ _ J). mstep (header_some _ _ _ _ L).
  erewrite and_then_returns by reflexivity. reflexivity.
Qed.

Lemma preserves_run {A} (m : Method A) p r p' :
  preserves m -> m p = (r, p') ->
  client_session (world (state p')) = client_session (world (state p)) /\
  jose_session (world (state p')) = jose_session (world (state p)) /\
  (client_calls (world (state p)) <= client_calls (world (state p')))%nat /\
  (jose_calls (world (state p)) <= jose_calls (world (state p')))%nat /\
  host p' = host p.
Proof.
  intros P E. destruct (P p) as (S1 & S2 & S3 & S4). rewrite E in *. cbn [snd] in *.
  unfold servers in S1. injection S1 as -> ->. auto.
Qed.

(** *** Setting up *)

Lemma add_A_records_run record domains : forall p,
  add_A_records domains record p
  = (Returns tt,
     {| endpoints := endpoints p; state := state p;
        host := {| calls := calls (host p) ++ map (fun d => zone_add_A d record) domains;
                   written := written (host p);
                   generate_keypair := generate_keypair (host p);
                   generate_csr_key := generate_csr_key (host p);
                   load_pem_x509_certificate := load_pem_x509_certificate (host p) |} |}).
Proof.
  induction domains as [|d rest IH]; intros p.
  - cbn. rewrite app_nil_r. destruct p as [e s [c w g1 g2 g3]]. reflexivity.
  - cbn [add_A_records map]. unfold and_then at 1. cbn [call]. rewrite IH.
    cbn. rewrite <- app_assoc. reflexivity.
Qed.

Lemma obtain_certificate_set_up fuel nb na args domains p :
  domain args = VList domains ->
  obtain_certificate fuel nb na args p = obtain_steps fuel nb na args (set_up args domains p).
Proof.
  intros D. unfold obtain_certificate.
  erewrite and_then_returns by reflexivity.
  erewrite and_then_returns by reflexivity.
  rewrite D. erewrite and_then_returns by (apply lift_ret; reflexivity). cbv zeta.
  erewrite and_then_returns by apply add_A_records_run.
  erewrite and_then_returns by reflexivity.
  erewrite and_then_returns by reflexivity.
  unfold set_up. cbn. rewrite <- !app_assoc. reflexivity.
Qed.

Lemma nonce_ok_from_next k s s' :
  nonce_ok_from k s ->
  client_session (world s') = client_session (world s) ->
  (k <= client_calls (world s'))%nat ->
  nonce_header_present (next_client_response s').
Proof. intros N Sc L. unfold next_client_response. rewrite Sc. apply N, L. Qed.

Lemma issue_certificate_rejected p u domains notBefore notAfter :
  newOrder_url (endpoints p) = VStr u ->
  nonce_header_present (next_client_response (state p)) ->
  status_code (next_jose_response (state p)) <> 201%Z ->
  exists p',
    issue_certificate (VList domains) notBefore notAfter p = (Returns None, p') /\
    account_kid (self (state p')) = account_kid (self (state p)) /\
    jose_calls (world (state p')) = S (jose_calls (world (state p))) /\
    host p' = host p.
Proof.
  intros U N C. unfold issue_certificate.
  erewrite and_then_returns by (apply lift_ret; reflexivity). cbv zeta.
  replace (with_state p (state p)) with p by (destruct p; reflexivity).
  mstep (eq_refl : get_endpoints p = (Returns (endpoints p), p)). rewrite U.
  match goal with |- context [create_jose_kid (VStr u) ?payload] =>
    destruct (create_jose_posted false (VStr u) payload u (state p) N)
      as (env & s1 & E & R & _ & _ & S2 & _ & _ & Jc & _)
  end.
  destruct (setting_client _ _ S2) as (_ & K & _).
  mstep (lift_ret _ p _ _ E).
  erewrite and_then_returns by reflexivity. cbn [with_state endpoints]. rewrite U.
  mstep (post_str u env _). cbn [with_state state]. rewrite R.
  apply Z.eqb_neq in C. rewrite C.
  eexists. split; [reflexivity|]. cbn [state host]. auto.
Qed.

(** *** [obtain_certificate]: the first steps *)

(** X20.  When the directory answers with a status other than 200,
    [obtain_certificate] returns [False] after one request, the GET of the
    directory: the DNS server and the challenge server were started and one A
    record per domain added, nothing was signed and no file written.  With no
    domain on the command line it raises [TypeError] right after starting the
    challenge server, before any request. *)
Theorem obtain_certificate_no_directory fuel notBefore notAfter args p :
  (forall domains,
     domain args = VList domains ->
     status_code (next_client_response (state p)) <> 200%Z ->
     exists p',
       obtain_certificate fuel notBefore notAfter args p = (Returns Failed, p') /\
       sent (world (state p')) = sent (world (state p)) ++ [GET (dir args)] /\
       signed (world (state p')) = signed (world (state p)) /\
       written (host p') = written (host p) /\
       calls (host p') =
         calls (host p) ++ [newDNSServer; start_http_challenge_server]
           ++ map (fun d => zone_add_A d (record args)) domains ++ [server_start]) /\
  (domain args = VNone ->
   exists p',
     obtain_certificate fuel notBefore notAfter args p = (Raises (Py TypeError), p') /\
     sent (world (state p')) = sent (world (state p)) /\
     calls (host p') = calls (host p) ++ [newDNSServer; start_http_challenge_server]).
Proof.
  split.
  - intros domains D C. rewrite (obtain_certificate_set_up _ _ _ _ _ _ D).
    unfold obtain_steps. erewrite and_then_returns by (apply get_directory_not_200; exact C).
    cbn [truthy negb]. eexists. split; [reflexivity|]. cbn. auto.
  - intros D. unfold obtain_certificate.
    erewrite and_then_returns by reflexivity.
    erewrite and_then_returns by reflexivity.
    rewrite D. erewrite and_then_raises by (apply lift_raise; reflexivity).
    eexists. split; [reflexivity|]. cbn. rewrite <- app_assoc. auto.
Qed.

Lemma truthy_member obj k v : member obj k = Some v -> truthy obj = true.
Proof. destruct obj as [| | | | |d]; try discriminate. destruct d; [discriminate | reflexivity]. Qed.

(** X21.  When the directory is read and the account created, and the
    newOrder endpoint then answers with a status other than 201,
    [obtain_certificate] does not return [False]: unpacking the [None] of
    [issue_certificate] raises [TypeError].  The account stays registered and
    no file is written. *)
Theorem obtain_certificate_order_rejected fuel notBefore notAfter args p domains
    directory revokeCert newNonce newAccount newOrder account kid :
  domain args = VList domains ->
  nonce_ok_from (S (client_calls (world (state p)))) (state p) ->
  status_code (next_client_response (state p)) = 200%Z ->
  json (next_client_response (state p)) = Some directory ->
  member directory "revokeCert" = Some revokeCert ->
  member directory "newNonce" = Some (VStr newNonce) ->
  member directory "newAccount" = Some (VStr newAccount) ->
  member directory "newOrder" = Some (VStr newOrder) ->
  status_code (polled_response (state p) 0) = 201%Z ->
  json (polled_response (state p) 0) = Some account ->
  truthy account = true ->
  header_get (headers (polled_response (state p) 0)) (str "Location") = Some kid ->
  status_code (polled_response (state p) 1) <> 201%Z ->
  exists p',
    obtain_certificate fuel notBefore notAfter args p = (Raises (Py TypeError), p') /\
    account_kid (self (state p')) = Some kid /\
    jose_calls (world (state p')) = (jose_calls (world (state p)) + 2)%nat /\
    written (host p') = written (host p).
Proof.
  intros D Hn C J M1 M2 M3 M4 C0 J0 T0 L0 C1.
  rewrite (obtain_certificate_set_up _ _ _ _ _ _ D). unfold obtain_steps.
  set (p0 := set_up args domains p).
  erewrite and_then_returns
    by (apply (get_directory_run p0 directory revokeCert newNonce (VStr newAccount)
                 (VStr newOrder)); assumption).
  rewrite (truthy_member _ _ _ M1). cbn [negb].
  set (p1 := resolved p0 revokeCert newNonce (VStr newAccount) (VStr newOrder)).
  assert (R0 : next_jose_response (state p1) = polled_response (state p) 0).
  { unfold next_jose_response, polled_response. cbn. rewrite Nat.add_0_r. reflexivity. }
  assert (N1 : nonce_header_present (next_client_response (state p1))).
  { apply (nonce_ok_from_next _ _ _ Hn); [reflexivity | unfold p1, p0; cbn; lia]. }
  destruct (create_account_run p1 newAccount account kid eq_refl N1) as (env & s1 & E & CA);
    try (rewrite R0; assumption).
  erewrite and_then_returns by exact CA. rewrite T0. cbn [negb].
  destruct (preserves_run _ _ _ _ preserves_create_account CA) as (Sc & Sj & Lc & _ & Hh).
  destruct (create_jose_frame true _ _ _ _ _ E) as ((U1 & _ & _ & U4 & _) & _).
  set (p2 := with_state p1 _) in *.
  assert (J2 : jose_calls (world (state p2)) = S (jose_calls (world (state p)))).
  { subst p2. cbn. rewrite U4. reflexivity. }
  destruct (issue_certificate_rejected p2 newOrder domains notBefore notAfter eq_refl)
    as (p3 & I & K3 & J3 & H3).
  - apply (nonce_ok_from_next _ _ _ Hn); [exact Sc | unfold p2, p1, p0 in *; cbn in Lc |- *; lia].
  - unfold next_jose_response. rewrite Sj, J2.
    unfold polled_response in C1. rewrite Nat.add_1_r in C1. exact C1.
  - rewrite D. erewrite and_then_returns by exact I. exists p3.
    split; [reflexivity|]. split; [rewrite K3; reflexivity|].
    split; [rewrite J3, J2; lia|]. rewrite H3, Hh. reflexivity.
Qed.

Lemma obtain_certificate_order_rejected_witness :
  exists p',
    obtain_certificate 3 [] [] demo_args
      (demo_program demo_ca_client
         (fun i => match i with
                   | O => demo_ca 0
                   | _ => demo_response 403 [] (Some (VDict [(str "type", VStr (str "x"))]))
                   end))
    = (Raises (Py TypeError), p') /\
    account_kid (self (state p')) = Some (str "https://ca/acct/7").
Proof.
  destruct (obtain_certificate_order_rejected 3 [] [] demo_args
      (demo_program demo_ca_client
         (fun i => match i with
                   | O => demo_ca 0
                   | _ => demo_response 403 [] (Some (VDict [(str "type", VStr (str "x"))]))
                   end))
      [VStr (str "example.org")] demo_directory (VStr (str "https://ca/revoke"))
      (str "https://ca/nonce") (str "https://ca/acct") (str "https://ca/order")
      (VDict [(str "status", VStr (str "valid"))]) (str "https://ca/acct/7")
      eq_refl) as (p' & E & K & _);
    [ | | | | | | | | | | | | exists p'; split; [exact E | exact K] ];
    try reflexivity.
  - intros i Hi _. destruct i as [|i]; [lia | discriminate].
  - discriminate.
Defined.

Lemma obtain_certificate_no_directory_witness :
  exists p',
    obtain_certificate 3 [] [] demo_args
      (demo_program (fun _ => demo_response 503 [] None) demo_ca)
    = (Returns Failed, p') /\
    sent (world (state p')) = [GET (str "https://ca/dir")].
Proof.
  destruct (proj1 (obtain_certificate_no_directory 3 [] [] demo_args
                     (demo_program (fun _ => demo_response 503 [] None) demo_ca))
              [VStr (str "example.org")] eq_refl) as (p' & E & St & _).
  - discriminate.
  - exists p'. split; [exact E | exact St].
Defined.

(** *** [obtain_certificate]: what a certificate returned went through *)

Lemma and_then_inv {A B} (m : Method A) (f : A -> Method B) p b p' :
  and_then m f p = (Returns b, p') ->
  exists a p1, m p = (Returns a, p1) /\ f a p1 = (Returns b, p').
Proof.
  unfold and_then. destruct (m p) as [[a|e|] p1]; try discriminate. eauto.
Qed.

Lemma later_refl p : later p p.
Proof. unfold later. auto. Qed.

Lemma later_step {A} (m : Method A) p0 p r p' :
  later p0 p -> preserves m -> m p = (r, p') -> later p0 p'.
Proof.
  intros (A1 & A2 & A3 & A4 & A5) P E.
  destruct (preserves_run _ _ _ _ P E) as (B1 & B2 & B3 & B4 & B5).
  unfold later. repeat split; try congruence; lia.
Qed.

Lemma download_certificate_some url p c p' :
  download_certificate url p = (Returns (Some c), p') ->
  exists j, (jose_calls (world (state p)) <= j < jose_calls (world (state p')))%nat /\
            status_code (jose_session (world (state p)) j) = 200%Z /\
            content (jose_session (world (state p)) j) = c.
Proof.
  unfold download_certificate. cbv zeta. intros H.
  apply and_then_inv in H. destruct H as (env & p1 & E & H).
  apply and_then_inv in H. destruct H as (response & p2 & Po & H).
  destruct (preserves_run _ _ _ _ (preserves_lift _ (keeps_create_jose_kid _ _)) E)
    as (_ & Sj & _ & Lj & _).
  destruct url as [| | | u | |]; try discriminate Po.
  rewrite post_str in Po. injection Po as <- <-.
  destruct (status_code _ =? 200)%Z eqn:C; [|discriminate H].
  injection H as <- <-. apply Z.eqb_eq in C. unfold next_jose_response in *.
  rewrite Sj in *. exists (jose_calls (world (state p1))).
  split; [cbn; lia|]. split; [exact C | reflexivity].
Qed.

Lemma obtain_certificate_started fuel nb na args domains p :
  iterate (domain args) (state p) = (Ret domains, state p) ->
  obtain_certificate fuel nb na args p = obtain_steps fuel nb na args (set_up args domains p).
Proof.
  intros D. unfold obtain_certificate.
  erewrite and_then_returns by reflexivity.
  erewrite and_then_returns by reflexivity.
  erewrite and_then_returns by (apply lift_ret; cbn [state]; exact D). cbv zeta.
  erewrite and_then_returns by apply add_A_records_run.
  erewrite and_then_returns by reflexivity.
  erewrite and_then_returns by reflexivity.
  unfold set_up. cbn. rewrite <- !app_assoc. reflexivity.
Qed.

Lemma obtain_certificate_starts fuel nb na args p :
  (exists domains,
     obtain_certificate fuel nb na args p
     = obtain_steps fuel nb na args (set_up args domains p)) \/
  (exists p', obtain_certificate fuel nb na args p = (Raises (Py TypeError), p') /\
              calls (host p') = calls (host p) ++ [newDNSServer; start_http_challenge_server] /\
              written (host p') = written (host p)).
Proof.
  destruct (iterate (domain args) (state p)) as [[domains|e|] s] eqn:I.
  - left. exists domains. apply obtain_certificate_started.
    rewrite I. rewrite (iterate_state _ _ _ _ I). reflexivity.
  - right. unfold obtain_certificate.
    erewrite and_then_returns by reflexivity.
    erewrite and_then_returns by reflexivity.
    assert (e = TypeError) as ->.
    { destruct (domain args); cbn in I; try discriminate I;
        injection I as <- _; reflexivity. }
    pose proof (iterate_state _ _ _ _ I) as ->.
    erewrite and_then_raises by (apply lift_raise; cbn [state]; exact I).
    eexists. split; [reflexivity|]. cbn. rewrite <- app_assoc. auto.
  - destruct (domain args); discriminate I.
Qed.

Tactic Notation "invert_step" hyp(H) ident(a) ident(p1) ident(E) :=
  apply and_then_inv in H; destruct H as (a & p1 & E & H).

(** What a run of the steps that returns a certificate went through. *)
Lemma obtain_steps_obtained fuel nb na args p key cert p' :
  obtain_steps fuel nb na args p = (Returns (Obtained key cert), p') ->
  written (host p') = written (host p) ++ [(key_path, key); (cert_path, cert)] /\
  calls (host p') = calls (host p) /\
  (exists der, generate_csr_key (host p) (domain args) = inl (key, der)) /\
  load_pem_x509_certificate (host p) cert <> None /\
  cert <> [] /\
  exists j, (jose_calls (world (state p)) <= j < jose_calls (world (state p')))%nat /\
            status_code (jose_session (world (state p)) j) = 200%Z /\
            content (jose_session (world (state p)) j) = cert.
Proof.
  unfold obtain_steps. intros H.
  invert_step H directory p1 E1.
  pose proof (later_step _ _ _ _ _ (later_refl p) preserves_get_directory E1) as L1.
  destruct (negb (truthy directory)); [discriminate H|].
  invert_step H account p2 E2.
  pose proof (later_step _ _ _ _ _ L1 preserves_create_account E2) as L2.
  destruct (negb (truthy account)); [discriminate H|].
  invert_step H order p3 E3.
  pose proof (later_step _ _ _ _ _ L2 (preserves_issue_certificate _ _ _) E3) as L3.
  destruct order as [[certificate_order order_url]|]; [|discriminate H].
  destruct (negb (truthy certificate_order)); [discriminate H|].
  invert_step H finalize_url p4 E4.
  pose proof (later_step _ _ _ _ _ L3 (preserves_lift _ (keeps_getitem _ _)) E4) as L4.
  invert_step H auths p5 E5.
  pose proof (later_step _ _ _ _ _ L4 (preserves_lift _ (keeps_getitem _ _)) E5) as L5.
  invert_step H auths' p6 E6.
  pose proof (later_step _ _ _ _ _ L5 (preserves_lift _ (keeps_iterate _)) E6) as L6.
  invert_step H validate_urls p7 E7.
  pose proof (later_step _ _ _ _ _ L6 (preserves_authorize_all _ _ _) E7) as L7.
  destruct validate_urls as [validate_urls|]; [|discriminate H].
  invert_step H valid p8 E8.
  pose proof (later_step _ _ _ _ _ L7 (preserves_validate_all _) E8) as L8.
  destruct (negb valid); [discriminate H|].
  invert_step H h p9 E9. injection E9 as <- <-.
  invert_step H kd p10 E10.
  destruct (generate_csr_key (host p8) (domain args)) as [kd'|e] eqn:G; [|discriminate E10].
  injection E10 as <- <-. destruct kd' as [k der].
  invert_step H certificate_url p11 E11.
  pose proof (later_step _ _ _ _ _ L8 (preserves_finalize _ _ _ _) E11) as L11.
  destruct (negb (truthy certificate_url)); [discriminate H|].
  invert_step H downloaded p12 E12.
  pose proof (later_step _ _ _ _ _ L11 (preserves_download_certificate _) E12) as L12.
  destruct downloaded as [[|b c]|]; try discriminate H.
  destruct (download_certificate_some _ _ _ _ E12) as (j & Jb & Jc & Jd).
  invert_step H u p13 E13. unfold write_certificates in E13.
  invert_step E13 u1 p14 E14. injection E14 as <- <-. injection E13 as <- <-.
  invert_step H h2 p15 E15. injection E15 as <- <-.
  cbn [host write_file snd load_pem_x509_certificate] in H.
  destruct L12 as (A1 & A2 & A3 & A4 & A5). rewrite A5 in H.
  destruct L8 as (_ & _ & _ & _ & B5). rewrite B5 in G.
  destruct L11 as (_ & C2 & _ & C4 & _).
  destruct (load_pem_x509_certificate (host p) (b :: c)) as [crypto_der|] eqn:Lp;
    [|discriminate H].
  invert_step H u2 p16 E16.
  injection H as <- <- <-.
  assert (Hh : written (host p16)
               = (written (host p) ++ [(key_path, k)]) ++ [(cert_path, b :: c)] /\
               calls (host p16) = calls (host p) /\
               (jose_calls (world (state p12)) <= jose_calls (world (state p16)))%nat).
  { destruct (revoke args).
    - invert_step E16 r p17 E17. injection E16 as _ <-.
      destruct (preserves_run _ _ _ _ (preserves_revoke_certificate _) E17)
        as (_ & _ & _ & R4 & R5).
      rewrite R5. cbn [host written calls]. split; [reflexivity|].
      split; [reflexivity | exact R4].
    - injection E16 as _ <-. cbn [host written calls state]. split; [reflexivity|].
      split; [reflexivity | lia]. }
  destruct Hh as (Hw & Hc & Hj). rewrite Hw, Hc, <- app_assoc.
  split; [reflexivity|]. split; [reflexivity|]. split; [eauto|].
  split; [rewrite Lp; discriminate|]. split; [discriminate|].
  exists j. rewrite C2 in Jc, Jd. split; [lia|]. split; assumption.
Qed.

Example obtain_certificate_demo :
  let run := obtain_certificate 3 (str "2021-01-01T00:00:00+00:00")
               (str "2022-01-01T00:00:00+00:00") demo_args
               (demo_program demo_ca_client demo_ca) in
  fst run = Returns (Obtained [x6b; x65; x79] [x2d; x2d; x2d; x2d; x2d]) /\
  map (fun q => match q with GET u => u | POST u _ _ => u end)
      (sent (world (state (snd run))))
  = [str "https://ca/dir";
     str "https://ca/nonce"; str "https://ca/acct";
     str "https://ca/nonce"; str "https://ca/order";
     str "https://ca/nonce"; str "https://ca/authz/1";
     str "https://ca/nonce"; str "https://ca/chall/1";
     str "https://ca/nonce"; str "https://ca/order/1";
     str "https://ca/nonce"; str "https://ca/finalize/1";
     str "https://ca/nonce"; str "https://ca/order/1";
     str "https://ca/nonce"; str "https://ca/cert/1";
     str "https://ca/nonce"; str "https://ca/revoke"] /\
  map fst (zone_TXT (world (state (snd run)))) = [str "_acme-challenge.example.org"] /\
  calls (host (snd run))
  = [newDNSServer; start_http_challenge_server;
     zone_add_A (VStr (str "example.org")) (str "1.2.3.4"); server_start].
Proof. repeat split; vm_compute; reflexivity. Qed.

(** X22.  When [obtain_certificate] returns a key and a certificate, the
    key is the one [generate_csr_key] made for the domains; the certificate
    is the content, not empty, of an answer of status 200 received during
    the run, and it loads as a PEM certificate; and exactly these two were
    written, the key to [key_path] and then the certificate to
    [cert_path]. *)
Theorem obtain_certificate_obtained fuel notBefore notAfter args p key cert p' :
  obtain_certificate fuel notBefore notAfter args p = (Returns (Obtained key cert), p') ->
  written (host p') = written (host p) ++ [(key_path, key); (cert_path, cert)] /\
  (exists der, generate_csr_key (host p) (domain args) = inl (key, der)) /\
  load_pem_x509_certificate (host p) cert <> None /\
  cert <> [] /\
  exists j, (jose_calls (world (state p)) <= j < jose_calls (world (state p')))%nat /\
            status_code (jose_session (world (state p)) j) = 200%Z /\
            content (jose_session (world (state p)) j) = cert.
Proof.
  intros H.
  destruct (obtain_certificate_starts fuel notBefore notAfter args p)
    as [(domains & E) | (p1 & E & _)]; rewrite E in H; [|discriminate H].
  destruct (obtain_steps_obtained _ _ _ _ _ _ _ _ H) as (W & _ & G & L & Ne & J).
  auto.
Qed.

Lemma obtain_certificate_obtained_witness :
  exists p',
    obtain_certificate 3 (str "2021-01-01T00:00:00+00:00")
      (str "2022-01-01T00:00:00+00:00") demo_args (demo_program demo_ca_client demo_ca)
    = (Returns (Obtained [x6b; x65; x79] [x2d; x2d; x2d; x2d; x2d]), p') /\
    written (host p')
    = [(key_path, [x6b; x65; x79]); (cert_path, [x2d; x2d; x2d; x2d; x2d])].
Proof.
  assert (E : obtain_certificate 3 (str "2021-01-01T00:00:00+00:00")
                (str "2022-01-01T00:00:00+00:00") demo_args
                (demo_program demo_ca_client demo_ca)
              = (Returns (Obtained [x6b; x65; x79] [x2d; x2d; x2d; x2d; x2d]),
                 snd (obtain_certificate 3 (str "2021-01-01T00:00:00+00:00")
                        (str "2022-01-01T00:00:00+00:00") demo_args
                        (demo_program demo_ca_client demo_ca))))
    by (vm_compute; reflexivity).
  eexists. split; [exact E|].
  apply (obtain_certificate_obtained _ _ _ _ _ _ _ _ E).
Defined.

(** X23.  When [obtain_certificate] returns [False],
    [start_server_to_use_certificate] raises [TypeError] at the unpacking of
    the result (it never gets to test the key).  When it returns, a
    certificate was obtained and written with its key, and the calls made are
    those of the set-up followed by the stop of the DNS server and the start
    of the HTTPS server on the two files. *)
Theorem start_server_to_use_certificate_outcome fuel notBefore notAfter args p :
  (forall p1,
     obtain_certificate fuel notBefore notAfter args p = (Returns Failed, p1) ->
     start_server_to_use_certificate fuel notBefore notAfter args p
     = (Raises (Py TypeError), p1)) /\
  (forall p',
     start_server_to_use_certificate fuel notBefore notAfter args p = (Returns tt, p') ->
     exists key cert domains,
       fst (obtain_certificate fuel notBefore notAfter args p) = Returns (Obtained key cert) /\
       written (host p') = written (host p) ++ [(key_path, key); (cert_path, cert)] /\
       load_pem_x509_certificate (host p) cert <> None /\
       calls (host p') =
         calls (host p) ++ [newDNSServer; start_http_challenge_server]
           ++ map (fun d => zone_add_A d (record args)) domains
           ++ [server_start; pkill_dns_server; start_https_server key_path cert_path]).
Proof.
  split.
  - intros p1 H. unfold start_server_to_use_certificate.
    erewrite and_then_returns by exact H. reflexivity.
  - intros p' H. unfold start_server_to_use_certificate in H.
    apply and_then_inv in H. destruct H as (r & p1 & E & H).
    destruct r as [|key cert]; [discriminate H|].
    cbn in H. injection H as <-.
    destruct (obtain_certificate_starts fuel notBefore notAfter args p)
      as [(domains & S) | (p2 & S & _)]; [|rewrite S in E; discriminate E].
    rewrite E. rewrite S in E.
    destruct (obtain_steps_obtained _ _ _ _ _ _ _ _ E) as (W & C & _ & L & _).
    exists key, cert, domains. cbn [host written calls fst].
    split; [reflexivity|]. split; [exact W|]. split; [exact L|].
    rewrite C. cbn [set_up host calls]. rewrite <- !app_assoc. reflexivity.
Qed.

Lemma start_server_to_use_certificate_outcome_witness :
  exists p',
    start_server_to_use_certificate 3 [] [] demo_args
      (demo_program (fun _ => demo_response 503 [] None) demo_ca)
    = (Raises (Py TypeError), p') /\
    calls (host p')
    = [newDNSServer; start_http_challenge_server;
       zone_add_A (VStr (str "example.org")) (str "1.2.3.4"); server_start].
Proof.
  assert (E : obtain_certificate 3 [] [] demo_args
                (demo_program (fun _ => demo_response 503 [] None) demo_ca)
              = (Returns Failed,
                 snd (obtain_certificate 3 [] [] demo_args
                        (demo_program (fun _ => demo_response 503 [] None) demo_ca))))
    by (vm_compute; reflexivity).
  eexists. split.
  - apply (proj1 (start_server_to_use_certificate_outcome 3 [] [] demo_args
                    (demo_program (fun _ => demo_response 503 [] None) demo_ca))).
    exact E.
  - vm_compute. reflexivity.
Defined.
